(** * Git repository and license manager: a shallow embedding of
      [git_manager.py] and the properties of its two core services.

    The services of the program are stateful and fallible: they spawn the
    external tool, look at the file system, write the LICENSE file and
    raise exceptions.  They are embedded in a small state-and-exception
    monad.  The state is the trace of the side effects performed so far,
    the environment answers every request as a function of that trace.

    Text is modelled by [string]; each [ascii] stands for one code point
    below 256.  Calls to the logging module are left out: they write to
    the diagnostic log only. *)

From Stdlib Require Import String Ascii List Bool ZArith NArith Lia.
From Stdlib Require Import DecimalString.
Import ListNotations.

Open Scope string_scope.
Open Scope list_scope.

(** ** Text helpers *)

(** String concatenation is written [+++]; [++] stays list append. *)
Infix "+++" := String.append (right associativity, at level 60).

Module Text.

Definition nl : string := String "010"%char "".
Definition dq : string := String "034"%char "".

(** [sub in s] of Python, as a boolean test. *)
Fixpoint is_prefix (p s : string) : bool :=
  match p, s with
  | EmptyString, _ => true
  | String a p', String b s' => Ascii.eqb a b && is_prefix p' s'
  | String _ _, EmptyString => false
  end.

Fixpoint is_infix (sub s : string) : bool :=
  is_prefix sub s ||
  match s with
  | EmptyString => false
  | String _ s' => is_infix sub s'
  end.

(** The same as a proposition: [sub] occurs somewhere in [s]. *)
Definition contains (s sub : string) : Prop :=
  exists pre post, s = pre +++ sub +++ post.

(** [c in s] for one character. *)
Fixpoint has_char (c : ascii) (s : string) : bool :=
  match s with
  | EmptyString => false
  | String a s' => Ascii.eqb a c || has_char c s'
  end.

(** [s] holds the character NUL, which no path and no argument of a
    process may hold. *)
Definition has_nul (s : string) : bool := has_char "000"%char s.

(** [s.startswith(p)]. *)
Definition startswith (s p : string) : bool := is_prefix p s.

(** [s.split(c)] for a one-character separator: never the empty list,
    and a trailing separator gives a trailing empty field. *)
Fixpoint split_on (c : ascii) (s : string) : list string :=
  match s with
  | EmptyString => [EmptyString]
  | String a s' =>
      if Ascii.eqb a c then EmptyString :: split_on c s'
      else match split_on c s' with
           | h :: t => String a h :: t
           | [] => [String a EmptyString]
           end
  end.

(** [str.isspace] on one code point below 256: TAB, LF, VT, FF, CR,
    the four separators FS..US, SPACE, NEL and NBSP. *)
Definition is_space (a : ascii) : bool :=
  let n := nat_of_ascii a in
  ((9 <=? n) && (n <=? 13) || (28 <=? n) && (n <=? 32) ||
   (n =? 133) || (n =? 160))%nat.

Fixpoint lstrip (s : string) : string :=
  match s with
  | EmptyString => EmptyString
  | String a s' => if is_space a then lstrip s' else s
  end.

(** All of [s] is white space. *)
Fixpoint all_space (s : string) : bool :=
  match s with
  | EmptyString => true
  | String a s' => is_space a && all_space s'
  end.

Fixpoint rstrip (s : string) : string :=
  match s with
  | EmptyString => EmptyString
  | String a s' => if all_space s then EmptyString else String a (rstrip s')
  end.

(** [s.strip()]. *)
Definition strip (s : string) : string := rstrip (lstrip s).

(** [s[n:]]. *)
Fixpoint drop (n : nat) (s : string) : string :=
  match n, s with
  | O, _ => s
  | S n', String _ s' => drop n' s'
  | S _, EmptyString => EmptyString
  end.

(** Truth value of a string: [not s] holds of the empty string only. *)
Definition truthy (s : string) : bool :=
  match s with EmptyString => false | _ => true end.

(** [str(n)] for a non-negative integer. *)
Definition str_of_N (n : N) : string :=
  NilZero.string_of_uint (N.to_uint n).

End Text.

Import Text.

(** ** Exceptions *)

(** What [str(e)] shows of an [OSError], and its subclass. *)
Inductive os_kind : Type :=
| FileNotFoundError
| PermissionError
| NotADirectoryError
| OtherOSError.

Record os_error : Type := { os_class : os_kind; os_str : string }.

(** The exception classes of the program (the hierarchy under
    [RepoManagerError]; every [raise] of the source passes the message
    only, so [error_code] is always [None] and is left out) and the
    interpreter's exceptions that its library calls can raise. *)
Inductive exn : Type :=
| RepoManagerError (message : string)
| GitOperationError (message : string)
| LicenseError (message : string)
| InvalidLicenseError (message : string)
| LicenseGenerationError (message : string)
| ConfigError (message : string)
| CalledProcessError (returncode : Z) (cmd : list string) (output stderr : string)
| OSError (e : os_error)
| ValueError (message : string)
| KeyError (key : string)
| IndexError (message : string).

(** [isinstance(e, RepoManagerError)]: the typed failures of the program. *)
Definition is_RepoManagerError (e : exn) : bool :=
  match e with
  | RepoManagerError _ | GitOperationError _ | LicenseError _
  | InvalidLicenseError _ | LicenseGenerationError _ | ConfigError _ => true
  | _ => false
  end.

(** ** Environment, trace and monad *)

(** How a call of [subprocess.run] ends.  The operating system cannot
    start the child ([SpawnOSError]); or the child runs and exits with a
    status, and its captured output is text ([Exited], the text as the
    program receives it) or bytes that do not decode as text
    ([ExitedUndecodable], with the captured bytes, one [ascii] each, and
    the message of the decoding error); or the library refuses the call
    with [ValueError] before any child is started ([SpawnRefused]), as it
    does when an argument or the directory holds NUL. *)
Inductive SpawnOutcome : Type :=
| SpawnOSError (e : os_error)
| Exited (returncode : Z) (stdout stderr : string)
| ExitedUndecodable (returncode : Z) (stdout stderr : string) (reason : string)
| SpawnRefused (message : string).

(** How a call that makes a directory or writes a file fails: with the
    [OSError] of the operating system, or with the [ValueError] by which
    the library refuses a path before the operating system is asked. *)
Inductive failure : Type :=
| OSFailure (e : os_error)
| Refusal (message : string).

(** What [p.exists()] finds: the path is there, it is not, or the
    look-up fails for another reason (no permission to search a
    directory), which interpreters before 3.14 let through. *)
Inductive StatOutcome : Type :=
| Present
| Absent
| StatOSError (e : os_error).

(** What [open('licenses.json')] followed by [json.load] comes to. *)
Record JsonEntry : Type := {
  json_name : option string;
  json_text : option string;
  json_requires_name : option bool
}.

Inductive LicensesJson : Type :=
| JsonAbsent
| JsonDecodeError (msg : string)
| JsonLoaded (entries : list (string * JsonEntry))
| JsonOtherFailure (msg : string).

(** The side effects, in the order they happen. *)
Inductive Event : Type :=
| EvSpawn (argv : list string) (cwd : option string) (res : SpawnOutcome)
| EvMkdir (path : string) (res : option os_error)
| EvWrite (path text : string) (res : option os_error).

Definition is_spawn (ev : Event) : bool :=
  match ev with EvSpawn _ _ _ => true | _ => false end.

(** A call returns a value or raises. *)
Inductive outcome (A : Type) : Type :=
| Return (a : A)
| Raise (e : exn).
Arguments Return {A} a.
Arguments Raise {A} e.

(** The values passed to [str.format]. *)
Inductive value : Type :=
| VInt (n : N)
| VStr (s : string).

(** The environment: each answer may depend on what happened before.
    The four fields [os_...] are the answers of the operating system to
    the requests that reach it.  [render_extended] is the interpreter's
    rendering of a replacement field that asks for more than the plain
    value (attribute or index access after the argument name, a
    conversion, a non-empty format specification); that part of the
    interpreter is not modelled. *)
Record Env : Type := {
  os_spawn : list Event -> list string -> option string -> SpawnOutcome;
  os_stat : list Event -> string -> StatOutcome;
  os_mkdir : list Event -> string -> option os_error;
  os_write : list Event -> string -> string -> option os_error;
  licenses_json : list Event -> LicensesJson;
  now_year : list Event -> N;
  getcwd : string;
  render_extended : string -> option ascii -> string -> value -> outcome string
}.

(** ** How the calls of the library end

    A path or an argument that holds NUL never reaches the operating
    system: [subprocess.run], [Path.mkdir] and [open] raise [ValueError]
    for it, and [Path.exists] answers that the path is not there.
    Otherwise the call ends as the operating system answers. *)

Definition embedded_null : string := "embedded null byte".

(** How [subprocess.run(argv, cwd=cwd, ...)] ends. *)
Definition spawn_outcome (env : Env) (h : list Event) (argv : list string)
    (cwd : option string) : SpawnOutcome :=
  if existsb has_nul argv || match cwd with Some d => has_nul d | None => false end
  then SpawnRefused embedded_null
  else os_spawn env h argv cwd.

(** What [Path(path).exists()] finds. *)
Definition path_stat (env : Env) (h : list Event) (path : string) : StatOutcome :=
  if has_nul path then Absent else os_stat env h path.

(** How [Path(path).mkdir(parents=True, exist_ok=True)] ends: [None] when
    the directory is there afterwards. *)
Definition mkdir_outcome (env : Env) (h : list Event) (path : string)
    : option failure :=
  if has_nul path then Some (Refusal embedded_null)
  else option_map OSFailure (os_mkdir env h path).

(** How opening [path] for writing and writing [text] ends: [None] when
    the text has been written. *)
Definition write_outcome (env : Env) (h : list Event) (path text : string)
    : option failure :=
  if has_nul path then Some (Refusal embedded_null)
  else option_map OSFailure (os_write env h path text).


Definition M (A : Type) : Type := list Event -> outcome A * list Event.

Definition ret {A} (a : A) : M A := fun h => (Return a, h).
Definition raise {A} (e : exn) : M A := fun h => (Raise e, h).
Definition bind {A B} (c : M A) (k : A -> M B) : M B :=
  fun h => match c h with
           | (Return a, h') => k a h'
           | (Raise e, h') => (Raise e, h')
           end.

(** [try: c except ...: handler]: [handler e] is [None] when no clause
    matches [e]. *)
Definition try_except {A} (c : M A) (handler : exn -> option (M A)) : M A :=
  fun h => match c h with
           | (Return a, h') => (Return a, h')
           | (Raise e, h') =>
               match handler e with
               | Some k => k h'
               | None => (Raise e, h')
               end
           end.

Declare Scope monad_scope.
Delimit Scope monad_scope with monad.
Notation "x <- c ;; k" := (bind c (fun x => k))
  (at level 61, c at next level, right associativity) : monad_scope.
Notation "c ;;; k" := (bind c (fun _ => k))
  (at level 61, right associativity) : monad_scope.
Open Scope monad_scope.

(** ** The parts of [pathlib] the program uses (POSIX flavour) *)

Module Pathlib.

(** A parsed path: the root (empty, one slash, or exactly two slashes)
    and the components after it. *)
Record PurePath : Type := { root : string; parts : list string }.

Definition parse_root (s : string) : string :=
  match s with
  | String "/" (String "/" (String "/" _)) => "/"
  | String "/" (String "/" _) => "//"
  | String "/" _ => "/"
  | _ => ""
  end.

(** Empty components and single dots are dropped, [..] is kept. *)
Definition keep_part (x : string) : bool := truthy x && negb (String.eqb x ".").

(** [Path(s)]. *)
Definition Path (s : string) : PurePath :=
  {| root := parse_root s; parts := filter keep_part (split_on "/" s) |}.

(** [p / key]: an absolute [key] replaces [p]. *)
Definition joinpath (p : PurePath) (key : string) : PurePath :=
  if startswith key "/" then Path key
  else {| root := root p; parts := parts p ++ parts (Path key) |}.

Definition is_absolute (p : PurePath) : bool := truthy (root p).

(** [p.absolute()]: a relative path is put under the working directory;
    nothing is normalised and no link is resolved. *)
Definition absolute (cwd : string) (p : PurePath) : PurePath :=
  if is_absolute p then p
  else {| root := root (Path cwd); parts := parts (Path cwd) ++ parts p |}.

(** [str(p)]. *)
Definition str (p : PurePath) : string :=
  match root p, parts p with
  | EmptyString, [] => "."
  | r, ps => r +++ String.concat "/" ps
  end.

Fixpoint strip_prefix (pre l : list string) : option (list string) :=
  match pre, l with
  | [], _ => Some l
  | x :: pre', y :: l' => if String.eqb x y then strip_prefix pre' l' else None
  | _ :: _, [] => None
  end.

End Pathlib.

Import Pathlib.

(** ** [repr] of a string *)

Module Repr.

Definition hex_digit (n : nat) : ascii :=
  ascii_of_nat (if (n <? 10)%nat then 48 + n else 87 + n).

Definition hex_escape (a : ascii) : string :=
  let n := nat_of_ascii a in
  "\x" +++ String (hex_digit (n / 16)) (String (hex_digit (n mod 16)) "").

Definition printable (a : ascii) : bool :=
  let n := nat_of_ascii a in
  ((32 <=? n) && (n <=? 126) || (161 <=? n) && negb (n =? 173))%nat.

Fixpoint escape (quote : ascii) (s : string) : string :=
  match s with
  | EmptyString => EmptyString
  | String a s' =>
      (if Ascii.eqb a quote || Ascii.eqb a "\"%char then String "\"%char (String a "")
       else if Ascii.eqb a "009"%char then "\t"
       else if Ascii.eqb a "010"%char then "\n"
       else if Ascii.eqb a "013"%char then "\r"
       else if printable a then String a ""
       else hex_escape a) +++ escape quote s'
  end.

(** [repr(s)]: single quotes, unless [s] has a single quote and no
    double quote. *)
Definition py_repr (s : string) : string :=
  let quote := if has_char "'"%char s && negb (has_char "034"%char s)
               then "034"%char else "'"%char in
  String quote (escape quote s) +++ String quote "".

End Repr.

Import Repr.

(** [p.relative_to(other)]: the components of [p] after those of [other],
    or [ValueError] when [p] is not under [other]. *)
Definition relative_to (p other : PurePath) : outcome PurePath :=
  match (if String.eqb (root p) (root other)
         then strip_prefix (parts other) (parts p) else None) with
  | Some rest => Return {| root := ""; parts := rest |}
  | None => Raise (ValueError (py_repr (str p) +++ " is not in the subpath of "
                               +++ py_repr (str other)))
  end.

(** ** [subprocess.run] and the file system *)

Record CompletedProcess : Type := {
  cp_args : list string;
  cp_returncode : Z;
  cp_stdout : string;
  cp_stderr : string
}.

Section Services.

Variable env : Env.

(** The result of a child that has exited, under [check]. *)
Definition completed (argv : list string) (check : bool) (rc : Z)
    (out err : string) : outcome CompletedProcess :=
  if check && negb (rc =? 0)%Z
  then Raise (CalledProcessError rc argv out err)
  else Return {| cp_args := argv; cp_returncode := rc;
                 cp_stdout := out; cp_stderr := err |}.

(** [subprocess.run(argv, cwd=cwd, check=check, stdout=PIPE, stderr=PIPE,
    text=text)].  A call that the library refuses starts no child and
    leaves no event.  With [text] the captured output is decoded once the
    child has exited and before its status is looked at: output that does
    not decode raises [UnicodeDecodeError], a [ValueError], whatever the
    status.  Without [text] the output stays bytes and nothing is
    decoded. *)
Definition subprocess_run (argv : list string) (cwd : option string)
    (check text : bool) : M CompletedProcess :=
  fun h =>
    let res := spawn_outcome env h argv cwd in
    let h' := h ++ [EvSpawn argv cwd res] in
    match res with
    | SpawnRefused message => (Raise (ValueError message), h)
    | SpawnOSError e => (Raise (OSError e), h')
    | Exited rc out err => (completed argv check rc out err, h')
    | ExitedUndecodable rc out err reason =>
        if text then (Raise (ValueError reason), h')
        else (completed argv check rc out err, h')
    end.

(** [p.exists()]; the [ValueError] for a path that holds NUL is caught
    inside it and answered by [False]. *)
Definition exists_ (p : PurePath) : M bool :=
  fun h =>
    (match path_stat env h (str p) with
     | Present => Return true
     | Absent => Return false
     | StatOSError e => Raise (OSError e)
     end, h).

(** [p.mkdir(parents=True, exist_ok=True)]; a refused call leaves no
    event. *)
Definition mkdir (p : PurePath) : M unit :=
  fun h =>
    match mkdir_outcome env h (str p) with
    | None => (Return tt, h ++ [EvMkdir (str p) None])
    | Some (OSFailure e) => (Raise (OSError e), h ++ [EvMkdir (str p) (Some e)])
    | Some (Refusal message) => (Raise (ValueError message), h)
    end.

(** [with open(p, "w") as f: f.write(text)]; a refused call leaves no
    event.  The file is written in the encoding of the locale, taken to
    be one that encodes every code point below 256 (UTF-8, Latin-1). *)
Definition write_text (p : PurePath) (text : string) : M unit :=
  fun h =>
    match write_outcome env h (str p) text with
    | None => (Return tt, h ++ [EvWrite (str p) text None])
    | Some (OSFailure e) =>
        (Raise (OSError e), h ++ [EvWrite (str p) text (Some e)])
    | Some (Refusal message) => (Raise (ValueError message), h)
    end.

Definition lift {A} (o : outcome A) : M A := fun h => (o, h).

(** ** [GitManager] *)

Record GitManager : Type := { repo_path : PurePath }.

Definition _validate_git_installation : M unit :=
  try_except
    (subprocess_run ["git"; "--version"] None true false ;;; ret tt)
    (fun e => match e with
              | CalledProcessError _ _ _ _ =>
                  Some (raise (GitOperationError "Git is not installed or not in PATH"))
              | _ => None
              end).

(** [GitManager(repo_path)]. *)
Definition GitManager_init (path : string) : M GitManager :=
  let self := {| repo_path := absolute (getcwd env) (Path path) |} in
  _validate_git_installation ;;; ret self.

Definition _run_git_command (self : GitManager) (args : list string)
    (check : bool) : M CompletedProcess :=
  try_except
    (subprocess_run ("git" :: args) (Some (str (repo_path self))) check true)
    (fun e => match e with
              | CalledProcessError _ _ _ stderr =>
                  let error_msg := "Git command failed: " +++ String.concat " " args
                                   +++ nl +++ stderr in
                  Some (raise (GitOperationError error_msg))
              | _ => None
              end).

Definition init_repo (self : GitManager) : M unit :=
  marker <- exists_ (joinpath (repo_path self) ".git") ;;
  if marker
  then raise (GitOperationError ("Repository already exists at " +++ str (repo_path self)))
  else
    try_except
      (mkdir (repo_path self) ;;;
       _run_git_command self ["init"] true ;;;
       ret tt)
      (fun e => match e with
                | OSError oe =>
                    Some (raise (GitOperationError ("Failed to create repository: "
                                                    +++ os_str oe)))
                | _ => None
                end).

(** The loop of [add_files]: [abs_paths] is the list built so far. *)
Fixpoint add_files_loop (self : GitManager) (file_paths abs_paths : list string)
    : M (list string) :=
  match file_paths with
  | [] => ret abs_paths
  | path :: rest =>
      let abs_path := absolute (getcwd env) (joinpath (repo_path self) path) in
      present <- exists_ abs_path ;;
      if negb present
      then raise (GitOperationError ("File not found: " +++ str abs_path))
      else
        rel <- lift (relative_to abs_path (repo_path self)) ;;
        add_files_loop self rest (abs_paths ++ [str rel])
  end.

Definition add_files (self : GitManager) (file_paths : list string) : M unit :=
  match file_paths with
  | [] => raise (GitOperationError "No files specified to add")
  | _ :: _ =>
      abs_paths <- add_files_loop self file_paths [] ;;
      _run_git_command self ("add" :: abs_paths) true ;;;
      ret tt
  end.

Definition commit (self : GitManager) (message : string) : M unit :=
  if negb (truthy message)
  then raise (GitOperationError "Commit message cannot be empty")
  else _run_git_command self ["commit"; "-m"; message] true ;;; ret tt.

Definition push (self : GitManager) (remote branch : string) : M unit :=
  _run_git_command self ["push"; "-u"; remote; branch] true ;;; ret tt.

Definition create_branch (self : GitManager) (branch_name : string) : M unit :=
  if negb (truthy branch_name)
  then raise (GitOperationError "Branch name cannot be empty")
  else _run_git_command self ["checkout"; "-b"; branch_name] true ;;; ret tt.

Definition merge (self : GitManager) (branch_name : string) : M unit :=
  _run_git_command self ["merge"; branch_name] true ;;; ret tt.

Definition pull (self : GitManager) (remote branch : string) : M unit :=
  _run_git_command self ["pull"; remote; branch] true ;;; ret tt.

Definition checkout (self : GitManager) (branch_name : string) : M unit :=
  _run_git_command self ["checkout"; branch_name] true ;;; ret tt.

(** What [list_branches] makes of the captured output. *)
Definition branches_of_output (stdout : string) : list string :=
  let branches :=
    map strip (filter (fun b => truthy (strip b)) (split_on "010"%char stdout)) in
  let current := filter (fun b => startswith b "*") branches in
  match current with
  | [] => branches
  | first :: _ =>
      let current_branch := drop 2 first in
      current_branch :: filter (fun b => negb (startswith b "*")) branches
  end.

Definition list_branches (self : GitManager) : M (list string) :=
  result <- _run_git_command self ["branch"] true ;;
  ret (branches_of_output (cp_stdout result)).

Definition status (self : GitManager) : M string :=
  result <- _run_git_command self ["status"] true ;;
  ret (cp_stdout result).

Definition is_repository (self : GitManager) : M bool :=
  exists_ (joinpath (repo_path self) ".git").

End Services.

(** ** [str.format] with the keyword arguments [year] and [name]

    The formatter reads the template from left to right.  Literal text is
    copied, [{{] and [}}] stand for one brace, and a replacement field
    [{field_name!conversion:format_spec}] is looked up and rendered as soon
    as it has been read, so the first failure from the left is the one
    raised.  Messages follow the wording of CPython 3.12. *)

Module Format.

Record Field : Type := {
  field_name : string;
  conversion : option ascii;
  format_spec : string
}.

(** Where the scanner is. *)
Inductive state : Type :=
| Text
| AfterOpen
| AfterClose
| InName (name : string)
| InIndex (name : string)
| AfterBang (name : string)
| AfterConv (name : string) (conv : ascii)
| InSpec (name : string) (conv : option ascii) (depth : nat) (spec : string).

Inductive action : Type :=
| Emit (t : string) (st : state)
| Goto (st : state)
| Complete (f : Field)
| Fail (e : exn).

Definition snoc (s : string) (c : ascii) : string := s +++ String c "".

(** One character of a field name. *)
Definition step_name (name : string) (c : ascii) : action :=
  if Ascii.eqb c "{" then Fail (ValueError "unexpected '{' in field name")
  else if Ascii.eqb c "[" then Goto (InIndex (snoc name c))
  else if Ascii.eqb c "}"
  then Complete {| field_name := name; conversion := None; format_spec := "" |}
  else if Ascii.eqb c ":" then Goto (InSpec name None 1 "")
  else if Ascii.eqb c "!" then Goto (AfterBang name)
  else Goto (InName (snoc name c)).

Definition step (st : state) (c : ascii) : action :=
  match st with
  | Text =>
      if Ascii.eqb c "{" then Goto AfterOpen
      else if Ascii.eqb c "}" then Goto AfterClose
      else Emit (String c "") Text
  | AfterOpen =>
      if Ascii.eqb c "{" then Emit "{" Text else step_name "" c
  | AfterClose =>
      if Ascii.eqb c "}" then Emit "}" Text
      else Fail (ValueError "Single '}' encountered in format string")
  | InName name => step_name name c
  | InIndex name =>
      if Ascii.eqb c "]" then Goto (InName (snoc name c))
      else Goto (InIndex (snoc name c))
  | AfterBang name => Goto (AfterConv name c)
  | AfterConv name conv =>
      if Ascii.eqb c "}"
      then Complete {| field_name := name; conversion := Some conv;
                       format_spec := "" |}
      else if Ascii.eqb c ":" then Goto (InSpec name (Some conv) 1 "")
      else Fail (ValueError "expected ':' after conversion specifier")
  | InSpec name conv depth spec =>
      if Ascii.eqb c "{" then Goto (InSpec name conv (S depth) (snoc spec c))
      else if Ascii.eqb c "}"
      then match depth with
           | 0 | 1 => Complete {| field_name := name; conversion := conv;
                                  format_spec := spec |}
           | S d => Goto (InSpec name conv d (snoc spec c))
           end
      else Goto (InSpec name conv depth (snoc spec c))
  end.

(** The template ends while the scanner is in [st]. *)
Definition at_end (st : state) : outcome string :=
  match st with
  | Text => Return ""
  | AfterOpen => Raise (ValueError "Single '{' encountered in format string")
  | AfterClose => Raise (ValueError "Single '}' encountered in format string")
  | InName _ | InIndex _ => Raise (ValueError "expected '}' before end of string")
  | AfterBang _ =>
      Raise (ValueError "end of string while looking for conversion specifier")
  | AfterConv _ _ | InSpec _ _ _ _ => Raise (ValueError "unmatched '{' in format spec")
  end.

(** The argument name: the field name up to the first dot or bracket. *)
Fixpoint split_first (s : string) : string * string :=
  match s with
  | EmptyString => (EmptyString, EmptyString)
  | String c s' =>
      if Ascii.eqb c "." || Ascii.eqb c "[" then (EmptyString, s)
      else let (a, b) := split_first s' in (String c a, b)
  end.

Definition PY_SSIZE_T_MAX : N := 9223372036854775807.

Inductive integer : Type :=
| NotInteger
| TooManyDigits
| Index (i : N).

(** The argument name read as a decimal index. *)
Fixpoint get_integer_from (acc : N) (s : string) : integer :=
  match s with
  | EmptyString => Index acc
  | String c s' =>
      let n := N_of_ascii c in
      if ((48 <=? n) && (n <=? 57))%N
      then let digitval := (n - 48)%N in
           if ((PY_SSIZE_T_MAX - digitval) / 10 <? acc)%N then TooManyDigits
           else get_integer_from (acc * 10 + digitval) s'
      else NotInteger
  end.

Definition get_integer (s : string) : integer :=
  match s with
  | EmptyString => NotInteger
  | _ => get_integer_from 0 s
  end.

(** [format(v, "")]. *)
Definition plain (v : value) : string :=
  match v with
  | VInt n => str_of_N n
  | VStr s => s
  end.

Section Render.

(** The rendering of the fields that ask for more than the plain value. *)
Variable render_extended : string -> option ascii -> string -> value -> outcome string.

Variable year : N.
Variable name : string.

Definition kwargs (key : string) : option value :=
  if String.eqb key "year" then Some (VInt year)
  else if String.eqb key "name" then Some (VStr name)
  else None.

(** No positional argument is passed, so every numbered or automatically
    numbered field is out of range. *)
Definition render (f : Field) : outcome string :=
  let (first, rest) := split_first (field_name f) in
  match first with
  | EmptyString =>
      Raise (IndexError "Replacement index 0 out of range for positional args tuple")
  | _ =>
      match get_integer first with
      | TooManyDigits => Raise (ValueError "Too many decimal digits in format string")
      | Index i =>
          Raise (IndexError ("Replacement index " +++ str_of_N i
                             +++ " out of range for positional args tuple"))
      | NotInteger =>
          match kwargs first with
          | None => Raise (KeyError first)
          | Some v =>
              match rest, conversion f, format_spec f with
              | EmptyString, None, EmptyString => Return (plain v)
              | _, _, _ => render_extended rest (conversion f) (format_spec f) v
              end
          end
      end
  end.

Definition prepend (t : string) (o : outcome string) : outcome string :=
  match o with
  | Return s => Return (t +++ s)
  | Raise e => Raise e
  end.

Fixpoint run (st : state) (s : string) : outcome string :=
  match s with
  | EmptyString => at_end st
  | String c s' =>
      match step st c with
      | Emit t st' => prepend t (run st' s')
      | Goto st' => run st' s'
      | Complete f =>
          match render f with
          | Return t => prepend t (run Text s')
          | Raise e => Raise e
          end
      | Fail e => Raise e
      end
  end.

(** [template.format(year=year, name=name)]. *)
Definition format (template : string) : outcome string := run Text template.

End Render.

End Format.

(** ** The built-in templates *)

Module Templates.

Definition MIT_text : string :=
  "MIT License" +++ nl +++ nl +++ "Copyright (c) {year} {name}" +++ nl +++
  nl +++
  "Permission is hereby granted, free of charge, to any person obtaining " +++
  "a copy of this software and associated documentation files (the " +++
  dq +++ "Software" +++ dq +++
  "), to deal in the Software without restriction, including without " +++
  "limitation the rights to use, copy, modify, merge, publish, " +++
  "distribute, sublicense, and/or sell copies of the Software, and to " +++
  "permit persons to whom the Software is furnished to do so, subject to " +++
  "the following conditions:" +++ nl +++ nl +++
  "The above copyright notice and this permission notice shall be " +++
  "included in all copies or substantial portions of the Software." +++
  nl +++ nl +++ "THE SOFTWARE IS PROVIDED " +++ dq +++ "AS IS" +++ dq +++
  ", WITHOUT WARRANTY OF ANY KIND, EXPRESS OR IMPLIED, INCLUDING BUT NOT " +++
  "LIMITED TO THE WARRANTIES OF MERCHANTABILITY, FITNESS FOR A " +++
  "PARTICULAR PURPOSE AND NONINFRINGEMENT. IN NO EVENT SHALL THE AUTHORS " +++
  "OR COPYRIGHT HOLDERS BE LIABLE FOR ANY CLAIM, DAMAGES OR OTHER " +++
  "LIABILITY, WHETHER IN AN ACTION OF CONTRACT, TORT OR OTHERWISE, " +++
  "ARISING FROM, OUT OF OR IN CONNECTION WITH THE SOFTWARE OR THE USE OR " +++
  "OTHER DEALINGS IN THE SOFTWARE.".

Definition Apache_2_0_text : string :=
  "Apache License 2.0" +++ nl +++ nl +++ "Copyright (c) {year} {name}" +++
  nl +++ nl +++ "Licensed under the Apache License, Version 2.0 (the " +++
  dq +++ "License" +++ dq +++
  "); you may not use this file except in compliance with the License. " +++
  "You may obtain a copy of the License at:" +++ nl +++ nl +++
  "    http://www.apache.org/licenses/LICENSE-2.0" +++ nl +++ nl +++
  "Unless required by applicable law or agreed to in writing, software " +++
  "distributed under the License is distributed on an " +++ dq +++
  "AS IS" +++ dq +++
  " BASIS, WITHOUT WARRANTIES OR CONDITIONS OF ANY KIND, either express " +++
  "or implied. See the License for the specific language governing " +++
  "permissions and limitations under the License.".

Definition BSD_2_Clause_text : string :=
  "BSD 2-Clause License" +++ nl +++ nl +++ "Copyright (c) {year} {name}" +++
  nl +++ nl +++
  "Redistribution and use in source and binary forms, with or without " +++
  "modification, are permitted provided that the following conditions " +++
  "are met:" +++ nl +++ nl +++
  "1. Redistributions of source code must retain the above copyright " +++
  "notice, this list of conditions and the following disclaimer." +++ nl +++
  nl +++
  "2. Redistributions in binary form must reproduce the above copyright " +++
  "notice, this list of conditions and the following disclaimer in the " +++
  "documentation and/or other materials provided with the distribution." +++
  nl +++ nl +++
  "THIS SOFTWARE IS PROVIDED BY THE COPYRIGHT HOLDERS AND CONTRIBUTORS " +++
  dq +++ "AS IS" +++ dq +++
  " AND ANY EXPRESS OR IMPLIED WARRANTIES, INCLUDING, BUT NOT LIMITED " +++
  "TO, THE IMPLIED WARRANTIES OF MERCHANTABILITY AND FITNESS FOR A " +++
  "PARTICULAR PURPOSE ARE DISCLAIMED. IN NO EVENT SHALL THE COPYRIGHT " +++
  "HOLDER OR CONTRIBUTORS BE LIABLE FOR ANY DIRECT, INDIRECT, " +++
  "INCIDENTAL, SPECIAL, EXEMPLARY, OR CONSEQUENTIAL DAMAGES (INCLUDING, " +++
  "BUT NOT LIMITED TO, PROCUREMENT OF SUBSTITUTE GOODS OR SERVICES; LOSS " +++
  "OF USE, DATA, OR PROFITS; OR BUSINESS INTERRUPTION) HOWEVER CAUSED " +++
  "AND ON ANY THEORY OF LIABILITY, WHETHER IN CONTRACT, STRICT " +++
  "LIABILITY, OR TORT (INCLUDING NEGLIGENCE OR OTHERWISE) ARISING IN ANY " +++
  "WAY OUT OF THE USE OF THIS SOFTWARE, EVEN IF ADVISED OF THE " +++
  "POSSIBILITY OF SUCH DAMAGE.".

Definition BSD_3_Clause_text : string :=
  "BSD 3-Clause License" +++ nl +++ nl +++ "Copyright (c) {year} {name}" +++
  nl +++ nl +++
  "Redistribution and use in source and binary forms, with or without " +++
  "modification, are permitted provided that the following conditions " +++
  "are met:" +++ nl +++ nl +++
  "1. Redistributions of source code must retain the above copyright " +++
  "notice, this list of conditions and the following disclaimer." +++ nl +++
  nl +++
  "2. Redistributions in binary form must reproduce the above copyright " +++
  "notice, this list of conditions and the following disclaimer in the " +++
  "documentation and/or other materials provided with the distribution." +++
  nl +++ nl +++
  "3. Neither the name of {name} nor the names of its contributors may " +++
  "be used to endorse or promote products derived from this software " +++
  "without specific prior written permission." +++ nl +++ nl +++
  "THIS SOFTWARE IS PROVIDED BY THE COPYRIGHT HOLDERS AND CONTRIBUTORS " +++
  dq +++ "AS IS" +++ dq +++
  " AND ANY EXPRESS OR IMPLIED WARRANTIES, INCLUDING, BUT NOT LIMITED " +++
  "TO, THE IMPLIED WARRANTIES OF MERCHANTABILITY AND FITNESS FOR A " +++
  "PARTICULAR PURPOSE ARE DISCLAIMED. IN NO EVENT SHALL THE COPYRIGHT " +++
  "HOLDER OR CONTRIBUTORS BE LIABLE FOR ANY DIRECT, INDIRECT, " +++
  "INCIDENTAL, SPECIAL, EXEMPLARY, OR CONSEQUENTIAL DAMAGES (INCLUDING, " +++
  "BUT NOT LIMITED TO, PROCUREMENT OF SUBSTITUTE GOODS OR SERVICES; LOSS " +++
  "OF USE, DATA, OR PROFITS; OR BUSINESS INTERRUPTION) HOWEVER CAUSED " +++
  "AND ON ANY THEORY OF LIABILITY, WHETHER IN CONTRACT, STRICT " +++
  "LIABILITY, OR TORT (INCLUDING NEGLIGENCE OR OTHERWISE) ARISING IN ANY " +++
  "WAY OUT OF THE USE OF THIS SOFTWARE, EVEN IF ADVISED OF THE " +++
  "POSSIBILITY OF SUCH DAMAGE.".

Definition Apache_1_1_text : string :=
  "Apache License 1.1" +++ nl +++ nl +++ "Copyright (c) {year} {name}" +++
  nl +++ nl +++
  "This product includes software developed by The Apache Group " +++
  "(http://www.apache.org/)." +++ nl +++ nl +++
  "Redistribution and use in source and binary forms, with or without " +++
  "modification, are permitted provided that the following conditions " +++
  "are met:" +++ nl +++ nl +++
  "1. Redistributions of source code must retain the above copyright " +++
  "notice, this list of conditions and the following disclaimer." +++ nl +++
  nl +++
  "2. Redistributions in binary form must reproduce the above copyright " +++
  "notice, this list of conditions and the following disclaimer in the " +++
  "documentation and/or other materials provided with the distribution." +++
  nl +++ nl +++
  "3. The end-user documentation included with the redistribution, if " +++
  "any, must include the following acknowledgment: " +++ dq +++
  "This product includes software developed by the Apache Group " +++
  "(http://www.apache.org/)." +++ dq +++ nl +++ nl +++ "4. The names " +++
  dq +++ "Apache Server" +++ dq +++ " and " +++ dq +++ "Apache Group" +++
  dq +++
  " must not be used to endorse or promote products derived from this " +++
  "software without prior written permission." +++ nl +++ nl +++
  "THIS SOFTWARE IS PROVIDED " +++ dq +++ "AS IS" +++ dq +++
  " AND ANY EXPRESSED OR IMPLIED WARRANTIES, INCLUDING, BUT NOT LIMITED " +++
  "TO, THE IMPLIED WARRANTIES OF MERCHANTABILITY AND FITNESS FOR A " +++
  "PARTICULAR PURPOSE ARE DISCLAIMED. IN NO EVENT SHALL THE APACHE GROUP " +++
  "OR ITS CONTRIBUTORS BE LIABLE FOR ANY DIRECT, INDIRECT, INCIDENTAL, " +++
  "SPECIAL, EXEMPLARY, OR CONSEQUENTIAL DAMAGES (INCLUDING, BUT NOT " +++
  "LIMITED TO, PROCUREMENT OF SUBSTITUTE GOODS OR SERVICES; LOSS OF USE, " +++
  "DATA, OR PROFITS; OR BUSINESS INTERRUPTION) HOWEVER CAUSED AND ON ANY " +++
  "THEORY OF LIABILITY, WHETHER IN CONTRACT, STRICT LIABILITY, OR TORT " +++
  "(INCLUDING NEGLIGENCE OR OTHERWISE) ARISING IN ANY WAY OUT OF THE USE " +++
  "OF THIS SOFTWARE, EVEN IF ADVISED OF THE POSSIBILITY OF SUCH DAMAGE.".

Definition BSD_4_Clause_text : string :=
  "BSD 4-Clause License" +++ nl +++ nl +++ "Copyright (c) {year} {name}" +++
  nl +++ nl +++
  "Redistribution and use in source and binary forms, with or without " +++
  "modification, are permitted provided that the following conditions " +++
  "are met:" +++ nl +++ nl +++
  "1. Redistributions of source code must retain the above copyright " +++
  "notice, this list of conditions and the following disclaimer." +++ nl +++
  nl +++
  "2. Redistributions in binary form must reproduce the above copyright " +++
  "notice, this list of conditions and the following disclaimer in the " +++
  "documentation and/or other materials provided with the distribution." +++
  nl +++ nl +++
  "3. All advertising materials mentioning features or use of this " +++
  "software must display the following acknowledgment: This product " +++
  "includes software developed by {name}." +++ nl +++ nl +++
  "4. Neither the name of {name} nor the names of its contributors may " +++
  "be used to endorse or promote products derived from this software " +++
  "without specific prior written permission." +++ nl +++ nl +++
  "THIS SOFTWARE IS PROVIDED BY THE COPYRIGHT HOLDERS AND CONTRIBUTORS " +++
  dq +++ "AS IS" +++ dq +++
  " AND ANY EXPRESS OR IMPLIED WARRANTIES, INCLUDING, BUT NOT LIMITED " +++
  "TO, THE IMPLIED WARRANTIES OF MERCHANTABILITY AND FITNESS FOR A " +++
  "PARTICULAR PURPOSE ARE DISCLAIMED. IN NO EVENT SHALL THE COPYRIGHT " +++
  "HOLDER OR CONTRIBUTORS BE LIABLE FOR ANY DIRECT, INDIRECT, " +++
  "INCIDENTAL, SPECIAL, EXEMPLARY, OR CONSEQUENTIAL DAMAGES (INCLUDING, " +++
  "BUT NOT LIMITED TO, PROCUREMENT OF SUBSTITUTE GOODS OR SERVICES; LOSS " +++
  "OF USE, DATA, OR PROFITS; OR BUSINESS INTERRUPTION) HOWEVER CAUSED " +++
  "AND ON ANY THEORY OF LIABILITY, WHETHER IN CONTRACT, STRICT " +++
  "LIABILITY, OR TORT (INCLUDING NEGLIGENCE OR OTHERWISE) ARISING IN ANY " +++
  "WAY OUT OF THE USE OF THIS SOFTWARE, EVEN IF ADVISED OF THE " +++
  "POSSIBILITY OF SUCH DAMAGE.".

End Templates.

(** ** [LicenseManager] and the application *)

Record LicenseInfo : Type := {
  name : string;
  text : string;
  requires_name : bool
}.

(** A [dict] with string keys, in insertion order. *)
Definition dict (V : Type) : Type := list (string * V).

Fixpoint dict_get {V} (d : dict V) (key : string) : option V :=
  match d with
  | [] => None
  | (k, v) :: d' => if String.eqb k key then Some v else dict_get d' key
  end.

(** [d[key] = v]: an existing key keeps its place. *)
Fixpoint dict_set {V} (d : dict V) (key : string) (v : V) : dict V :=
  match d with
  | [] => [(key, v)]
  | (k, w) :: d' =>
      if String.eqb k key then (k, v) :: d' else (k, w) :: dict_set d' key v
  end.

Definition dict_keys {V} (d : dict V) : list string := map fst d.

(** [{k: f(k, x) for k, x in items}]. *)
Definition dict_comprehension {A V} (f : string -> A -> V)
    (items : list (string * A)) : dict V :=
  fold_left (fun d kx => dict_set d (fst kx) (f (fst kx) (snd kx))) items [].

Definition default_licenses : dict LicenseInfo :=
  [ ("MIT", {| name := "MIT"; text := Templates.MIT_text; requires_name := true |});
    ("Apache-2.0", {| name := "Apache-2.0"; text := Templates.Apache_2_0_text;
                      requires_name := true |});
    ("BSD-2-Clause", {| name := "BSD-2-Clause"; text := Templates.BSD_2_Clause_text;
                        requires_name := true |});
    ("BSD-3-Clause", {| name := "BSD-3-Clause"; text := Templates.BSD_3_Clause_text;
                        requires_name := true |});
    ("Apache-1.1", {| name := "Apache-1.1"; text := Templates.Apache_1_1_text;
                      requires_name := true |});
    ("BSD-4-Clause", {| name := "BSD-4-Clause"; text := Templates.BSD_4_Clause_text;
                        requires_name := true |}) ].

(** [o.get(key, d)] once the lookup is done; on an optional string it is
    also [o or d] when [d] is the empty string. *)
Definition or_default {A} (o : option A) (d : A) : A :=
  match o with Some a => a | None => d end.

(** Truth value of an optional string: [None] and the empty string are
    false. *)
Definition truthy_opt (o : option string) : bool :=
  match o with Some s => truthy s | None => false end.

Section Licenses.

Variable env : Env.

Record LicenseManager : Type := {
  lm_repo_path : PurePath;
  licenses : dict LicenseInfo
}.

Definition _load_license_templates : M (dict LicenseInfo) :=
  fun h =>
    match licenses_json env h with
    | JsonLoaded entries =>
        (Return (dict_comprehension
                   (fun key data =>
                      {| name := or_default (json_name data) key;
                         text := or_default (json_text data) "";
                         requires_name := or_default (json_requires_name data) true |})
                   entries), h)
    | JsonAbsent =>
        (Return (dict_comprehension
                   (fun _ data => {| name := name data; text := text data;
                                     requires_name := requires_name data |})
                   default_licenses), h)
    | JsonDecodeError msg =>
        (Raise (LicenseError ("Error decoding JSON from licenses.json: " +++ msg)), h)
    | JsonOtherFailure msg =>
        (Raise (LicenseError ("Unexpected error loading licenses: " +++ msg)), h)
    end.

(** [LicenseManager(repo_path)]. *)
Definition LicenseManager_init (path : string) : M LicenseManager :=
  loaded <- _load_license_templates ;;
  ret {| lm_repo_path := absolute (getcwd env) (Path path); licenses := loaded |}.

Definition get_available_licenses (self : LicenseManager) : list string :=
  dict_keys (licenses self).

(** [datetime.now().year]. *)
Definition current_year : M N := fun h => (Return (now_year env h), h).

Definition generate_license (self : LicenseManager) (license_name : string)
    (author : option string) : M string :=
  match dict_get (licenses self) license_name with
  | None =>
      raise (InvalidLicenseError ("License '" +++ license_name +++ "' is not available"))
  | Some license_info =>
      if requires_name license_info && negb (truthy_opt author)
      then raise (LicenseGenerationError
                    ("License '" +++ license_name
                     +++ "' requires an author/organization name"))
      else
        try_except
          (year <- current_year ;;
           lift (Format.format (render_extended env) year
                   (or_default author "") (text license_info)))
          (fun e => match e with
                    | KeyError key =>
                        Some (raise (LicenseGenerationError
                                       ("Failed to format license text: "
                                        +++ py_repr key)))
                    | _ => None
                    end)
  end.

Definition save_license_file (self : LicenseManager) (license_text : string) : M unit :=
  let license_path := joinpath (lm_repo_path self) "LICENSE" in
  try_except
    (write_text env license_path license_text)
    (fun e => match e with
              | OSError oe =>
                  Some (raise (LicenseError ("Failed to save LICENSE file: "
                                             +++ os_str oe)))
              | _ => None
              end).

(** ** [RepoManagerApp] *)

Record RepoManagerApp : Type := {
  git_manager : option GitManager;
  license_manager : option LicenseManager
}.

Definition RepoManagerApp_init : RepoManagerApp :=
  {| git_manager := None; license_manager := None |}.

Definition initialize_managers (path : string) : M RepoManagerApp :=
  gm <- GitManager_init env path ;;
  lm <- LicenseManager_init path ;;
  ret {| git_manager := Some gm; license_manager := Some lm |}.

Definition create_repository (path : string) : M RepoManagerApp :=
  app <- initialize_managers path ;;
  match git_manager app with
  | Some gm => init_repo env gm ;;; ret app
  | None => ret app
  end.

Definition generate_and_add_license (self : RepoManagerApp)
    (license_name : string) (author : option string) : M unit :=
  match git_manager self, license_manager self with
  | Some gm, Some lm =>
      license_text <- generate_license lm license_name author ;;
      save_license_file lm license_text ;;;
      add_files env gm ["LICENSE"]
  | _, _ => raise (RepoManagerError "Managers not initialized")
  end.

End Licenses.

(** ** Vocabulary of the statements *)

(** The failure kinds of the design, as the source raises them. *)
Definition ToolUnavailable : exn :=
  GitOperationError "Git is not installed or not in PATH".

Definition InvalidArgument_no_files : exn :=
  GitOperationError "No files specified to add".

Definition FileNotFound (abs_path : PurePath) : exn :=
  GitOperationError ("File not found: " +++ str abs_path).

Definition OperationFailed_message (args : list string) (stderr : string) : string :=
  "Git command failed: " +++ String.concat " " args +++ nl +++ stderr.

Definition OperationFailed (args : list string) (stderr : string) : exn :=
  GitOperationError (OperationFailed_message args stderr).

Definition UnknownLicense (license_name : string) : exn :=
  InvalidLicenseError ("License '" +++ license_name +++ "' is not available").

Definition MissingAuthor (license_name : string) : exn :=
  LicenseGenerationError
    ("License '" +++ license_name +++ "' requires an author/organization name").

Definition TemplateMalformed (key : string) : exn :=
  LicenseGenerationError ("Failed to format license text: " +++ py_repr key).

Definition WriteFailed (e : os_error) : exn :=
  LicenseError ("Failed to save LICENSE file: " +++ os_str e).

(** The path [add_files] looks at for one of its arguments. *)
Definition resolved (env : Env) (self : GitManager) (path : string) : PurePath :=
  absolute (getcwd env) (joinpath (repo_path self) path).

(** [p] lies under [other], component by component. *)
Definition is_relative_to (p other : PurePath) : bool :=
  String.eqb (root p) (root other) &&
  match strip_prefix (parts other) (parts p) with Some _ => true | None => false end.

(** A path that is there and lies under the repository root. *)
Definition stageable (env : Env) (self : GitManager) (h : list Event)
    (path : string) : Prop :=
  path_stat env h (str (resolved env self path)) = Present /\
  is_relative_to (resolved env self path) (repo_path self) = true.

(** The events a call added to the trace [h], given the trace [h'] it
    left. *)
Definition new_events (h h' : list Event) : list Event := skipn (length h) h'.

(** The operations of the executor that are called on a constructed
    [GitManager]. *)
Inductive Operation : Type :=
| OpInitRepo
| OpAddFiles (file_paths : list string)
| OpCommit (message : string)
| OpPush (remote branch : string)
| OpCreateBranch (branch_name : string)
| OpMerge (branch_name : string)
| OpPull (remote branch : string)
| OpCheckout (branch_name : string)
| OpListBranches
| OpStatus
| OpIsRepository.

Definition run_operation (env : Env) (self : GitManager) (op : Operation) : M unit :=
  match op with
  | OpInitRepo => init_repo env self
  | OpAddFiles file_paths => add_files env self file_paths
  | OpCommit message => commit env self message
  | OpPush remote branch => push env self remote branch
  | OpCreateBranch branch_name => create_branch env self branch_name
  | OpMerge branch_name => merge env self branch_name
  | OpPull remote branch => pull env self remote branch
  | OpCheckout branch_name => checkout env self branch_name
  | OpListBranches => list_branches env self ;;; ret tt
  | OpStatus => status env self ;;; ret tt
  | OpIsRepository => is_repository env self ;;; ret tt
  end.

Section Protocol.

Variable self : GitManager.

(** What one run of the tool through [_run_git_command] comes to. *)
Definition tool_result (args : list string) (res : SpawnOutcome)
    : outcome CompletedProcess :=
  match res with
  | SpawnOSError e => Raise (OSError e)
  | Exited rc out err =>
      if (rc =? 0)%Z
      then Return {| cp_args := "git" :: args; cp_returncode := rc;
                     cp_stdout := out; cp_stderr := err |}
      else Raise (OperationFailed args err)
  | ExitedUndecodable _ _ _ reason => Raise (ValueError reason)
  | SpawnRefused message => Raise (ValueError message)
  end.

(** The event it leaves: none when the library refuses the call. *)
Definition spawn_events (argv : list string) (cwd : option string)
    (res : SpawnOutcome) : list Event :=
  match res with
  | SpawnRefused _ => []
  | _ => [EvSpawn argv cwd res]
  end.

(** The event that making the directory [path] leaves, and the event
    that writing [text] to [path] leaves: none for a refused call. *)
Definition mkdir_events (path : string) (res : option failure) : list Event :=
  match res with
  | None => [EvMkdir path None]
  | Some (OSFailure e) => [EvMkdir path (Some e)]
  | Some (Refusal _) => []
  end.

Definition write_events (path text : string) (res : option failure) : list Event :=
  match res with
  | None => [EvWrite path text None]
  | Some (OSFailure e) => [EvWrite path text (Some e)]
  | Some (Refusal _) => []
  end.

(** The working directory of every such run. *)
Definition tool_cwd : option string := Some (str (repo_path self)).

(** A call keeps to the protocol when each run of the tool that it adds to
    the trace and that exits with a nonzero status makes the call raise
    [OperationFailed] for the arguments and the error text of that run. *)
Definition keeps_protocol {A} (c : M A) : Prop :=
  forall h r h',
    c h = (r, h') ->
    forall argv cwd rc out err,
      In (EvSpawn argv cwd (Exited rc out err)) (new_events h h') ->
      rc <> 0%Z ->
      exists args,
        argv = "git" :: args /\ cwd = tool_cwd /\ r = Raise (OperationFailed args err).

End Protocol.

(** The lines [list_branches] keeps: stripped, blank ones dropped. *)
Definition stripped_lines (stdout : string) : list string :=
  map strip (filter (fun b => truthy (strip b)) (split_on "010"%char stdout)).

(** Templates made of ordinary characters, doubled braces and the two
    known placeholders, and what substitution makes of them. *)
Module Pieces.

Inductive piece : Type :=
| Char (c : ascii)
| LBrace
| RBrace
| PYear
| PName.

Definition source (p : piece) : string :=
  match p with
  | Char c => String c ""
  | LBrace => "{{"
  | RBrace => "}}"
  | PYear => "{year}"
  | PName => "{name}"
  end.

Definition substituted (year : N) (author : string) (p : piece) : string :=
  match p with
  | Char c => String c ""
  | LBrace => "{"
  | RBrace => "}"
  | PYear => str_of_N year
  | PName => author
  end.

Definition ordinary (p : piece) : bool :=
  match p with
  | Char c => negb (Ascii.eqb c "{") && negb (Ascii.eqb c "}")
  | _ => true
  end.

Fixpoint flatten (l : list string) : string :=
  match l with
  | [] => EmptyString
  | s :: l' => s +++ flatten l'
  end.

Definition sources (ps : list piece) : string := flatten (map source ps).

Definition substitution (year : N) (author : string) (ps : list piece) : string :=
  flatten (map (substituted year author) ps).

(** Reads a template as pieces; [fuel] bounds the number of pieces. *)
Fixpoint pieces_of (fuel : nat) (s : string) : list piece :=
  match fuel with
  | O => []
  | S fuel' =>
      match s with
      | EmptyString => []
      | String c s' =>
          if is_prefix "{year}" s then PYear :: pieces_of fuel' (drop 6 s)
          else if is_prefix "{name}" s then PName :: pieces_of fuel' (drop 6 s)
          else if is_prefix "{{" s then LBrace :: pieces_of fuel' (drop 2 s)
          else if is_prefix "}}" s then RBrace :: pieces_of fuel' (drop 2 s)
          else Char c :: pieces_of fuel' s'
      end
  end.

Definition is_year (p : piece) : bool := match p with PYear => true | _ => false end.
Definition is_name (p : piece) : bool := match p with PName => true | _ => false end.

(** A template of pieces that uses both placeholders. *)
Definition simple_template (t : string) : bool :=
  let ps := pieces_of (String.length t) t in
  String.eqb (sources ps) t && forallb ordinary ps
  && existsb is_year ps && existsb is_name ps.

(** A field name that is looked up among the keyword arguments as it
    stands: not empty, not a number, without any of the characters that
    end or structure a field name. *)
Fixpoint no_markup (s : string) : bool :=
  match s with
  | EmptyString => true
  | String c s' =>
      negb (Ascii.eqb c "{" || Ascii.eqb c "}" || Ascii.eqb c "[" || Ascii.eqb c "."
            || Ascii.eqb c "!" || Ascii.eqb c ":")
      && no_markup s'
  end.

Definition keyword_name (key : string) : bool :=
  truthy key && no_markup key &&
  match Format.get_integer key with Format.NotInteger => true | _ => false end.

End Pieces.

(** ** Concrete environments and objects for the examples *)

Module Examples.

Definition quiet_env : Env := {|
  os_spawn := fun _ _ _ => Exited 0 "" "";
  os_stat := fun _ _ => Present;
  os_mkdir := fun _ _ => None;
  os_write := fun _ _ _ => None;
  licenses_json := fun _ => JsonAbsent;
  now_year := fun _ => 2024%N;
  getcwd := "/home/dev";
  render_extended := fun _ _ _ _ => Raise (ValueError "Invalid format specifier")
|}.

Definition no_such_file : os_error :=
  {| os_class := FileNotFoundError;
     os_str := "[Errno 2] No such file or directory: 'git'" |}.

(** No [git] on the search path. *)
Definition env_without_git : Env := {|
  os_spawn := fun _ _ _ => SpawnOSError no_such_file;
  os_stat := os_stat quiet_env;
  os_mkdir := os_mkdir quiet_env;
  os_write := os_write quiet_env;
  licenses_json := licenses_json quiet_env;
  now_year := now_year quiet_env;
  getcwd := getcwd quiet_env;
  render_extended := render_extended quiet_env
|}.

(** Every run of the tool exits with status 1 and a complaint. *)
Definition env_failing_git : Env := {|
  os_spawn := fun _ _ _ => Exited 1 "" "fatal: boom";
  os_stat := os_stat quiet_env;
  os_mkdir := os_mkdir quiet_env;
  os_write := os_write quiet_env;
  licenses_json := licenses_json quiet_env;
  now_year := now_year quiet_env;
  getcwd := getcwd quiet_env;
  render_extended := render_extended quiet_env
|}.

(** Everything exists except [/repo/missing.txt]. *)
Definition env_one_missing : Env := {|
  os_spawn := os_spawn quiet_env;
  os_stat := fun _ p =>
    if String.eqb p "/repo/missing.txt" then Absent else Present;
  os_mkdir := os_mkdir quiet_env;
  os_write := os_write quiet_env;
  licenses_json := licenses_json quiet_env;
  now_year := now_year quiet_env;
  getcwd := getcwd quiet_env;
  render_extended := render_extended quiet_env
|}.

(** The tool lists two branches, [main] checked out. *)
Definition env_two_branches : Env := {|
  os_spawn := fun _ _ _ =>
    Exited 0 (String.concat nl ["* main"; "  feature"; ""]) "";
  os_stat := os_stat quiet_env;
  os_mkdir := os_mkdir quiet_env;
  os_write := os_write quiet_env;
  licenses_json := licenses_json quiet_env;
  now_year := now_year quiet_env;
  getcwd := getcwd quiet_env;
  render_extended := render_extended quiet_env
|}.

Definition read_only : os_error :=
  {| os_class := PermissionError;
     os_str := "[Errno 13] Permission denied: '/repo/LICENSE'" |}.

(** The repository directory cannot be written to. *)
Definition env_read_only : Env := {|
  os_spawn := os_spawn quiet_env;
  os_stat := os_stat quiet_env;
  os_mkdir := os_mkdir quiet_env;
  os_write := fun _ _ _ => Some read_only;
  licenses_json := licenses_json quiet_env;
  now_year := now_year quiet_env;
  getcwd := getcwd quiet_env;
  render_extended := render_extended quiet_env
|}.

Definition repo : GitManager := {| repo_path := Path "/repo" |}.

Definition builtin_manager : LicenseManager :=
  {| lm_repo_path := Path "/repo"; licenses := default_licenses |}.

(** A store, as a definition file can supply it, with two odd templates. *)
Definition odd_store : dict LicenseInfo :=
  [ ("Numbered", {| name := "Numbered"; text := "(c) {} {holder}";
                    requires_name := true |});
    ("Holder", {| name := "Holder"; text := "(c) {year} {holder}";
                  requires_name := true |}) ].

Definition odd_manager : LicenseManager :=
  {| lm_repo_path := Path "/repo"; licenses := odd_store |}.

Definition app : RepoManagerApp :=
  {| git_manager := Some repo; license_manager := Some builtin_manager |}.

End Examples.

(** ** Further vocabulary *)

(** Some character of [s] is white space. *)
Fixpoint has_whitespace (s : string) : bool :=
  match s with
  | EmptyString => false
  | String a s' => is_space a || has_whitespace s'
  end.

(** An argument that [add_files] puts under the repository root. *)
Definition relative_argument (path : string) : bool := negb (startswith path "/").

(** What [_load_license_templates] makes of one entry of the definition
    file. *)
Definition loaded_info (key : string) (data : JsonEntry) : LicenseInfo :=
  {| name := or_default (json_name data) key;
     text := or_default (json_text data) "";
     requires_name := or_default (json_requires_name data) true |}.

(** What [generate_license] makes of a failure of the formatter. *)
Definition translated (e : exn) : exn :=
  match e with
  | KeyError key => TemplateMalformed key
  | _ => e
  end.

(** What an operation other than [init_repo] does: it fails or answers
    without an effect, or it runs the tool once and its result is that of
    the run. *)
Definition quiet_or_one_run (env : Env) (self : GitManager) (c : M unit) : Prop :=
  forall h,
    snd (c h) = h \/
    exists args,
      c h =
      (match tool_result args (spawn_outcome env h ("git" :: args) (tool_cwd self)) with
       | Return _ => Return tt
       | Raise e => Raise e
       end,
       h ++ spawn_events ("git" :: args) (tool_cwd self)
              (spawn_outcome env h ("git" :: args) (tool_cwd self))).

(** More environments and objects for the examples. *)
Module Sessions.

(** A directory name that holds NUL, and the executor on it. *)
Definition nul_directory : string := "/re" +++ String "000"%char "po".

Definition nul_repo : GitManager := {| repo_path := Path nul_directory |}.

(** An argument that holds NUL. *)
Definition nul_argument : string := "fix" +++ String "000"%char "typo".

(** A directory that is there but holds no repository yet. *)
Definition env_fresh_directory : Env := {|
  os_spawn := os_spawn Examples.quiet_env;
  os_stat := fun _ p => if String.eqb p "/repo/.git" then Absent else Present;
  os_mkdir := os_mkdir Examples.quiet_env;
  os_write := os_write Examples.quiet_env;
  licenses_json := licenses_json Examples.quiet_env;
  now_year := now_year Examples.quiet_env;
  getcwd := getcwd Examples.quiet_env;
  render_extended := render_extended Examples.quiet_env
|}.

(** No repository yet, and no [git] on the search path. *)
Definition env_fresh_without_git : Env := {|
  os_spawn := os_spawn Examples.env_without_git;
  os_stat := os_stat env_fresh_directory;
  os_mkdir := os_mkdir Examples.quiet_env;
  os_write := os_write Examples.quiet_env;
  licenses_json := licenses_json Examples.quiet_env;
  now_year := now_year Examples.quiet_env;
  getcwd := getcwd Examples.quiet_env;
  render_extended := render_extended Examples.quiet_env
|}.

(** The tool lists two branches and marks none (no commit yet on a
    detached work tree, say). *)
Definition env_unmarked_branches : Env := {|
  os_spawn := fun _ _ _ =>
    Exited 0 (String.concat nl ["  main"; ""; "  feature  "; ""]) "";
  os_stat := os_stat Examples.quiet_env;
  os_mkdir := os_mkdir Examples.quiet_env;
  os_write := os_write Examples.quiet_env;
  licenses_json := licenses_json Examples.quiet_env;
  now_year := now_year Examples.quiet_env;
  getcwd := getcwd Examples.quiet_env;
  render_extended := render_extended Examples.quiet_env
|}.

(** A definition file with two entries, the second one with the text
    only. *)
Definition two_entries : list (string * JsonEntry) :=
  [ ("ISC", {| json_name := Some "ISC License";
               json_text := Some "Copyright (c) {year} {name}";
               json_requires_name := Some true |});
    ("Notice", {| json_name := None;
                  json_text := Some "All rights reserved, {year}.";
                  json_requires_name := None |}) ].

Definition env_with_definition_file : Env := {|
  os_spawn := os_spawn Examples.quiet_env;
  os_stat := os_stat Examples.quiet_env;
  os_mkdir := os_mkdir Examples.quiet_env;
  os_write := os_write Examples.quiet_env;
  licenses_json := fun _ => JsonLoaded two_entries;
  now_year := now_year Examples.quiet_env;
  getcwd := getcwd Examples.quiet_env;
  render_extended := render_extended Examples.quiet_env
|}.

(** The definition file is there and is not JSON. *)
Definition env_broken_definition_file : Env := {|
  os_spawn := os_spawn Examples.quiet_env;
  os_stat := os_stat Examples.quiet_env;
  os_mkdir := os_mkdir Examples.quiet_env;
  os_write := os_write Examples.quiet_env;
  licenses_json := fun _ =>
    JsonDecodeError "Expecting value: line 1 column 1 (char 0)";
  now_year := now_year Examples.quiet_env;
  getcwd := getcwd Examples.quiet_env;
  render_extended := render_extended Examples.quiet_env
|}.

(** A store with a template that needs no author and one with a stray
    closing brace. *)
Definition plain_store : dict LicenseInfo :=
  [ ("Dedication", {| name := "Dedication";
                      text := "Dedicated to the public {{domain}} in {year}{name}.";
                      requires_name := false |});
    ("Stray", {| name := "Stray"; text := "(c) {year} } {name}";
                 requires_name := false |}) ].

Definition plain_manager : LicenseManager :=
  {| lm_repo_path := Path "/repo"; licenses := plain_store |}.

Definition nul_manager : LicenseManager :=
  {| lm_repo_path := Path nul_directory; licenses := default_licenses |}.

(** A tool that succeeds and warns on its standard error with a byte
    that is not UTF-8. *)
Definition stray_byte : string := String "255"%char "".

Definition cannot_decode : string :=
  "'utf-8' codec can't decode byte 0xff in position 0: invalid start byte".

Definition env_undecodable_output : Env := {|
  os_spawn := fun _ _ _ => ExitedUndecodable 0 "" stray_byte cannot_decode;
  os_stat := os_stat Examples.quiet_env;
  os_mkdir := os_mkdir Examples.quiet_env;
  os_write := os_write Examples.quiet_env;
  licenses_json := licenses_json Examples.quiet_env;
  now_year := now_year Examples.quiet_env;
  getcwd := getcwd Examples.quiet_env;
  render_extended := render_extended Examples.quiet_env
|}.

End Sessions.

(** ** The application object as state

    The methods of [RepoManagerApp] assign to the fields of the object, and
    an assignment made before a failure stays.  Here the object is part of
    the state: a method takes the object and returns it with its result,
    also when it raises. *)

Definition AppM (A : Type) : Type :=
  RepoManagerApp -> list Event -> outcome A * RepoManagerApp * list Event.

Section Application.

Variable env : Env.

(** [self.git_manager = GitManager(repo_path)] and then
    [self.license_manager = LicenseManager(repo_path)]. *)
Definition RepoManagerApp_initialize_managers (path : string) : AppM unit :=
  fun self h =>
    match GitManager_init env path h with
    | (Raise e, h1) => (Raise e, self, h1)
    | (Return gm, h1) =>
        let self1 := {| git_manager := Some gm;
                        license_manager := license_manager self |} in
        match LicenseManager_init env path h1 with
        | (Raise e, h2) => (Raise e, self1, h2)
        | (Return lm, h2) =>
            (Return tt, {| git_manager := Some gm; license_manager := Some lm |}, h2)
        end
    end.

(** [self.initialize_managers(repo_path)] and then
    [self.git_manager.init_repo()]. *)
Definition RepoManagerApp_create_repository (path : string) : AppM unit :=
  fun self h =>
    match RepoManagerApp_initialize_managers path self h with
    | (Raise e, self1, h1) => (Raise e, self1, h1)
    | (Return _, self1, h1) =>
        match git_manager self1 with
        | Some gm => let (r, h2) := init_repo env gm h1 in (r, self1, h2)
        | None => (Return tt, self1, h1) (* not reached: the field was just set *)
        end
    end.

(** [generate_and_add_license] assigns to no field. *)
Definition RepoManagerApp_generate_and_add_license (license_name : string)
    (author : option string) : AppM unit :=
  fun self h =>
    let (r, h1) := generate_and_add_license env self license_name author h in
    (r, self, h1).

End Application.

(** ** The command-line interface *)

Module CLI.

(** [s.split()]: the maximal runs of characters that are not white
    space. *)
Fixpoint split_whitespace_from (current s : string) : list string :=
  match s with
  | EmptyString => if truthy current then [current] else []
  | String a s' =>
      if is_space a
      then (if truthy current then current :: split_whitespace_from "" s'
            else split_whitespace_from "" s')
      else split_whitespace_from (current +++ String a "") s'
  end.

Definition split_whitespace (s : string) : list string := split_whitespace_from "" s.

(** [str(e)] for an exception of the program: each class passes
    [(message, error_code)] on to [Exception], so the exception holds two
    arguments, and its string is the [repr] of that pair; [error_code] is
    [None] throughout. *)
Definition exception_str (message : string) : string :=
  "(" +++ py_repr message +++ ", None)".

(** The message of an exception that [except RepoManagerError] catches. *)
Definition typed_message (e : exn) : option string :=
  match e with
  | RepoManagerError m | GitOperationError m | LicenseError m
  | InvalidLicenseError m | LicenseGenerationError m | ConfigError m => Some m
  | _ => None
  end.

Inductive OperationType : Type :=
| INIT_REPO
| ADD_FILES
| COMMIT
| PUSH
| CREATE_BRANCH
| MERGE
| PULL
| CHECKOUT
| LIST_BRANCHES
| GENERATE_LICENSE.

(** What the console shows: a printed line, or the prompt of [input]. *)
Inductive ConsoleOut : Type :=
| Printed (line : string)
| Prompted (prompt : string).

(** The state of a session: the application object, the lines the user is
    going to type, what the console has shown, and the trace. *)
Record World : Type := {
  w_app : RepoManagerApp;
  w_stdin : list string;
  w_stdout : list ConsoleOut;
  w_trace : list Event
}.

(** A handler returns, lets an exception through, or fails with one of
    the two errors of the interpreter that the session itself can cause:
    [input] at the end of the input, and a method called on [None]. *)
Inductive cli_outcome (A : Type) : Type :=
| Done (a : A)
| Uncaught (e : exn)
| EOFError
| AttributeError.
Arguments Done {A} a.
Arguments Uncaught {A} e.
Arguments EOFError {A}.
Arguments AttributeError {A}.

Definition Cli (A : Type) : Type := World -> cli_outcome A * World.

Definition done {A} (a : A) : Cli A := fun w => (Done a, w).

Definition cli_bind {A B} (c : Cli A) (k : A -> Cli B) : Cli B :=
  fun w => match c w with
           | (Done a, w') => k a w'
           | (Uncaught e, w') => (Uncaught e, w')
           | (EOFError, w') => (EOFError, w')
           | (AttributeError, w') => (AttributeError, w')
           end.

Declare Scope cli_scope.
Delimit Scope cli_scope with cli.
Notation "x <- c ;; k" := (cli_bind c (fun x => k))
  (at level 61, c at next level, right associativity) : cli_scope.
Notation "c ;;; k" := (cli_bind c (fun _ => k))
  (at level 61, right associativity) : cli_scope.

Definition shown (w : World) (o : ConsoleOut) : World :=
  {| w_app := w_app w; w_stdin := w_stdin w;
     w_stdout := w_stdout w ++ [o]; w_trace := w_trace w |}.

(** [print(line)]. *)
Definition print (line : string) : Cli unit :=
  fun w => (Done tt, shown w (Printed line)).

Fixpoint print_all (lines : list string) : Cli unit :=
  match lines with
  | [] => done tt
  | l :: rest => cli_bind (print l) (fun _ => print_all rest)
  end.

(** [input(prompt)]: the prompt is shown, the next line is taken. *)
Definition input (prompt : string) : Cli string :=
  fun w =>
    match w_stdin w with
    | [] => (EOFError, shown w (Prompted prompt))
    | l :: rest =>
        (Done l, {| w_app := w_app w; w_stdin := rest;
                    w_stdout := w_stdout w ++ [Prompted prompt];
                    w_trace := w_trace w |})
    end.

(** A call of a method of one of the two services. *)
Definition call {A} (c : M A) : Cli A :=
  fun w =>
    let (r, h) := c (w_trace w) in
    let w' := {| w_app := w_app w; w_stdin := w_stdin w;
                 w_stdout := w_stdout w; w_trace := h |} in
    (match r with Return a => Done a | Raise e => Uncaught e end, w').

(** A call of a method of the application object. *)
Definition call_app {A} (c : AppM A) : Cli A :=
  fun w =>
    let '(r, self, h) := c (w_app w) (w_trace w) in
    let w' := {| w_app := self; w_stdin := w_stdin w;
                 w_stdout := w_stdout w; w_trace := h |} in
    (match r with Return a => Done a | Raise e => Uncaught e end, w').

(** [try: c except RepoManagerError as e: print(f"Error: {e}")]. *)
Definition reporting (c : Cli unit) : Cli unit :=
  fun w =>
    match c w with
    | (Uncaught e, w') =>
        match typed_message e with
        | Some m => print ("Error: " +++ exception_str m) w'
        | None => (Uncaught e, w')
        end
    | other => other
    end.

(** [self.app.git_manager.method(...)]. *)
Definition with_git_manager {A} (k : GitManager -> Cli A) : Cli A :=
  fun w =>
    match git_manager (w_app w) with
    | Some gm => k gm w
    | None => (AttributeError, w)
    end.

Section Handlers.

Variable env : Env.

Open Scope cli_scope.

Definition operations : dict (string * option OperationType) :=
  [ ("1", ("Initialize Repository", Some INIT_REPO));
    ("2", ("Add Files", Some ADD_FILES));
    ("3", ("Commit Changes", Some COMMIT));
    ("4", ("Push to Remote", Some PUSH));
    ("5", ("Create Branch", Some CREATE_BRANCH));
    ("6", ("Merge Branch", Some MERGE));
    ("7", ("Pull from Remote", Some PULL));
    ("8", ("Checkout Branch", Some CHECKOUT));
    ("9", ("List Branches", Some LIST_BRANCHES));
    ("10", ("Generate License", Some GENERATE_LICENSE));
    ("11", ("Exit", None)) ].

(** The loop of [get_user_choice], on the lines still to come. *)
Fixpoint get_user_choice_from (lines : list string) (out : list ConsoleOut)
    : cli_outcome (option OperationType) * list string * list ConsoleOut :=
  let out1 := out ++ [Prompted (nl +++ "Enter your choice (1-11): ")] in
  match lines with
  | [] => (EOFError, [], out1)
  | l :: rest =>
      let choice := strip l in
      match dict_get operations choice with
      | Some entry => (Done (snd entry), rest, out1)
      | None =>
          get_user_choice_from rest
            (out1 ++ [Printed "Invalid choice. Please enter a number between 1 and 11."])
      end
  end.

Definition get_user_choice : Cli (option OperationType) :=
  fun w =>
    let '(r, rest, out) := get_user_choice_from (w_stdin w) (w_stdout w) in
    (r, {| w_app := w_app w; w_stdin := rest; w_stdout := out; w_trace := w_trace w |}).

Definition _ensure_repository : Cli bool :=
  fun w =>
    match git_manager (w_app w) with
    | None => (print "Error: No repository initialized" ;;; done false) w
    | Some gm =>
        (is_repo <- call (is_repository env gm) ;;
         if negb is_repo
         then print "Error: Not a Git repository" ;;; done false
         else done true) w
    end.

Definition handle_init_repo : Cli unit :=
  line <- input "Enter repository path: " ;;
  let repo_path := strip line in
  if negb (truthy repo_path)
  then print "Error: Repository path cannot be empty"
  else
    reporting
      (call_app (RepoManagerApp_create_repository env repo_path) ;;;
       print ("Initialized Git repository at " +++ repo_path)).

Definition handle_add_files : Cli unit :=
  ok <- _ensure_repository ;;
  if negb ok then done tt
  else
    line <- input "Enter file paths (space-separated): " ;;
    let files := split_whitespace (strip line) in
    match files with
    | [] => print "Error: No files specified"
    | _ :: _ =>
        reporting
          (with_git_manager (fun gm => call (add_files env gm files)) ;;;
           print ("Added " +++ str_of_N (N.of_nat (length files))
                  +++ " files to staging"))
    end.

Definition handle_commit : Cli unit :=
  ok <- _ensure_repository ;;
  if negb ok then done tt
  else
    line <- input "Enter commit message: " ;;
    let message := strip line in
    if negb (truthy message)
    then print "Error: Commit message cannot be empty"
    else
      reporting
        (with_git_manager (fun gm => call (commit env gm message)) ;;;
         print "Changes committed successfully").

(** [input(prompt).strip() or default]. *)
Definition input_or (prompt default : string) : Cli string :=
  line <- input prompt ;;
  let value := strip line in
  done (if truthy value then value else default).

Definition handle_push : Cli unit :=
  ok <- _ensure_repository ;;
  if negb ok then done tt
  else
    remote <- input_or "Enter remote name (default: origin): " "origin" ;;
    branch <- input_or "Enter branch name (default: main): " "main" ;;
    reporting
      (with_git_manager (fun gm => call (push env gm remote branch)) ;;;
       print ("Pushed changes to " +++ remote +++ "/" +++ branch)).

Definition handle_create_branch : Cli unit :=
  ok <- _ensure_repository ;;
  if negb ok then done tt
  else
    line <- input "Enter new branch name: " ;;
    let branch := strip line in
    if negb (truthy branch)
    then print "Error: Branch name cannot be empty"
    else
      reporting
        (with_git_manager (fun gm => call (create_branch env gm branch)) ;;;
         print ("Created and switched to branch: " +++ branch)).

Definition handle_merge : Cli unit :=
  ok <- _ensure_repository ;;
  if negb ok then done tt
  else
    line <- input "Enter branch to merge: " ;;
    let branch := strip line in
    if negb (truthy branch)
    then print "Error: Branch name cannot be empty"
    else
      reporting
        (with_git_manager (fun gm => call (merge env gm branch)) ;;;
         print ("Merged branch: " +++ branch)).

Definition handle_pull : Cli unit :=
  ok <- _ensure_repository ;;
  if negb ok then done tt
  else
    remote <- input_or "Enter remote name (default: origin): " "origin" ;;
    branch <- input_or "Enter branch name (default: main): " "main" ;;
    reporting
      (with_git_manager (fun gm => call (pull env gm remote branch)) ;;;
       print ("Pulled changes from " +++ remote +++ "/" +++ branch)).

Definition handle_checkout : Cli unit :=
  ok <- _ensure_repository ;;
  if negb ok then done tt
  else
    line <- input "Enter branch to checkout: " ;;
    let branch := strip line in
    if negb (truthy branch)
    then print "Error: Branch name cannot be empty"
    else
      reporting
        (with_git_manager (fun gm => call (checkout env gm branch)) ;;;
         print ("Switched to branch: " +++ branch)).

Definition handle_list_branches : Cli unit :=
  ok <- _ensure_repository ;;
  if negb ok then done tt
  else
    reporting
      (branches <- with_git_manager (fun gm => call (list_branches env gm)) ;;
       print (nl +++ "Branches:") ;;;
       print_all (map (fun branch => "  " +++ branch) branches)).

Definition handle_generate_license : Cli unit :=
  ok <- _ensure_repository ;;
  if negb ok then done tt
  else
    fun w =>
      match license_manager (w_app w) with
      | None => print "Error: License manager not initialized" w
      | Some lm =>
          (print (nl +++ "Available licenses:") ;;;
           print_all (map (fun license_name => "  " +++ license_name)
                        (get_available_licenses lm)) ;;;
           line <- input (nl +++ "Enter license name: ") ;;
           let license_name := strip line in
           if negb (truthy license_name)
           then print "Error: License name cannot be empty"
           else
             line2 <- input "Enter author/organization name: " ;;
             let author := strip line2 in
             reporting
               (call_app (RepoManagerApp_generate_and_add_license env
                            license_name (Some author)) ;;;
                print ("Generated and added " +++ license_name +++ " license"))) w
      end.

(** The chain of comparisons in [run] that picks the handler. *)
Definition dispatch (choice : OperationType) : Cli unit :=
  match choice with
  | INIT_REPO => handle_init_repo
  | ADD_FILES => handle_add_files
  | COMMIT => handle_commit
  | PUSH => handle_push
  | CREATE_BRANCH => handle_create_branch
  | MERGE => handle_merge
  | PULL => handle_pull
  | CHECKOUT => handle_checkout
  | LIST_BRANCHES => handle_list_branches
  | GENERATE_LICENSE => handle_generate_license
  end.

End Handlers.

End CLI.

(** ** Logging configuration *)

Module LogManager.

Definition DEBUG : Z := 10.
Definition INFO : Z := 20.

Record Formatter : Type := { fmt : string; datefmt : string }.

Inductive Handler : Type :=
| FileHandler (filename : string) (level : Z) (formatter : Formatter)
| StreamHandler (level : Z) (formatter : Formatter).

(** The class attribute [_configured] and what the calls change of the
    root logger: its level, its handlers, and the records it lets
    through (those at its level or above). *)
Record State : Type := {
  _configured : bool;
  root_level : Z;
  root_handlers : list Handler;
  records : list (Z * string)
}.

Definition formatter : Formatter :=
  {| fmt := "%(asctime)s - %(name)s - %(levelname)s - %(message)s";
     datefmt := "%Y-%m-%d %H:%M:%S" |}.

(** [LogManager.configure_logging(log_file, level)]; [open_log] tells
    whether the log file can be opened. *)
Definition configure_logging (open_log : string -> option os_error)
    (log_file : string) (level : Z) (st : State) : outcome unit * State :=
  if _configured st then (Return tt, st)
  else
    let st1 := {| _configured := false; root_level := level;
                  root_handlers := root_handlers st; records := records st |} in
    match open_log log_file with
    | Some e => (Raise (OSError e), st1)
    | None =>
        (Return tt,
         {| _configured := true;
            root_level := level;
            root_handlers := root_handlers st
                             ++ [FileHandler log_file level formatter;
                                 StreamHandler INFO formatter];
            records := if (level <=? INFO)%Z
                       then records st ++ [(INFO, "Logging configured successfully")]
                       else records st |})
    end.

(** The state before the first call: the root logger warns and above. *)
Definition initial : State :=
  {| _configured := false; root_level := 30; root_handlers := []; records := [] |}.

End LogManager.

(** Environments and sessions for the examples of the interface. *)
Module Consoles.

Definition existing : CLI.World :=
  {| CLI.w_app := RepoManagerApp_init;
     CLI.w_stdin := ["  /repo  "; "3"];
     CLI.w_stdout := [];
     CLI.w_trace := [] |}.

Definition opened : CLI.World :=
  {| CLI.w_app := Examples.app;
     CLI.w_stdin := ["  first commit "; "next"];
     CLI.w_stdout := [];
     CLI.w_trace := [] |}.

Definition unopened : CLI.World :=
  {| CLI.w_app := RepoManagerApp_init;
     CLI.w_stdin := ["some input"];
     CLI.w_stdout := [];
     CLI.w_trace := [] |}.

Definition staging : CLI.World :=
  {| CLI.w_app := Examples.app;
     CLI.w_stdin := ["  a.txt   docs/b.txt /etc/hosts"];
     CLI.w_stdout := [];
     CLI.w_trace := [] |}.

Definition choosing : CLI.World :=
  {| CLI.w_app := RepoManagerApp_init;
     CLI.w_stdin := ["0"; "commit"; " 3 "; "4"];
     CLI.w_stdout := [];
     CLI.w_trace := [] |}.

End Consoles.

(** * Properties *)

(** ** Text *)

Lemma append_assoc (s1 s2 s3 : string) : (s1 +++ s2) +++ s3 = s1 +++ s2 +++ s3.
Proof. induction s1 as [|a s1 IH]; simpl; [reflexivity | now rewrite IH]. Qed.

Lemma append_nil_r (s : string) : s +++ "" = s.
Proof. induction s as [|a s IH]; simpl; [reflexivity | now rewrite IH]. Qed.

Lemma is_prefix_append (p post : string) : is_prefix p (p +++ post) = true.
Proof.
  induction p as [|a p IH]; simpl; [reflexivity|].
  now rewrite Ascii.eqb_refl, IH.
Qed.

Lemma is_prefix_split (p s : string) :
  is_prefix p s = true -> exists post, s = p +++ post.
Proof.
  revert s; induction p as [|a p IH]; intros s H.
  - now exists s.
  - destruct s as [|b s]; simpl in H; [discriminate|].
    apply andb_true_iff in H as [Hab Hps].
    apply Ascii.eqb_eq in Hab; subst b.
    destruct (IH _ Hps) as [post ->]. now exists post.
Qed.

Lemma is_infix_contains (sub s : string) :
  is_infix sub s = true <-> contains s sub.
Proof.
  split.
  - induction s as [|a s IH]; simpl; intros H.
    + rewrite orb_false_r in H. apply is_prefix_split in H as [post ->].
      now exists "", post.
    + apply orb_true_iff in H as [H|H].
      * apply is_prefix_split in H as [post ->]. now exists "", post.
      * destruct (IH H) as (pre & post & ->). now exists (String a pre), post.
  - intros (pre & post & ->).
    induction pre as [|a pre IH]; simpl.
    + destruct (sub +++ post) eqn:E; simpl; rewrite <- E, is_prefix_append;
        reflexivity.
    + rewrite IH. apply orb_true_r.
Qed.

Lemma not_contains (sub s : string) : is_infix sub s = false -> ~ contains s sub.
Proof.
  intros H C. apply is_infix_contains in C. congruence.
Qed.

Lemma contains_middle (pre sub post : string) : contains (pre +++ sub +++ post) sub.
Proof. now exists pre, post. Qed.

Lemma contains_end (pre sub : string) : contains (pre +++ sub) sub.
Proof. exists pre, "". now rewrite append_nil_r. Qed.

Lemma OperationFailed_message_payload (args : list string) (stderr : string) :
  contains (OperationFailed_message args stderr) (String.concat " " args) /\
  contains (OperationFailed_message args stderr) stderr.
Proof.
  unfold OperationFailed_message. split.
  - apply contains_middle.
  - rewrite <- !append_assoc. apply contains_end.
Qed.

Lemma split_on_app (c : ascii) (l s : string) :
  has_char c l = false -> split_on c (l +++ String c s) = l :: split_on c s.
Proof.
  induction l as [|a l IH]; simpl; intros H.
  - now rewrite Ascii.eqb_refl.
  - apply orb_false_iff in H as [Ha Hl]. now rewrite Ha, (IH Hl).
Qed.

Lemma split_on_no_separator (c : ascii) (l : string) :
  has_char c l = false -> split_on c l = [l].
Proof.
  induction l as [|a l IH]; simpl; intros H; [reflexivity|].
  apply orb_false_iff in H as [Ha Hl]. now rewrite Ha, (IH Hl).
Qed.

(** Splitting undoes joining, for lines that do not hold the separator. *)
Lemma split_on_concat (c : ascii) (lines : list string) :
  lines <> [] ->
  Forall (fun l => has_char c l = false) lines ->
  split_on c (String.concat (String c "") lines) = lines.
Proof.
  intros Hne H. induction H as [|l rest Hl Hrest IH]; [contradiction|].
  destruct rest as [|l' rest].
  - simpl. now apply split_on_no_separator.
  - change (String.concat (String c "") (l :: l' :: rest))
      with (l +++ String c (String.concat (String c "") (l' :: rest))).
    rewrite (split_on_app c l _ Hl). f_equal. apply IH. discriminate.
Qed.

Lemma lstrip_spec (s : string) :
  exists l,
    s = l +++ lstrip s /\ all_space l = true /\
    match lstrip s with String a _ => is_space a = false | EmptyString => True end.
Proof.
  induction s as [|a s (l & E & Hl & Hhead)]; [now exists ""|].
  simpl. destruct (is_space a) eqn:Ha.
  - exists (String a l). simpl. rewrite Ha, Hl, <- E. auto.
  - exists "". simpl. auto.
Qed.

Lemma rstrip_empty (s : string) : rstrip s = "" -> all_space s = true.
Proof.
  destruct s as [|a s]; [reflexivity|].
  cbn [rstrip]. destruct (all_space (String a s)); [reflexivity | discriminate].
Qed.

Lemma rstrip_spec (s : string) :
  exists r,
    s = rstrip s +++ r /\ all_space r = true /\
    forall x a, rstrip s = x +++ String a "" -> is_space a = false.
Proof.
  induction s as [|a s (r & E & Hr & Hlast)].
  - exists "". repeat split. intros [|b x] c H; discriminate.
  - cbn [rstrip]. destruct (all_space (String a s)) eqn:Hall.
    + exists (String a s). repeat split; trivial. intros [|b x] c H; discriminate.
    + exists r. repeat split; trivial.
      * simpl. now rewrite <- E.
      * intros [|b x] c H; simpl in H; inversion H; subst.
        -- simpl in Hall. rewrite (rstrip_empty s) in Hall by congruence.
           now rewrite andb_true_r in Hall.
        -- now apply (Hlast x c).
Qed.

(** [strip] takes white space off both ends, and nothing else. *)
Lemma strip_spec (s : string) :
  exists l r,
    s = l +++ strip s +++ r /\ all_space l = true /\ all_space r = true /\
    forall x a, strip s = x +++ String a "" -> is_space a = false.
Proof.
  destruct (lstrip_spec s) as (l & El & Hl & _).
  destruct (rstrip_spec (lstrip s)) as (r & Er & Hr & Hlast).
  exists l, r. unfold strip. repeat split; trivial.
  now rewrite <- Er.
Qed.

(** ** Traces *)

Lemma new_events_app (h l : list Event) : new_events h (h ++ l) = l.
Proof. unfold new_events. induction h; simpl; auto. Qed.

Lemma new_events_same (h : list Event) : new_events h h = [].
Proof. unfold new_events. induction h; simpl; auto. Qed.

(** ** The executor *)

Section Executor.

Variable env : Env.
Variable self : GitManager.

Lemma run_git_command_run (args : list string) (h : list Event) :
  let res := spawn_outcome env h ("git" :: args) (tool_cwd self) in
  _run_git_command env self args true h =
  (tool_result args res, h ++ spawn_events ("git" :: args) (tool_cwd self) res).
Proof.
  unfold _run_git_command, try_except, subprocess_run, completed, tool_result,
    spawn_events, tool_cwd; simpl.
  destruct (spawn_outcome env h ("git" :: args) (Some (str (repo_path self))))
    as [e|rc out err|rc out err reason|message]; try reflexivity.
  - destruct (rc =? 0)%Z; reflexivity.
  - now rewrite app_nil_r.
Qed.

Lemma keeps_protocol_silent {A} (c : M A) :
  (forall h, snd (c h) = h) -> keeps_protocol self c.
Proof.
  intros Hc h r h' E argv cwd rc out err Hin _.
  specialize (Hc h). rewrite E in Hc. simpl in Hc. subst h'.
  rewrite new_events_same in Hin. destruct Hin.
Qed.

Lemma keeps_protocol_tool {A} (args : list string) (k : CompletedProcess -> A) :
  keeps_protocol self (x <- _run_git_command env self args true ;; ret (k x)).
Proof.
  intros h r h' E argv cwd rc out err Hin Hrc.
  unfold bind in E. rewrite run_git_command_run in E. cbv zeta in E.
  destruct (spawn_outcome env h ("git" :: args) (tool_cwd self))
    as [e|rc' out' err'|rc' out' err' reason|message] eqn:S; simpl in E.
  - inversion E; subst. rewrite new_events_app in Hin.
    destruct Hin as [Hin|[]]. discriminate.
  - destruct (rc' =? 0)%Z eqn:Z; simpl in E; inversion E; subst;
      rewrite new_events_app in Hin; destruct Hin as [Hin|[]];
      inversion Hin; subst.
    + apply Z.eqb_eq in Z. contradiction.
    + now exists args.
  - inversion E; subst. rewrite new_events_app in Hin.
    destruct Hin as [Hin|[]]. discriminate.
  - inversion E; subst. rewrite new_events_app in Hin. destruct Hin.
Qed.

Lemma keeps_protocol_if {A} (b : bool) (c1 c2 : M A) :
  keeps_protocol self c1 -> keeps_protocol self c2 -> keeps_protocol self (if b then c1 else c2).
Proof. now destruct b. Qed.

Lemma add_files_loop_trace (file_paths abs_paths : list string) (h : list Event) :
  snd (add_files_loop env self file_paths abs_paths h) = h.
Proof.
  revert abs_paths; induction file_paths as [|p rest IH]; intros acc; simpl.
  - reflexivity.
  - unfold bind, exists_, lift, raise.
    destruct (path_stat env h _); simpl; try reflexivity.
    destruct (relative_to _ _); [apply IH | reflexivity].
Qed.

Lemma keeps_protocol_add_files (file_paths : list string) :
  keeps_protocol self (add_files env self file_paths).
Proof.
  destruct file_paths as [|p rest].
  - apply keeps_protocol_silent. reflexivity.
  - intros h r h' E. unfold add_files, bind in E.
    pose proof (add_files_loop_trace (p :: rest) [] h) as T.
    destruct (add_files_loop env self (p :: rest) [] h) as [[l|e] h1];
      simpl in T; subst h1.
    + exact (keeps_protocol_tool ("add" :: l) (fun _ => tt) h r h' E).
    + inversion E; subst. intros ? ? ? ? ? Hin. rewrite new_events_same in Hin.
      destruct Hin.
Qed.

Lemma keeps_protocol_init_repo : keeps_protocol self (init_repo env self).
Proof.
  intros h r h' E argv cwd rc out err Hin Hrc.
  unfold init_repo, bind, exists_, try_except, mkdir, raise, ret in E.
  destruct (path_stat env h _).
  - inversion E; subst. rewrite new_events_same in Hin. destruct Hin.
  - destruct (mkdir_outcome env h _) as [[oe|message]|] eqn:Mk.
    + inversion E; subst. rewrite new_events_app in Hin.
      destruct Hin as [Hin|[]]. discriminate.
    + inversion E; subst. rewrite new_events_same in Hin. destruct Hin.
    + rewrite run_git_command_run in E. cbv zeta in E.
      destruct (spawn_outcome env _ ("git" :: ["init"]) (tool_cwd self))
        as [e|rc' out' err'|rc' out' err' reason|message] eqn:S; simpl in E.
      * inversion E; subst. rewrite <- app_assoc, new_events_app in Hin.
        destruct Hin as [Hin|[Hin|[]]]; discriminate.
      * destruct (rc' =? 0)%Z eqn:Z; simpl in E; inversion E; subst;
          rewrite <- app_assoc, new_events_app in Hin;
          destruct Hin as [Hin|[Hin|[]]]; try discriminate;
          inversion Hin; subst.
        -- apply Z.eqb_eq in Z. contradiction.
        -- now exists ["init"].
      * inversion E; subst. rewrite <- app_assoc, new_events_app in Hin.
        destruct Hin as [Hin|[Hin|[]]]; discriminate.
      * inversion E; subst. rewrite <- app_assoc, new_events_app in Hin.
        destruct Hin as [Hin|[]]; discriminate.
  - inversion E; subst. rewrite new_events_same in Hin. destruct Hin.
Qed.

Lemma keeps_protocol_operation (op : Operation) :
  keeps_protocol self (run_operation env self op).
Proof.
  destruct op; simpl.
  - apply keeps_protocol_init_repo.
  - apply keeps_protocol_add_files.
  - unfold commit. apply keeps_protocol_if.
    + apply keeps_protocol_silent; reflexivity.
    + apply (keeps_protocol_tool _ (fun _ => tt)).
  - apply (keeps_protocol_tool _ (fun _ => tt)).
  - unfold create_branch. apply keeps_protocol_if.
    + apply keeps_protocol_silent; reflexivity.
    + apply (keeps_protocol_tool _ (fun _ => tt)).
  - apply (keeps_protocol_tool _ (fun _ => tt)).
  - apply (keeps_protocol_tool _ (fun _ => tt)).
  - apply (keeps_protocol_tool _ (fun _ => tt)).
  - intros h r h' E. unfold list_branches, bind in E.
    apply (keeps_protocol_tool ["branch"] (fun _ => tt) h r h').
    unfold bind. destruct (_run_git_command env self ["branch"] true h) as [[x|e] h1];
      exact E.
  - intros h r h' E. unfold status, bind in E.
    apply (keeps_protocol_tool ["status"] (fun _ => tt) h r h').
    unfold bind. destruct (_run_git_command env self ["status"] true h) as [[x|e] h1];
      exact E.
  - apply keeps_protocol_silent. intros h.
    unfold is_repository, bind, exists_. now destruct (path_stat env h _).
Qed.

End Executor.

(** *** Construction *)

(** A version query that exits with a nonzero status is translated. *)
Lemma validate_git_installation_nonzero_exit (env : Env) (h : list Event)
    (rc : Z) (out err : string) :
  spawn_outcome env h ["git"; "--version"] None = Exited rc out err ->
  rc <> 0%Z ->
  _validate_git_installation env h =
  (Raise ToolUnavailable, h ++ [EvSpawn ["git"; "--version"] None (Exited rc out err)]).
Proof.
  intros S Hrc.
  unfold _validate_git_installation, try_except, bind, subprocess_run, completed.
  rewrite S. apply Z.eqb_neq in Hrc. rewrite Hrc. reflexivity.
Qed.

(** C1, at the failing input: when the operating system cannot start the
    version query (no [git] on the search path), constructing the
    executor raises the [OSError] of the interpreter as it is, which is
    not one of the typed failures of the program. *)
Theorem GitManager_init_spawn_failure_untranslated (env : Env) (path : string)
    (h : list Event) (e : os_error) :
  spawn_outcome env h ["git"; "--version"] None = SpawnOSError e ->
  GitManager_init env path h =
  (Raise (OSError e), h ++ [EvSpawn ["git"; "--version"] None (SpawnOSError e)]) /\
  is_RepoManagerError (OSError e) = false /\
  OSError e <> ToolUnavailable.
Proof.
  intros S. unfold GitManager_init, _validate_git_installation, try_except, bind,
    subprocess_run.
  rewrite S. repeat split. discriminate.
Qed.

Lemma GitManager_init_spawn_failure_witness :
  GitManager_init Examples.env_without_git "/repo" [] =
  (Raise (OSError Examples.no_such_file),
   [] ++ [EvSpawn ["git"; "--version"] None (SpawnOSError Examples.no_such_file)]) /\
  is_RepoManagerError (OSError Examples.no_such_file) = false /\
  OSError Examples.no_such_file <> ToolUnavailable.
Proof.
  apply (GitManager_init_spawn_failure_untranslated Examples.env_without_git "/repo" []).
  reflexivity.
Defined.

(** *** Staging *)

(** C3: [add_files] on the empty list raises the invalid-argument failure
    and leaves the trace as it was: the tool is not run. *)
Theorem add_files_empty (env : Env) (self : GitManager) (h : list Event) :
  add_files env self [] h = (Raise InvalidArgument_no_files, h) /\
  new_events h (snd (add_files env self [] h)) = [].
Proof.
  split; [reflexivity|]. simpl. apply new_events_same.
Qed.

(** *** Nonzero exit *)

(** C4, as the code has it.  For every operation called on a constructed
    executor, a run of the tool that the operation adds to the trace and
    that exits with a nonzero status, its output captured as text, is a
    run of [git] with the arguments
    [args] in the repository directory, and the operation raises
    [OperationFailed], whose message contains the joined arguments and the
    captured error text.  The version query of the constructor is
    translated on its own: a nonzero exit raises the tool-unavailable
    failure with its fixed message.  Either way the caller gets a
    [GitOperationError], not the [CalledProcessError] of the interpreter. *)
Theorem nonzero_exit_is_translated (env : Env) :
  (forall (self : GitManager) (op : Operation) (h h' : list Event)
          (r : outcome unit) (argv : list string) (cwd : option string)
          (rc : Z) (out err : string),
      run_operation env self op h = (r, h') ->
      In (EvSpawn argv cwd (Exited rc out err)) (new_events h h') ->
      rc <> 0%Z ->
      exists args,
        argv = "git" :: args /\
        cwd = Some (str (repo_path self)) /\
        r = Raise (GitOperationError (OperationFailed_message args err)) /\
        contains (OperationFailed_message args err) (String.concat " " args) /\
        contains (OperationFailed_message args err) err) /\
  (forall (path : string) (h : list Event) (rc : Z) (out err : string),
      spawn_outcome env h ["git"; "--version"] None = Exited rc out err ->
      rc <> 0%Z ->
      GitManager_init env path h =
      (Raise (GitOperationError "Git is not installed or not in PATH"),
       h ++ [EvSpawn ["git"; "--version"] None (Exited rc out err)])).
Proof.
  split.
  - intros self op h h' r argv cwd rc out err E Hin Hrc.
    destruct (keeps_protocol_operation env self op h r h' E argv cwd rc out err Hin Hrc)
      as (args & -> & -> & ->).
    exists args. repeat split; apply OperationFailed_message_payload.
  - intros path h rc out err S Hrc. unfold GitManager_init, bind.
    now rewrite (validate_git_installation_nonzero_exit env h rc out err S Hrc).
Qed.

Lemma nonzero_exit_is_translated_witness :
  (exists args,
      ["git"; "commit"; "-m"; "first"] = "git" :: args /\
      Some "/repo" = Some (str (repo_path Examples.repo)) /\
      @Raise unit (OperationFailed ["commit"; "-m"; "first"] "fatal: boom")
      = Raise (GitOperationError (OperationFailed_message args "fatal: boom")) /\
      contains (OperationFailed_message args "fatal: boom") (String.concat " " args) /\
      contains (OperationFailed_message args "fatal: boom") "fatal: boom") /\
  GitManager_init Examples.env_failing_git "/repo" [] =
  (Raise (GitOperationError "Git is not installed or not in PATH"),
   [] ++ [EvSpawn ["git"; "--version"] None (Exited 1 "" "fatal: boom")]).
Proof.
  destruct (nonzero_exit_is_translated Examples.env_failing_git) as [Hop Hinit].
  split.
  - apply (Hop Examples.repo (OpCommit "first") []
             [EvSpawn ["git"; "commit"; "-m"; "first"] (Some "/repo")
                (Exited 1 "" "fatal: boom")]
             (Raise (OperationFailed ["commit"; "-m"; "first"] "fatal: boom"))
             ["git"; "commit"; "-m"; "first"] (Some "/repo") 1%Z "" "fatal: boom").
    + reflexivity.
    + simpl. left. reflexivity.
    + lia.
  - apply (Hinit "/repo" [] 1%Z "" "fatal: boom"); [reflexivity | lia].
Defined.

(** C4, as stated, fails on the version query of the constructor: the
    child exits with status 1, and the failure raised carries neither the
    arguments of the query nor its error text. *)
Lemma version_query_nonzero_exit_loses_payload :
  GitManager_init Examples.env_failing_git "/repo" [] =
  (Raise (GitOperationError "Git is not installed or not in PATH"),
   [EvSpawn ["git"; "--version"] None (Exited 1 "" "fatal: boom")]) /\
  ~ contains "Git is not installed or not in PATH" "--version" /\
  ~ contains "Git is not installed or not in PATH" "fatal: boom".
Proof.
  repeat split; [apply not_contains | apply not_contains]; reflexivity.
Qed.

(** *** Missing files and files outside the repository *)

Section Staging.

Variable env : Env.
Variable self : GitManager.

Lemma relative_to_inside (p other : PurePath) :
  is_relative_to p other = true ->
  exists rest, relative_to p other = Return {| root := ""; parts := rest |}.
Proof.
  unfold is_relative_to, relative_to. intros H.
  apply andb_true_iff in H as [-> H].
  destruct (strip_prefix (parts other) (parts p)) as [rest|]; [|discriminate].
  now exists rest.
Qed.

Lemma relative_to_outside (p other : PurePath) :
  is_relative_to p other = false ->
  relative_to p other =
  Raise (ValueError (py_repr (str p) +++ " is not in the subpath of "
                     +++ py_repr (str other))).
Proof.
  unfold is_relative_to, relative_to. intros H.
  destruct (String.eqb (root p) (root other)); [|reflexivity].
  destruct (strip_prefix (parts other) (parts p)); [discriminate | reflexivity].
Qed.

Lemma strip_prefix_app (l r : list string) : strip_prefix l (l ++ r) = Some r.
Proof.
  induction l as [|x l IH]; simpl; [reflexivity|]. now rewrite String.eqb_refl.
Qed.

(** An argument that does not start with a slash is put under the
    repository root, so only an absolute argument can lie outside it. *)
Lemma resolved_relative_argument (path : string) :
  is_absolute (repo_path self) = true ->
  startswith path "/" = false ->
  resolved env self path =
  {| root := root (repo_path self);
     parts := parts (repo_path self) ++ parts (Path path) |} /\
  is_relative_to (resolved env self path) (repo_path self) = true.
Proof.
  intros Habs Hrel. unfold resolved, joinpath, absolute. rewrite Hrel.
  unfold is_absolute in *. simpl root. rewrite Habs. split; [reflexivity|].
  unfold is_relative_to. simpl. now rewrite String.eqb_refl, strip_prefix_app.
Qed.

Lemma add_files_loop_skip (h : list Event) (pre rest : list string) :
  Forall (stageable env self h) pre ->
  forall abs_paths, exists abs_paths',
    add_files_loop env self (pre ++ rest) abs_paths h =
    add_files_loop env self rest abs_paths' h.
Proof.
  induction 1 as [|q pre [Hex Hin] _ IH]; intros acc.
  - now exists acc.
  - simpl. unfold bind at 1, exists_ at 1. fold (resolved env self q). rewrite Hex.
    simpl. destruct (relative_to_inside _ _ Hin) as [tl Htl].
    unfold bind at 1, lift at 1. rewrite Htl. apply IH.
Qed.

Lemma add_files_loop_missing (h : list Event) (p : string) (rest abs_paths : list string) :
  path_stat env h (str (resolved env self p)) = Absent ->
  add_files_loop env self (p :: rest) abs_paths h =
  (Raise (FileNotFound (resolved env self p)), h).
Proof.
  intros Hex. simpl. unfold bind, exists_. fold (resolved env self p).
  rewrite Hex. reflexivity.
Qed.

Lemma add_files_loop_some_missing (h : list Event) (p : string) (file_paths : list string) :
  In p file_paths ->
  path_stat env h (str (resolved env self p)) = Absent ->
  forall abs_paths, exists e,
    add_files_loop env self file_paths abs_paths h = (Raise e, h).
Proof.
  intros Hin Hex. induction file_paths as [|q rest IH]; intros acc; [destruct Hin|].
  simpl. unfold bind at 1, exists_ at 1. fold (resolved env self q).
  destruct (path_stat env h (str (resolved env self q))) eqn:Eq; simpl.
  - unfold bind at 1, lift at 1.
    destruct (relative_to (resolved env self q) (repo_path self)) as [rel|e].
    + destruct Hin as [->|Hin]; [congruence|]. apply IH, Hin.
    + now exists e.
  - now eexists.
  - now eexists.
Qed.

Lemma add_files_of_loop (h : list Event) (file_paths : list string) (e : exn) :
  add_files_loop env self file_paths [] h = (Raise e, h) ->
  add_files env self file_paths h = (Raise e, h).
Proof.
  destruct file_paths as [|q rest]; [discriminate|].
  intros H. unfold add_files, bind. now rewrite H.
Qed.

End Staging.

(** C2, as the code has it: when some resolved path of the list does not
    exist, [add_files] raises and adds nothing to the trace, so the tool
    is not run and nothing is staged; and when every path ahead of the
    first missing one exists under the repository root, the failure is
    [FileNotFound] for that missing path. *)
Theorem add_files_missing_path (env : Env) (self : GitManager) (h : list Event)
    (file_paths : list string) (p : string) :
  In p file_paths ->
  path_stat env h (str (resolved env self p)) = Absent ->
  (exists e, add_files env self file_paths h = (Raise e, h)) /\
  (forall pre rest,
      file_paths = pre ++ p :: rest ->
      Forall (stageable env self h) pre ->
      add_files env self file_paths h = (Raise (FileNotFound (resolved env self p)), h)).
Proof.
  intros Hin Hex. split.
  - destruct (add_files_loop_some_missing env self h p file_paths Hin Hex [])
      as [e He].
    exists e. now apply add_files_of_loop.
  - intros pre rest -> Hpre. apply add_files_of_loop.
    destruct (add_files_loop_skip env self h pre (p :: rest) Hpre []) as [acc ->].
    now apply add_files_loop_missing.
Qed.

Lemma add_files_missing_path_witness :
  (exists e,
      add_files Examples.env_one_missing Examples.repo
        ["a.txt"; "missing.txt"; "b.txt"] [] = (Raise e, [])) /\
  add_files Examples.env_one_missing Examples.repo
    ["a.txt"; "missing.txt"; "b.txt"] [] =
  (Raise (GitOperationError "File not found: /repo/missing.txt"), []).
Proof.
  destruct (add_files_missing_path Examples.env_one_missing Examples.repo []
              ["a.txt"; "missing.txt"; "b.txt"] "missing.txt") as [H1 H2].
  - simpl. right. left. reflexivity.
  - reflexivity.
  - split; [exact H1|].
    apply (H2 ["a.txt"] ["b.txt"]); [reflexivity|].
    constructor; [split; reflexivity | constructor].
Defined.

(** C2, as stated, fails when a path outside the repository comes ahead of
    the missing one: the second path does not exist, yet the failure is
    not [FileNotFound]. *)
Lemma add_files_missing_behind_outside_path :
  path_stat Examples.env_one_missing []
    (str (resolved Examples.env_one_missing Examples.repo "missing.txt")) = Absent /\
  add_files Examples.env_one_missing Examples.repo ["/etc/hosts"; "missing.txt"] [] =
  (Raise (ValueError "'/etc/hosts' is not in the subpath of '/repo'"), []) /\
  forall p, ValueError "'/etc/hosts' is not in the subpath of '/repo'" <> FileNotFound p.
Proof.
  repeat split. intros p. discriminate.
Qed.

(** C10: a first path that exists on disk and does not lie under the
    repository root makes [add_files] raise [ValueError], which is not a
    typed failure of the program; the trace is left as it was. *)
Theorem add_files_outside_root (env : Env) (self : GitManager) (h : list Event)
    (path : string) (rest : list string) :
  path_stat env h (str (resolved env self path)) = Present ->
  is_relative_to (resolved env self path) (repo_path self) = false ->
  let e := ValueError (py_repr (str (resolved env self path))
                       +++ " is not in the subpath of "
                       +++ py_repr (str (repo_path self))) in
  add_files env self (path :: rest) h = (Raise e, h) /\
  is_RepoManagerError e = false /\
  new_events h (snd (add_files env self (path :: rest) h)) = [].
Proof.
  intros Hex Hout e.
  assert (E : add_files env self (path :: rest) h = (Raise e, h)).
  { unfold add_files, bind. simpl. unfold bind, exists_, lift.
    fold (resolved env self path). rewrite Hex. simpl.
    rewrite (relative_to_outside _ _ Hout). reflexivity. }
  rewrite E. repeat split. apply new_events_same.
Qed.

Lemma add_files_outside_root_witness :
  let e := ValueError "'/etc/hosts' is not in the subpath of '/repo'" in
  add_files Examples.quiet_env Examples.repo ["/etc/hosts"; "README.md"] [] =
  (Raise e, []) /\
  is_RepoManagerError e = false /\
  new_events []
    (snd (add_files Examples.quiet_env Examples.repo ["/etc/hosts"; "README.md"] [])) = [].
Proof.
  apply (add_files_outside_root Examples.quiet_env Examples.repo []
           "/etc/hosts" ["README.md"]); reflexivity.
Defined.

(** *** Branch listing *)

Lemma filter_none {A} (f : A -> bool) (l : list A) :
  (forall x, In x l -> f x = false) -> filter f l = [].
Proof.
  induction l as [|a l IH]; simpl; intros H; [reflexivity|].
  rewrite (H a (or_introl eq_refl)). apply IH. intros x Hx. apply H. now right.
Qed.

Lemma filter_all {A} (f : A -> bool) (l : list A) :
  (forall x, In x l -> f x = true) -> filter f l = l.
Proof.
  induction l as [|a l IH]; simpl; intros H; [reflexivity|].
  rewrite (H a (or_introl eq_refl)). f_equal. apply IH. intros x Hx. apply H. now right.
Qed.

Lemma filter_cons_true {A} (f : A -> bool) (a : A) (l : list A) :
  f a = true -> filter f (a :: l) = a :: filter f l.
Proof. intros H. simpl. now rewrite H. Qed.

Lemma filter_cons_false {A} (f : A -> bool) (a : A) (l : list A) :
  f a = false -> filter f (a :: l) = filter f l.
Proof. intros H. simpl. now rewrite H. Qed.

Lemma branches_of_output_unfold (stdout : string) :
  branches_of_output stdout =
  match filter (fun b => startswith b "*") (stripped_lines stdout) with
  | [] => stripped_lines stdout
  | first :: _ =>
      drop 2 first :: filter (fun b => negb (startswith b "*")) (stripped_lines stdout)
  end.
Proof. reflexivity. Qed.

Lemma branches_of_output_current (stdout : string) (pre post : list string)
    (current : string) :
  stripped_lines stdout = pre ++ ("* " +++ current) :: post ->
  (forall b, In b (pre ++ post) -> startswith b "*" = false) ->
  branches_of_output stdout = current :: pre ++ post.
Proof.
  intros L Hothers. rewrite branches_of_output_unfold, L.
  assert (Hpre : forall b, In b pre -> startswith b "*" = false).
  { intros b Hb. apply Hothers, in_or_app. now left. }
  assert (Hpost : forall b, In b post -> startswith b "*" = false).
  { intros b Hb. apply Hothers, in_or_app. now right. }
  rewrite !filter_app.
  rewrite (filter_none _ pre Hpre).
  rewrite (filter_cons_true (fun b => startswith b "*")) by reflexivity.
  rewrite (filter_cons_false (fun b => negb (startswith b "*"))) by reflexivity.
  rewrite (filter_all (fun b => negb (startswith b "*")) pre),
          (filter_all (fun b => negb (startswith b "*")) post).
  - reflexivity.
  - intros b Hb. now rewrite (Hpost b Hb).
  - intros b Hb. now rewrite (Hpre b Hb).
Qed.

Lemma branches_of_output_no_current (stdout : string) :
  (forall b, In b (stripped_lines stdout) -> startswith b "*" = false) ->
  branches_of_output stdout = stripped_lines stdout.
Proof.
  intros H. rewrite branches_of_output_unfold. now rewrite (filter_none _ _ H).
Qed.

Lemma stripped_lines_concat (lines : list string) :
  Forall (fun l => has_char "010"%char l = false) lines ->
  stripped_lines (String.concat nl lines)
  = map strip (filter (fun l => truthy (strip l)) lines).
Proof.
  intros H. destruct lines as [|l rest]; [reflexivity|].
  unfold stripped_lines, nl. rewrite split_on_concat; [reflexivity | discriminate | exact H].
Qed.

(** C5: when the tool exits with status 0, [list_branches] returns what
    [branches_of_output] makes of the lines of the captured output: each
    line is stripped and blank lines are dropped; the line that carries
    the marker comes first with the marker taken off, and the other lines
    follow in the order of the output.  On the lines [* main] and
    [  feature] this is [main], [feature]. *)
Theorem list_branches_current_first (env : Env) (self : GitManager)
    (h : list Event) (lines : list string) (err : string)
    (pre post : list string) (current : string) :
  spawn_outcome env h ["git"; "branch"] (Some (str (repo_path self)))
  = Exited 0 (String.concat nl lines) err ->
  Forall (fun l => has_char "010"%char l = false) lines ->
  map strip (filter (fun l => truthy (strip l)) lines)
  = pre ++ ("* " +++ current) :: post ->
  (forall b, In b (pre ++ post) -> startswith b "*" = false) ->
  list_branches env self h =
  (Return (current :: pre ++ post),
   h ++ [EvSpawn ["git"; "branch"] (Some (str (repo_path self)))
           (Exited 0 (String.concat nl lines) err)]) /\
  branches_of_output (String.concat nl ["* main"; "  feature"]) = ["main"; "feature"].
Proof.
  intros S Hlines L Hothers. split; [|reflexivity].
  rewrite <- (stripped_lines_concat lines Hlines) in L.
  pose proof (branches_of_output_current _ pre post current L Hothers) as B.
  unfold list_branches, bind. rewrite run_git_command_run. cbv zeta.
  unfold tool_cwd. rewrite S. unfold tool_result, ret.
  change (0 =? 0)%Z with true. cbv iota.
  change (cp_stdout {| cp_args := ["git"; "branch"]; cp_returncode := 0;
                       cp_stdout := String.concat nl lines; cp_stderr := err |})
    with (String.concat nl lines).
  now rewrite B.
Qed.

Lemma list_branches_current_first_witness :
  list_branches Examples.env_two_branches Examples.repo [] =
  (Return ("main" :: [] ++ ["feature"]),
   [] ++ [EvSpawn ["git"; "branch"] (Some (str (repo_path Examples.repo)))
            (Exited 0 (String.concat nl ["* main"; "  feature"; ""]) "")]) /\
  branches_of_output (String.concat nl ["* main"; "  feature"]) = ["main"; "feature"].
Proof.
  apply (list_branches_current_first Examples.env_two_branches Examples.repo []
           ["* main"; "  feature"; ""] "" [] ["feature"] "main").
  - reflexivity.
  - repeat constructor.
  - reflexivity.
  - intros b [<-|[]]. reflexivity.
Defined.

(** ** The license generator *)

Section Generator.

Variable env : Env.
Variable lm : LicenseManager.

Lemma generate_license_trace (license_name : string) (author : option string)
    (h : list Event) :
  snd (generate_license env lm license_name author h) = h.
Proof.
  unfold generate_license.
  destruct (dict_get (licenses lm) license_name) as [info|]; [|reflexivity].
  destruct (requires_name info && negb (truthy_opt author)); [reflexivity|].
  unfold try_except, bind, current_year, lift.
  destruct (Format.format _ _ _ _) as [t|e]; [reflexivity|].
  destruct e; reflexivity.
Qed.

Lemma save_license_file_run (license_text : string) (h : list Event) :
  let license_path := str (joinpath (lm_repo_path lm) "LICENSE") in
  let res := write_outcome env h license_path license_text in
  save_license_file env lm license_text h =
  (match res with
   | None => Return tt
   | Some (OSFailure oe) => Raise (WriteFailed oe)
   | Some (Refusal message) => Raise (ValueError message)
   end,
   h ++ write_events license_path license_text res).
Proof.
  unfold save_license_file, try_except, write_text, write_events. cbv zeta.
  destruct (write_outcome env h _ license_text) as [[oe|message]|];
    try reflexivity.
  now rewrite app_nil_r.
Qed.

End Generator.

(** C7: an identifier that is not a key of the store makes
    [generate_license] raise [InvalidLicenseError], whatever the author
    is (a name, the empty string or none at all), so before the author is
    looked at. *)
Theorem generate_license_absent_identifier (env : Env) (lm : LicenseManager)
    (license_name : string) (author : option string) (h : list Event) :
  dict_get (licenses lm) license_name = None ->
  generate_license env lm license_name author h =
  (Raise (InvalidLicenseError ("License '" +++ license_name +++ "' is not available")), h).
Proof.
  intros H. unfold generate_license. now rewrite H.
Qed.

Lemma generate_license_absent_identifier_witness :
  generate_license Examples.quiet_env Examples.builtin_manager
    "NotARealLicense" (Some "X") [] =
  (Raise (InvalidLicenseError "License 'NotARealLicense' is not available"), []) /\
  generate_license Examples.quiet_env Examples.builtin_manager
    "NotARealLicense" (Some "") [] =
  (Raise (InvalidLicenseError "License 'NotARealLicense' is not available"), []).
Proof.
  split.
  - apply (generate_license_absent_identifier Examples.quiet_env Examples.builtin_manager
             "NotARealLicense" (Some "X") []). reflexivity.
  - apply (generate_license_absent_identifier Examples.quiet_env Examples.builtin_manager
             "NotARealLicense" (Some "") []). reflexivity.
Defined.

(** ** The composed use case *)

(** C9: [generate_and_add_license] runs the three steps in sequence and
    stops at the first failure.  When generation raises, that failure is
    the result and the trace is unchanged: no file is written, the tool is
    not run.  When generation returns and the write fails, the result is
    the write failure and the trace gains the failed write only: staging
    is not begun.  When the write succeeds, the result is that of
    [add_files] on [LICENSE], run after the write.  A write that the
    library refuses before the operating system is asked stops the
    sequence as well: its [ValueError] is the result and the trace is
    unchanged. *)
Theorem generate_and_add_license_fail_fast (env : Env) (app : RepoManagerApp)
    (gm : GitManager) (lm : LicenseManager) (license_name : string)
    (author : option string) (h : list Event) :
  git_manager app = Some gm ->
  license_manager app = Some lm ->
  let license_path := str (joinpath (lm_repo_path lm) "LICENSE") in
  (forall e h1,
      generate_license env lm license_name author h = (Raise e, h1) ->
      generate_and_add_license env app license_name author h = (Raise e, h)) /\
  (forall license_text h1 oe,
      generate_license env lm license_name author h = (Return license_text, h1) ->
      write_outcome env h license_path license_text = Some (OSFailure oe) ->
      generate_and_add_license env app license_name author h =
      (Raise (WriteFailed oe), h ++ [EvWrite license_path license_text (Some oe)])) /\
  (forall license_text h1,
      generate_license env lm license_name author h = (Return license_text, h1) ->
      write_outcome env h license_path license_text = None ->
      generate_and_add_license env app license_name author h =
      add_files env gm ["LICENSE"] (h ++ [EvWrite license_path license_text None])) /\
  (forall license_text h1 message,
      generate_license env lm license_name author h = (Return license_text, h1) ->
      write_outcome env h license_path license_text = Some (Refusal message) ->
      generate_and_add_license env app license_name author h =
      (Raise (ValueError message), h)).
Proof.
  intros Hgm Hlm license_path.
  unfold generate_and_add_license. rewrite Hgm, Hlm.
  pose proof (generate_license_trace env lm license_name author h) as T.
  repeat split.
  - intros e h1 G. rewrite G in T. simpl in T. subst h1.
    unfold bind. now rewrite G.
  - intros license_text h1 oe G W. rewrite G in T. simpl in T. subst h1.
    unfold bind at 1. rewrite G. unfold bind.
    rewrite save_license_file_run. cbv zeta. fold license_path. now rewrite W.
  - intros license_text h1 G W. rewrite G in T. simpl in T. subst h1.
    unfold bind at 1. rewrite G. unfold bind.
    rewrite save_license_file_run. cbv zeta. fold license_path. now rewrite W.
  - intros license_text h1 message G W. rewrite G in T. simpl in T. subst h1.
    unfold bind at 1. rewrite G. unfold bind.
    rewrite save_license_file_run. cbv zeta. fold license_path. rewrite W.
    simpl. now rewrite app_nil_r.
Qed.

Lemma generate_and_add_license_fail_fast_witness :
  generate_and_add_license Examples.quiet_env Examples.app "GPL" (Some "Acme Corp") [] =
  (Raise (UnknownLicense "GPL"), []) /\
  exists license_text,
    generate_license Examples.env_read_only Examples.builtin_manager
      "MIT" (Some "Acme Corp") [] = (Return license_text, []) /\
    generate_and_add_license Examples.env_read_only Examples.app
      "MIT" (Some "Acme Corp") [] =
    (Raise (WriteFailed Examples.read_only),
     [] ++ [EvWrite "/repo/LICENSE" license_text (Some Examples.read_only)]).
Proof.
  split.
  - destruct (generate_and_add_license_fail_fast Examples.quiet_env Examples.app
                Examples.repo Examples.builtin_manager "GPL" (Some "Acme Corp") []
                eq_refl eq_refl) as (H1 & _ & _).
    apply (H1 _ []). reflexivity.
  - destruct (generate_and_add_license_fail_fast Examples.env_read_only Examples.app
                Examples.repo Examples.builtin_manager "MIT" (Some "Acme Corp") []
                eq_refl eq_refl) as (_ & H2 & _).
    destruct (generate_license Examples.env_read_only Examples.builtin_manager
                "MIT" (Some "Acme Corp") []) as [[license_text|e] h1] eqn:G.
    + assert (h1 = []) as ->.
      { pose proof (generate_license_trace Examples.env_read_only
                      Examples.builtin_manager "MIT" (Some "Acme Corp") []) as T.
        rewrite G in T. exact T. }
      exists license_text. split; [reflexivity|].
      apply (H2 license_text [] Examples.read_only); reflexivity.
    + vm_compute in G. discriminate.
Defined.

(** ** Substitution *)

Section Substitution.

Import Format Pieces.

Variable rext : string -> option ascii -> string -> value -> outcome string.
Variable year : N.
Variable author : string.

Lemma prepend_prepend (a b : string) (o : outcome string) :
  prepend a (prepend b o) = prepend (a +++ b) o.
Proof. destruct o; simpl; [now rewrite append_assoc | reflexivity]. Qed.

Lemma prepend_nil (o : outcome string) : prepend "" o = o.
Proof. now destruct o. Qed.

Lemma run_piece (p : piece) (rest : string) :
  ordinary p = true ->
  run rext year author Text (source p +++ rest) = prepend (substituted year author p) (run rext year author Text rest).
Proof.
  destruct p as [c| | | |]; intros H; try reflexivity.
  simpl in H. apply andb_true_iff in H as [H1 H2].
  apply negb_true_iff in H1, H2.
  simpl. unfold step. now rewrite H1, H2.
Qed.

Lemma run_pieces (ps : list piece) (rest : string) :
  forallb ordinary ps = true ->
  run rext year author Text (sources ps +++ rest) = prepend (substitution year author ps) (run rext year author Text rest).
Proof.
  unfold sources, substitution.
  induction ps as [|p ps IH]; intros H.
  - simpl. now rewrite prepend_nil.
  - simpl in H. apply andb_true_iff in H as [Hp Hps].
    simpl map. simpl flatten. rewrite append_assoc, (run_piece p _ Hp), (IH Hps).
    apply prepend_prepend.
Qed.

Lemma format_pieces (ps : list piece) :
  forallb ordinary ps = true ->
  Format.format rext year author (sources ps) = Return (substitution year author ps).
Proof.
  intros H. unfold Format.format.
  rewrite <- (append_nil_r (sources ps)), (run_pieces ps "" H).
  simpl. now rewrite append_nil_r.
Qed.

Lemma substitution_contains (ps : list piece) (p : piece) :
  In p ps -> contains (substitution year author ps) (substituted year author p).
Proof.
  unfold substitution. induction ps as [|q ps IH]; intros Hin; [destruct Hin|].
  destruct Hin as [->|Hin]; simpl.
  - exists "", (flatten (map (substituted year author) ps)). reflexivity.
  - destruct (IH Hin) as (pre & post & E). rewrite E.
    exists (substituted year author q +++ pre), post. now rewrite append_assoc.
Qed.

Lemma existsb_is_year (ps : list piece) : existsb is_year ps = true -> In PYear ps.
Proof.
  intros H. apply existsb_exists in H as (p & Hin & Hp). now destruct p.
Qed.

Lemma existsb_is_name (ps : list piece) : existsb is_name ps = true -> In PName ps.
Proof.
  intros H. apply existsb_exists in H as (p & Hin & Hp). now destruct p.
Qed.

(** On a simple template the formatter is substitution, and the result
    shows the year and the author. *)
Lemma format_simple_template (t : string) :
  simple_template t = true ->
  exists result,
    Format.format rext year author t = Return result /\
    contains result author /\ contains result (str_of_N year).
Proof.
  unfold simple_template. intros H.
  repeat (apply andb_true_iff in H as [H ?]).
  apply String.eqb_eq in H.
  set (ps := pieces_of (String.length t) t) in *.
  exists (substitution year author ps). repeat split.
  - rewrite <- H. now apply format_pieces.
  - apply (substitution_contains _ PName). now apply existsb_is_name.
  - apply (substitution_contains _ PYear). now apply existsb_is_year.
Qed.

Lemma snoc_append (acc : string) (c : ascii) (s : string) :
  snoc acc c +++ s = acc +++ String c s.
Proof. unfold snoc. now rewrite append_assoc. Qed.

Lemma step_name_plain (acc : string) (c : ascii) :
  no_markup (String c "") = true -> step_name acc c = Goto (InName (snoc acc c)).
Proof.
  simpl. rewrite andb_true_r. intros H. apply negb_true_iff in H.
  repeat (apply orb_false_iff in H as [H ?]).
  unfold step_name. now repeat match goal with E : Ascii.eqb _ _ = false |- _ =>
                                  rewrite E; clear E end.
Qed.

Lemma run_field_name (key acc rest : string) :
  no_markup key = true ->
  run rext year author (InName acc) (key +++ "}" +++ rest) =
  match render rext year author {| field_name := acc +++ key; conversion := None; format_spec := "" |} with
  | Return t => prepend t (run rext year author Text rest)
  | Raise e => Raise e
  end.
Proof.
  revert acc. induction key as [|c key IH]; intros acc H.
  - rewrite append_nil_r. reflexivity.
  - simpl in H. apply andb_true_iff in H as [Hc Hkey].
    assert (Hc' : no_markup (String c "") = true) by (simpl; now rewrite Hc).
    simpl. change (step (InName acc) c) with (step_name acc c).
    rewrite (step_name_plain acc c Hc'), (IH _ Hkey), snoc_append. reflexivity.
Qed.

Lemma split_first_plain (key : string) :
  no_markup key = true -> split_first key = (key, "").
Proof.
  induction key as [|c key IH]; intros H; [reflexivity|].
  simpl in H. apply andb_true_iff in H as [Hc Hkey].
  apply negb_true_iff in Hc. repeat (apply orb_false_iff in Hc as [Hc ?]).
  simpl. repeat match goal with E : Ascii.eqb _ _ = false |- _ =>
                  rewrite E; clear E end.
  simpl. now rewrite (IH Hkey).
Qed.

Lemma render_unknown_key (key : string) :
  keyword_name key = true -> key <> "year" -> key <> "name" ->
  render rext year author {| field_name := key; conversion := None; format_spec := "" |}
  = Raise (KeyError key).
Proof.
  unfold keyword_name. intros H Hy Hn.
  apply andb_true_iff in H as [H Hint]. apply andb_true_iff in H as [Hne Hplain].
  unfold Format.render. simpl field_name. rewrite (split_first_plain key Hplain).
  destruct key as [|c key]; [discriminate|].
  destruct (get_integer (String c key)); try discriminate.
  unfold kwargs.
  apply String.eqb_neq in Hy, Hn. now rewrite Hy, Hn.
Qed.

(** The first field that fails is an unknown keyword: [KeyError]. *)
Lemma format_unknown_placeholder (ps : list piece) (key rest : string) :
  forallb ordinary ps = true ->
  keyword_name key = true -> key <> "year" -> key <> "name" ->
  Format.format rext year author (sources ps +++ "{" +++ key +++ "}" +++ rest)
  = Raise (KeyError key).
Proof.
  intros Hps Hkey Hy Hn. unfold Format.format. rewrite (run_pieces _ _ Hps).
  assert (Hplain : no_markup key = true).
  { unfold keyword_name in Hkey. apply andb_true_iff in Hkey as [Hkey _].
    now apply andb_true_iff in Hkey as [_ Hkey]. }
  assert (E : run rext year author Text ("{" +++ key +++ "}" +++ rest) = Raise (KeyError key)).
  { change (run rext year author Text ("{" +++ key +++ "}" +++ rest))
      with (run rext year author AfterOpen (key +++ "}" +++ rest)).
    destruct key as [|c key]; [discriminate|].
    pose proof (run_field_name (String c key) "" rest Hplain) as R.
    simpl in Hplain. apply andb_true_iff in Hplain as [Hc _].
    apply negb_true_iff in Hc. repeat (apply orb_false_iff in Hc as [Hc ?]).
    assert (S : run rext year author AfterOpen (String c key +++ "}" +++ rest)
                = run rext year author (InName "") (String c key +++ "}" +++ rest)).
    { simpl. unfold step. now rewrite Hc. }
    rewrite S, R. simpl append.
    now rewrite (render_unknown_key (String c key) Hkey Hy Hn). }
  now rewrite E.
Qed.

End Substitution.

(** ** Generation *)

Lemma dict_get_key {V} (d : dict V) (key : string) :
  In key (dict_keys d) -> exists v, dict_get d key = Some v.
Proof.
  induction d as [|[k v] d IH]; simpl; intros H; [destruct H|].
  destruct (String.eqb_spec k key) as [->|Hne].
  - now exists v.
  - destruct H as [H|H]; [contradiction | now apply IH].
Qed.

Lemma dict_get_forallb {V} (f : V -> bool) (d : dict V) (key : string) (v : V) :
  forallb (fun kv => f (snd kv)) d = true -> dict_get d key = Some v -> f v = true.
Proof.
  induction d as [|[k w] d IH]; simpl; intros H G; [discriminate|].
  apply andb_true_iff in H as [Hw Hd].
  destruct (String.eqb k key); [now inversion G; subst | now apply IH].
Qed.

(** With no definition file, the store is the built-in table. *)
Lemma load_license_templates_default (env : Env) (h : list Event) :
  licenses_json env h = JsonAbsent ->
  _load_license_templates env h = (Return default_licenses, h).
Proof.
  intros H. unfold _load_license_templates. rewrite H. reflexivity.
Qed.

Lemma default_licenses_keys :
  dict_keys default_licenses =
  ["MIT"; "Apache-2.0"; "BSD-2-Clause"; "BSD-3-Clause"; "Apache-1.1"; "BSD-4-Clause"].
Proof. reflexivity. Qed.

(** Every built-in template requires a name and is a simple template. *)
Lemma default_licenses_simple :
  forallb (fun kv => requires_name (snd kv) && Pieces.simple_template (text (snd kv)))
    default_licenses = true.
Proof. vm_compute. reflexivity. Qed.

Lemma str_of_N_four_digits (y : N) :
  (1000 <= y <= 9999)%N -> String.length (str_of_N y) = 4.
Proof.
  intros Hy.
  assert (H : forallb (fun n => Nat.eqb (String.length (str_of_N (N.of_nat n))) 4)
                (seq (N.to_nat 1000) (N.to_nat 9000)) = true)
    by (vm_compute; reflexivity).
  rewrite forallb_forall in H. specialize (H (N.to_nat y)).
  rewrite N2Nat.id in H. apply Nat.eqb_eq, H, in_seq. lia.
Qed.

Section Generation.

Variable env : Env.
Variable lm : LicenseManager.

Lemma generate_license_simple (license_name : string) (info : LicenseInfo)
    (author : string) (h : list Event) :
  dict_get (licenses lm) license_name = Some info ->
  truthy author = true ->
  Pieces.simple_template (text info) = true ->
  exists license_text,
    generate_license env lm license_name (Some author) h = (Return license_text, h) /\
    contains license_text author /\
    contains license_text (str_of_N (now_year env h)).
Proof.
  intros G Ha Hs.
  destruct (format_simple_template (render_extended env) (now_year env h) author
              (text info) Hs) as (t & E & Hauthor & Hyear).
  exists t. repeat split; trivial.
  unfold generate_license. rewrite G.
  change (truthy_opt (Some author)) with (truthy author). rewrite Ha, andb_false_r.
  unfold try_except, bind, current_year, lift.
  change (or_default (Some author) "") with author. now rewrite E.
Qed.

Lemma generate_license_missing_author (license_name : string) (info : LicenseInfo)
    (author : option string) (h : list Event) :
  dict_get (licenses lm) license_name = Some info ->
  requires_name info = true ->
  truthy_opt author = false ->
  generate_license env lm license_name author h = (Raise (MissingAuthor license_name), h).
Proof.
  intros G Hr Ha. unfold generate_license. now rewrite G, Hr, Ha.
Qed.

End Generation.

(** C6: with the built-in store, for each of its six identifiers,
    [generate_license] with the author [Acme Corp] returns a text that
    contains [Acme Corp] and the decimal form of the current year, which
    has four digits for the years 1000 to 9999; with the empty author it
    raises the missing-author failure, each of the six templates having
    [requires_name] set. *)
Theorem generate_license_builtin (env : Env) (lm : LicenseManager)
    (h : list Event) (license_name : string) :
  licenses lm = default_licenses ->
  In license_name
     ["MIT"; "Apache-2.0"; "BSD-2-Clause"; "BSD-3-Clause"; "Apache-1.1"; "BSD-4-Clause"] ->
  (exists license_text,
      generate_license env lm license_name (Some "Acme Corp") h = (Return license_text, h) /\
      contains license_text "Acme Corp" /\
      contains license_text (str_of_N (now_year env h)) /\
      ((1000 <= now_year env h <= 9999)%N ->
       String.length (str_of_N (now_year env h)) = 4)) /\
  (exists info,
      dict_get (licenses lm) license_name = Some info /\ requires_name info = true) /\
  generate_license env lm license_name (Some "") h =
  (Raise (LicenseGenerationError
            ("License '" +++ license_name +++ "' requires an author/organization name")),
   h).
Proof.
  intros Hstore Hin. rewrite <- default_licenses_keys in Hin.
  destruct (dict_get_key default_licenses license_name Hin) as [info G].
  pose proof (dict_get_forallb
                (fun i => requires_name i && Pieces.simple_template (text i))
                _ _ _ default_licenses_simple G) as P.
  apply andb_true_iff in P as [Hreq Hsimple].
  rewrite <- Hstore in G. split; [|split].
  - destruct (generate_license_simple env lm license_name info "Acme Corp" h
                G eq_refl Hsimple) as (t & E & Ha & Hy).
    exists t. repeat split; trivial. apply str_of_N_four_digits.
  - now exists info.
  - now apply (generate_license_missing_author env lm license_name info).
Qed.

Lemma generate_license_builtin_witness :
  (exists license_text,
      generate_license Examples.quiet_env Examples.builtin_manager
        "BSD-3-Clause" (Some "Acme Corp") [] = (Return license_text, []) /\
      contains license_text "Acme Corp" /\
      contains license_text "2024" /\
      String.length (str_of_N 2024) = 4) /\
  (exists info,
      dict_get default_licenses "BSD-3-Clause" = Some info /\ requires_name info = true) /\
  generate_license Examples.quiet_env Examples.builtin_manager "BSD-3-Clause" (Some "") [] =
  (Raise (LicenseGenerationError
            "License 'BSD-3-Clause' requires an author/organization name"), []).
Proof.
  destruct (generate_license_builtin Examples.quiet_env Examples.builtin_manager []
              "BSD-3-Clause" eq_refl) as [(t & E & Ha & Hy & Hlen) [Hreq Hempty]].
  - simpl. tauto.
  - split; [|exact (conj Hreq Hempty)].
    exists t. split; [exact E|]. split; [exact Ha|]. split; [exact Hy|].
    apply Hlen. simpl. lia.
Defined.

(** X24: when the author requirement is met and the template is made of
    ordinary text, doubled braces and the placeholders [{year}] and
    [{name}] up to a placeholder [{key}] whose name is a plain keyword
    other than [year] and [name], [generate_license] raises the
    malformed-template failure for that key; the trace is left as it
    was. *)
Theorem generate_license_unknown_placeholder (env : Env) (lm : LicenseManager)
    (license_name : string) (info : LicenseInfo) (author : option string)
    (h : list Event) (ps : list Pieces.piece) (key rest : string) :
  dict_get (licenses lm) license_name = Some info ->
  requires_name info && negb (truthy_opt author) = false ->
  text info = Pieces.sources ps +++ "{" +++ key +++ "}" +++ rest ->
  forallb Pieces.ordinary ps = true ->
  Pieces.keyword_name key = true ->
  key <> "year" ->
  key <> "name" ->
  generate_license env lm license_name author h =
  (Raise (LicenseGenerationError ("Failed to format license text: " +++ py_repr key)), h).
Proof.
  intros G Hauthor Htext Hps Hkey Hy Hn.
  unfold generate_license. rewrite G, Hauthor.
  unfold try_except, bind, current_year, lift. rewrite Htext.
  now rewrite (format_unknown_placeholder (render_extended env) (now_year env h)
                 (or_default author "") ps key rest Hps Hkey Hy Hn).
Qed.

Lemma generate_license_unknown_placeholder_witness :
  generate_license Examples.quiet_env Examples.odd_manager "Holder" (Some "Acme Corp") [] =
  (Raise (LicenseGenerationError "Failed to format license text: 'holder'"), []).
Proof.
  apply (generate_license_unknown_placeholder Examples.quiet_env Examples.odd_manager
           "Holder"
           {| name := "Holder"; text := "(c) {year} {holder}"; requires_name := true |}
           (Some "Acme Corp") [] (Pieces.pieces_of 11 "(c) {year} ") "holder" "");
    try reflexivity; discriminate.
Defined.

(** C8, at the failing input: the store holds the template
    [(c) {} {holder}], which refers to the unknown placeholder [{holder}]
    behind a numbered field.  With the author requirement met,
    [generate_license] raises the [IndexError] of the formatter for the
    numbered field as it is: the handler translates [KeyError] only.  The
    failure is not a typed one, so not the malformed-template failure
    that the method documents for a generation that fails. *)
Lemma generate_license_numbered_field_untranslated :
  dict_get (licenses Examples.odd_manager) "Numbered" =
  Some {| name := "Numbered"; text := "(c) {} {holder}"; requires_name := true |} /\
  contains "(c) {} {holder}" "{holder}" /\
  generate_license Examples.quiet_env Examples.odd_manager "Numbered" (Some "Acme Corp") [] =
  (Raise (IndexError "Replacement index 0 out of range for positional args tuple"), []) /\
  is_RepoManagerError
    (IndexError "Replacement index 0 out of range for positional args tuple") = false.
Proof.
  repeat split. now exists "(c) {} ", "".
Qed.

(** * Further properties of the executor *)

Section ExecutorMore.

Variable env : Env.
Variable self : GitManager.

(** Every operation that only runs the tool has the trace of one run. *)
Lemma tool_call_run {A} (args : list string) (k : CompletedProcess -> A)
    (h : list Event) :
  let res := spawn_outcome env h ("git" :: args) (tool_cwd self) in
  (x <- _run_git_command env self args true ;; ret (k x)) h =
  (match tool_result args res with
   | Return x => Return (k x)
   | Raise e => Raise e
   end, h ++ spawn_events ("git" :: args) (tool_cwd self) res).
Proof.
  cbv zeta. unfold bind. rewrite run_git_command_run. cbv zeta.
  now destruct (tool_result args _).
Qed.

Lemma in_spawn_events (argv argv' : list string) (cwd cwd' : option string)
    (res res' : SpawnOutcome) :
  In (EvSpawn argv' cwd' res') (spawn_events argv cwd res) ->
  argv' = argv /\ cwd' = cwd /\ res' = res.
Proof.
  destruct res; simpl; intros H; try contradiction;
    destruct H as [H|[]]; now inversion H.
Qed.

Lemma spawn_events_length (argv : list string) (cwd : option string)
    (res : SpawnOutcome) :
  (length (filter is_spawn (spawn_events argv cwd res)) <= 1)%nat.
Proof. destruct res; simpl; lia. Qed.

(** The ways [init_repo] can go. *)
Lemma init_repo_run (h : list Event) :
  let marker := str (joinpath (repo_path self) ".git") in
  let dir := str (repo_path self) in
  init_repo env self h =
  match path_stat env h marker with
  | Present =>
      (Raise (GitOperationError ("Repository already exists at " +++ dir)), h)
  | StatOSError e => (Raise (OSError e), h)
  | Absent =>
      match mkdir_outcome env h dir with
      | Some (OSFailure oe) =>
          (Raise (GitOperationError ("Failed to create repository: " +++ os_str oe)),
           h ++ [EvMkdir dir (Some oe)])
      | Some (Refusal message) => (Raise (ValueError message), h)
      | None =>
          let h1 := h ++ [EvMkdir dir None] in
          let res := spawn_outcome env h1 ["git"; "init"] (tool_cwd self) in
          (match res with
           | SpawnOSError oe =>
               Raise (GitOperationError ("Failed to create repository: " +++ os_str oe))
           | Exited rc out err =>
               if (rc =? 0)%Z then Return tt else Raise (OperationFailed ["init"] err)
           | ExitedUndecodable _ _ _ reason => Raise (ValueError reason)
           | SpawnRefused message => Raise (ValueError message)
           end, h1 ++ spawn_events ["git"; "init"] (tool_cwd self) res)
      end
  end.
Proof.
  cbv zeta. unfold init_repo, bind at 1, exists_.
  destruct (path_stat env h _); try reflexivity.
  unfold try_except, bind at 1, mkdir.
  destruct (mkdir_outcome env h _) as [[oe|message]|]; try reflexivity.
  rewrite tool_call_run. cbv zeta.
  destruct (spawn_outcome env _ ["git"; "init"] (tool_cwd self))
    as [oe|rc out err|rc out err reason|message]; try reflexivity.
  unfold tool_result. now destruct (rc =? 0)%Z.
Qed.

End ExecutorMore.

(** X1: when the repository marker is there, [init_repo] raises the
    already-exists failure and touches nothing: no directory is made, the
    tool is not run.  When the marker is absent and both the directory and
    the tool succeed, the directory is made first and [git init] runs
    after it, in the repository directory. *)
Theorem init_repo_marker (env : Env) (self : GitManager) (h : list Event) :
  let marker := str (joinpath (repo_path self) ".git") in
  let dir := str (repo_path self) in
  (path_stat env h marker = Present ->
   init_repo env self h =
   (Raise (GitOperationError ("Repository already exists at " +++ dir)), h)) /\
  (forall out err,
      path_stat env h marker = Absent ->
      mkdir_outcome env h dir = None ->
      spawn_outcome env (h ++ [EvMkdir dir None]) ["git"; "init"] (Some dir)
      = Exited 0 out err ->
      init_repo env self h =
      (Return tt,
       h ++ [EvMkdir dir None; EvSpawn ["git"; "init"] (Some dir) (Exited 0 out err)])).
Proof.
  cbv zeta. split.
  - intros P. rewrite init_repo_run. cbv zeta. now rewrite P.
  - intros out err P Mk S. rewrite init_repo_run. cbv zeta. rewrite P, Mk.
    unfold tool_cwd. rewrite S. now rewrite <- app_assoc.
Qed.

Lemma init_repo_marker_witness :
  init_repo Examples.quiet_env Examples.repo [] =
  (Raise (GitOperationError "Repository already exists at /repo"), []) /\
  init_repo Sessions.env_fresh_directory Examples.repo [] =
  (Return tt,
   [] ++ [EvMkdir "/repo" None; EvSpawn ["git"; "init"] (Some "/repo") (Exited 0 "" "")]).
Proof.
  split.
  - apply (init_repo_marker Examples.quiet_env Examples.repo []). reflexivity.
  - apply (init_repo_marker Sessions.env_fresh_directory Examples.repo []);
      reflexivity.
Defined.

(** X2: unless the look-up of the marker itself fails, [init_repo]
    returns, raises a typed failure or raises [ValueError], and never an
    [OSError]: an [OSError] from making the directory or from starting the
    tool is translated into [GitOperationError].  A [ValueError] is the
    library's own and is let through as it is; it arises in these cases
    only: the directory name is refused by [mkdir] (it holds NUL), or the
    directory is made and the run of [git init] is refused or ends with
    output that does not decode. *)
Theorem init_repo_failures (env : Env) (self : GitManager) (h : list Event) :
  let dir := str (repo_path self) in
  let h1 := h ++ [EvMkdir dir None] in
  (forall e, path_stat env h (str (joinpath (repo_path self) ".git")) <> StatOSError e) ->
  match fst (init_repo env self h) with
  | Return _ => True
  | Raise (ValueError message) =>
      mkdir_outcome env h dir = Some (Refusal message) \/
      (mkdir_outcome env h dir = None /\
       (spawn_outcome env h1 ["git"; "init"] (Some dir) = SpawnRefused message \/
        exists rc out err,
          spawn_outcome env h1 ["git"; "init"] (Some dir)
          = ExitedUndecodable rc out err message))
  | Raise e => is_RepoManagerError e = true
  end.
Proof.
  intros dir h1 Hstat. rewrite init_repo_run. cbv zeta.
  destruct (path_stat env h _) as [| |e]; simpl.
  - reflexivity.
  - fold dir. destruct (mkdir_outcome env h dir) as [[oe|message]|]; simpl.
    + reflexivity.
    + now left.
    + fold h1. unfold tool_cwd. fold dir.
      destruct (spawn_outcome env h1 _ _) as [oe|rc out err|rc out err reason|message];
        simpl.
      * reflexivity.
      * now destruct (rc =? 0)%Z.
      * right. split; [reflexivity|]. right. now exists rc, out, err.
      * right. split; [reflexivity|]. now left.
  - now destruct (Hstat e).
Qed.

Lemma init_repo_failures_witness :
  is_RepoManagerError
    (GitOperationError
       "Failed to create repository: [Errno 2] No such file or directory: 'git'") = true /\
  fst (init_repo Sessions.env_fresh_without_git Examples.repo []) =
  Raise (GitOperationError
           "Failed to create repository: [Errno 2] No such file or directory: 'git'") /\
  (mkdir_outcome Examples.quiet_env [] Sessions.nul_directory
   = Some (Refusal "embedded null byte") \/
   (mkdir_outcome Examples.quiet_env [] Sessions.nul_directory = None /\
    (spawn_outcome Examples.quiet_env ([] ++ [EvMkdir Sessions.nul_directory None])
       ["git"; "init"] (Some Sessions.nul_directory)
     = SpawnRefused "embedded null byte" \/
     exists rc out err,
       spawn_outcome Examples.quiet_env ([] ++ [EvMkdir Sessions.nul_directory None])
         ["git"; "init"] (Some Sessions.nul_directory)
       = ExitedUndecodable rc out err "embedded null byte"))) /\
  init_repo Examples.quiet_env Sessions.nul_repo [] =
  (Raise (ValueError "embedded null byte"), []).
Proof.
  split; [|split; [reflexivity|split; [|reflexivity]]].
  - apply (init_repo_failures Sessions.env_fresh_without_git Examples.repo []).
    intros e. discriminate.
  - apply (init_repo_failures Examples.quiet_env Sessions.nul_repo []).
    intros e. discriminate.
Defined.

Section OperationTraces.

Variable env : Env.
Variable self : GitManager.

Lemma quiet_or_one_run_tool {A} (args : list string) (k : CompletedProcess -> A) :
  quiet_or_one_run env self ((x <- _run_git_command env self args true ;; ret (k x)) ;;; ret tt).
Proof.
  intros h. right. exists args. unfold bind at 1. rewrite tool_call_run. cbv zeta.
  now destruct (tool_result args _).
Qed.

Lemma quiet_or_one_run_tool_unit (args : list string) :
  quiet_or_one_run env self (_run_git_command env self args true ;;; ret tt).
Proof.
  intros h. right. exists args. rewrite (tool_call_run env self args (fun _ => tt)).
  cbv zeta. now destruct (tool_result args _).
Qed.

Lemma quiet_or_one_run_operation (op : Operation) :
  op <> OpInitRepo -> quiet_or_one_run env self (run_operation env self op).
Proof.
  intros Hop. destruct op; simpl; try contradiction;
    try apply quiet_or_one_run_tool_unit; try apply quiet_or_one_run_tool.
  - intros h. destruct file_paths as [|p rest]; [now left|].
    unfold add_files.
    pose proof (add_files_loop_trace env self (p :: rest) [] h) as T.
    destruct (add_files_loop env self (p :: rest) [] h) as [[l|e] h1] eqn:L;
      simpl in T; subst h1.
    2: { left. unfold bind. now rewrite L. }
    right. exists ("add" :: l). unfold bind at 1. rewrite L.
    rewrite (tool_call_run env self ("add" :: l) (fun _ => tt)). cbv zeta.
    now destruct (tool_result _ _).
  - intros h. unfold commit. destruct (negb (truthy message)); [now left|].
    apply quiet_or_one_run_tool_unit.
  - intros h. unfold create_branch. destruct (negb (truthy branch_name)); [now left|].
    apply quiet_or_one_run_tool_unit.
  - intros h. left. unfold is_repository, bind, exists_.
    now destruct (path_stat env h _).
Qed.

End OperationTraces.

Lemma one_run_spawn_failure (env : Env) (self : GitManager) (op : Operation)
    (h h' : list Event) (r : outcome unit) (argv : list string)
    (cwd : option string) (e : os_error) :
  op <> OpInitRepo ->
  run_operation env self op h = (r, h') ->
  In (EvSpawn argv cwd (SpawnOSError e)) (new_events h h') ->
  r = Raise (OSError e).
Proof.
  intros Hop E Hin.
  destruct (quiet_or_one_run_operation env self op Hop h) as [Q|(args & Q)];
    rewrite E in Q.
  - simpl in Q. subst h'. rewrite new_events_same in Hin. destruct Hin.
  - injection Q as Hr Hh. rewrite Hh, new_events_app in Hin.
    apply in_spawn_events in Hin. destruct Hin as (_ & _ & Hs).
    rewrite <- Hs in Hr. exact Hr.
Qed.

(** X3: when the operating system cannot start the tool for an
    operation, [init_repo] translates the [OSError] into
    [GitOperationError], and every other operation lets it through as it
    is. *)
Theorem spawn_failure_propagation (env : Env) (self : GitManager) (op : Operation)
    (h h' : list Event) (r : outcome unit) (argv : list string)
    (cwd : option string) (e : os_error) :
  run_operation env self op h = (r, h') ->
  In (EvSpawn argv cwd (SpawnOSError e)) (new_events h h') ->
  r = Raise (match op with
             | OpInitRepo =>
                 GitOperationError ("Failed to create repository: " +++ os_str e)
             | _ => OSError e
             end).
Proof.
  intros E Hin.
  destruct op;
    try (match type of E with
         | run_operation env self ?o h = _ =>
             exact (one_run_spawn_failure env self o h h' r argv cwd e
                      ltac:(discriminate) E Hin)
         end).
  simpl in E. rewrite init_repo_run in E. cbv zeta in E.
  destruct (path_stat env h _).
  - inversion E; subst. rewrite new_events_same in Hin. destruct Hin.
  - destruct (mkdir_outcome env h _) as [[oe|message]|].
    + inversion E; subst. rewrite new_events_app in Hin.
      destruct Hin as [Hin|[]]. discriminate.
    + inversion E; subst. rewrite new_events_same in Hin. destruct Hin.
    + injection E as Hr Hh. rewrite <- Hh, <- app_assoc, new_events_app in Hin.
      destruct Hin as [Hin|Hin]; [discriminate|].
      apply in_spawn_events in Hin. destruct Hin as (_ & _ & Hs).
      rewrite <- Hs in Hr. now symmetry.
  - inversion E; subst. rewrite new_events_same in Hin. destruct Hin.
Qed.

Lemma spawn_failure_propagation_witness :
  @Raise unit (OSError Examples.no_such_file) =
  Raise (OSError Examples.no_such_file) /\
  @Raise unit (GitOperationError
                 "Failed to create repository: [Errno 2] No such file or directory: 'git'") =
  Raise (GitOperationError ("Failed to create repository: "
                            +++ os_str Examples.no_such_file)).
Proof.
  split.
  - apply (spawn_failure_propagation Examples.env_without_git Examples.repo
             (OpPush "origin" "main") []
             [EvSpawn ["git"; "push"; "-u"; "origin"; "main"] (Some "/repo")
                (SpawnOSError Examples.no_such_file)]
             (Raise (OSError Examples.no_such_file))
             ["git"; "push"; "-u"; "origin"; "main"] (Some "/repo")
             Examples.no_such_file).
    + reflexivity.
    + simpl. left. reflexivity.
  - apply (spawn_failure_propagation Sessions.env_fresh_without_git Examples.repo
             OpInitRepo []
             [EvMkdir "/repo" None;
              EvSpawn ["git"; "init"] (Some "/repo") (SpawnOSError Examples.no_such_file)]
             (Raise (GitOperationError
                       "Failed to create repository: [Errno 2] No such file or directory: 'git'"))
             ["git"; "init"] (Some "/repo") Examples.no_such_file).
    + reflexivity.
    + simpl. right. left. reflexivity.
Defined.

(** X4: an operation only adds to the trace, it runs the tool at most
    once, and each run is a run of [git] in the repository directory. *)
Theorem operation_runs_tool_at_most_once (env : Env) (self : GitManager)
    (op : Operation) (h : list Event) :
  exists new,
    snd (run_operation env self op h) = h ++ new /\
    (length (filter is_spawn new) <= 1)%nat /\
    forall argv cwd res,
      In (EvSpawn argv cwd res) new ->
      cwd = Some (str (repo_path self)) /\ exists args, argv = "git" :: args.
Proof.
  assert (Hnone : exists new : list Event,
             h = h ++ new /\ (length (filter is_spawn new) <= 1)%nat /\
             forall argv cwd res,
               In (EvSpawn argv cwd res) new ->
               cwd = Some (str (repo_path self)) /\ exists args, argv = "git" :: args).
  { exists []. rewrite app_nil_r. repeat split; simpl; [lia | contradiction | contradiction]. }
  assert (Hone : forall args res,
             exists new : list Event,
               h ++ spawn_events ("git" :: args) (tool_cwd self) res = h ++ new /\
               (length (filter is_spawn new) <= 1)%nat /\
               forall argv cwd res',
                 In (EvSpawn argv cwd res') new ->
                 cwd = Some (str (repo_path self)) /\ exists args', argv = "git" :: args').
  { intros args res. exists (spawn_events ("git" :: args) (tool_cwd self) res).
    split; [reflexivity|]. split; [apply spawn_events_length|].
    intros argv cwd res' Hin. apply in_spawn_events in Hin.
    destruct Hin as (-> & -> & _). eauto. }
  destruct op;
    try (match goal with
         | |- context [run_operation env self ?o h] =>
             destruct (quiet_or_one_run_operation env self o ltac:(discriminate) h)
               as [Q|(args & Q)];
             [rewrite Q; exact Hnone | rewrite Q; apply Hone]
         end).
  simpl. rewrite init_repo_run. cbv zeta.
  destruct (path_stat env h _); simpl; try exact Hnone.
  destruct (mkdir_outcome env h _) as [[oe|message]|]; simpl; try exact Hnone.
  - exists [EvMkdir (str (repo_path self)) (Some oe)].
    repeat split; simpl; try lia; destruct H as [H|[]]; discriminate.
  - eexists (EvMkdir (str (repo_path self)) None :: spawn_events ["git"; "init"] _ _).
    rewrite <- app_assoc. split; [reflexivity|]. split.
    + simpl. apply spawn_events_length.
    + intros argv cwd res [Hin|Hin]; [discriminate|].
      apply in_spawn_events in Hin. destruct Hin as (-> & -> & _). eauto.
Qed.

Section StagingMore.

Variable env : Env.
Variable self : GitManager.
Hypothesis repo_absolute : is_absolute (repo_path self) = true.

Lemma relative_argument_name (path : string) :
  relative_argument path = true ->
  relative_to (resolved env self path) (repo_path self) =
  Return {| root := ""; parts := parts (Path path) |} /\
  str {| root := ""; parts := parts (Path path) |} = str (Path path).
Proof.
  unfold relative_argument. intros H. apply negb_true_iff in H.
  destruct (resolved_relative_argument env self path repo_absolute H) as [R _].
  split.
  - rewrite R. unfold relative_to. simpl.
    now rewrite String.eqb_refl, strip_prefix_app.
  - assert (P : parse_root path = "").
    { destruct path as [|a path]; [reflexivity|].
      unfold startswith in H.
      destruct a as [[] [] [] [] [] [] [] []]; try reflexivity.
      simpl in H. discriminate. }
    unfold str, Path. simpl. now rewrite P.
Qed.

Lemma add_files_loop_relative (h : list Event) (file_paths abs_paths : list string) :
  Forall (fun p => relative_argument p = true /\
                   path_stat env h (str (resolved env self p)) = Present) file_paths ->
  add_files_loop env self file_paths abs_paths h =
  (Return (abs_paths ++ map (fun p => str (Path p)) file_paths), h).
Proof.
  intros H. revert abs_paths.
  induction H as [|p rest [Hrel Hstat] _ IH]; intros acc; simpl.
  - now rewrite app_nil_r.
  - unfold bind at 1, exists_ at 1. fold (resolved env self p). rewrite Hstat. simpl.
    destruct (relative_argument_name p Hrel) as [R S].
    unfold bind at 1, lift at 1. rewrite R, S, IH. now rewrite <- app_assoc.
Qed.

Lemma add_files_loop_relative_raises (h : list Event) (file_paths abs_paths : list string) :
  Forall (fun p => relative_argument p = true) file_paths ->
  match fst (add_files_loop env self file_paths abs_paths h) with
  | Return _ | Raise (GitOperationError _) | Raise (OSError _) => True
  | Raise _ => False
  end.
Proof.
  intros H. revert abs_paths.
  induction H as [|p rest Hrel _ IH]; intros acc; simpl; [exact I|].
  unfold bind at 1, exists_ at 1. fold (resolved env self p).
  destruct (path_stat env h (str (resolved env self p))); simpl; try exact I.
  destruct (relative_argument_name p Hrel) as [R _].
  unfold bind at 1, lift at 1. rewrite R. apply IH.
Qed.

End StagingMore.

(** X5: for a repository at an absolute path and a non-empty list of
    arguments that do not start with a slash and all exist, [add_files]
    runs [git add] once, in the repository directory, with the arguments
    in their order, each in its normalised form (empty components and
    single dots dropped), and returns when the tool exits with status
    0. *)
Theorem add_files_stages_normalised_paths (env : Env) (self : GitManager)
    (h : list Event) (file_paths : list string) (out err : string) :
  is_absolute (repo_path self) = true ->
  file_paths <> [] ->
  Forall (fun p => relative_argument p = true /\
                   path_stat env h (str (resolved env self p)) = Present) file_paths ->
  let argv := "git" :: "add" :: map (fun p => str (Path p)) file_paths in
  spawn_outcome env h argv (Some (str (repo_path self))) = Exited 0 out err ->
  add_files env self file_paths h =
  (Return tt, h ++ [EvSpawn argv (Some (str (repo_path self))) (Exited 0 out err)]).
Proof.
  intros Habs Hne Hall argv S.
  destruct file_paths as [|p rest]; [contradiction|].
  unfold add_files, bind at 1.
  rewrite (add_files_loop_relative env self Habs h (p :: rest) [] Hall).
  rewrite (tool_call_run env self _ (fun _ => tt)). cbv zeta.
  unfold tool_cwd. subst argv. simpl app. simpl map in S. rewrite S. reflexivity.
Qed.

Lemma add_files_stages_normalised_paths_witness :
  add_files Examples.quiet_env Examples.repo ["./src//main.py"; "docs/"; "README.md"] [] =
  (Return tt,
   [] ++ [EvSpawn ["git"; "add"; "src/main.py"; "docs"; "README.md"] (Some "/repo")
            (Exited 0 "" "")]).
Proof.
  apply (add_files_stages_normalised_paths Examples.quiet_env Examples.repo []
           ["./src//main.py"; "docs/"; "README.md"] "" "").
  - reflexivity.
  - discriminate.
  - repeat constructor.
  - reflexivity.
Defined.

(** X6: for a repository at an absolute path and arguments that do not
    start with a slash, the loop over the arguments returns the names to
    stage or raises [GitOperationError] or [OSError]: the [ValueError] of
    the path computation is out of reach, it takes an absolute argument.
    [add_files] as a whole returns or raises one of these two as well,
    except that a [ValueError] of the library comes through when the loop
    has returned and the run of [git add] on its names is refused or ends
    with output that does not decode. *)
Theorem add_files_relative_arguments (env : Env) (self : GitManager)
    (h : list Event) (file_paths : list string) :
  is_absolute (repo_path self) = true ->
  Forall (fun p => relative_argument p = true) file_paths ->
  match fst (add_files_loop env self file_paths [] h) with
  | Return _ | Raise (GitOperationError _) | Raise (OSError _) => True
  | Raise _ => False
  end /\
  match fst (add_files env self file_paths h) with
  | Return _ | Raise (GitOperationError _) | Raise (OSError _) => True
  | Raise (ValueError message) =>
      exists staged,
        add_files_loop env self file_paths [] h = (Return staged, h) /\
        let res := spawn_outcome env h ("git" :: "add" :: staged)
                     (Some (str (repo_path self))) in
        res = SpawnRefused message \/
        exists rc out err, res = ExitedUndecodable rc out err message
  | Raise _ => False
  end.
Proof.
  intros Habs Hall.
  pose proof (add_files_loop_relative_raises env self Habs h file_paths [] Hall) as L.
  split; [exact L|].
  destruct file_paths as [|p rest]; [exact I|].
  unfold add_files, bind at 1.
  pose proof (add_files_loop_trace env self (p :: rest) [] h) as T.
  destruct (add_files_loop env self (p :: rest) [] h) as [[l|e] h1];
    simpl in L, T; subst h1.
  - rewrite (tool_call_run env self _ (fun _ => tt)). cbv zeta. unfold tool_cwd. simpl.
    destruct (spawn_outcome env h _ _) as [oe|rc out err|rc out err reason|message] eqn:S;
      simpl.
    + exact I.
    + now destruct (rc =? 0)%Z.
    + exists l. split; [reflexivity|]. right. now exists rc, out, err.
    + exists l. split; [reflexivity|]. now left.
  - destruct e; try exact L; contradiction.
Qed.

Lemma add_files_relative_arguments_witness :
  match fst (add_files_loop Examples.env_one_missing Examples.repo
               ["../elsewhere"; "missing.txt"] [] []) with
  | Return _ | Raise (GitOperationError _) | Raise (OSError _) => True
  | Raise _ => False
  end /\
  fst (add_files Examples.env_one_missing Examples.repo
         ["../elsewhere"; "missing.txt"] []) =
  Raise (GitOperationError "File not found: /repo/missing.txt").
Proof.
  split; [|reflexivity].
  apply (add_files_relative_arguments Examples.env_one_missing Examples.repo []
           ["../elsewhere"; "missing.txt"]).
  - reflexivity.
  - repeat constructor.
Defined.

Lemma spawn_outcome_refused (env : Env) (h : list Event) (argv : list string)
    (cwd : option string) (argument : string) :
  In argument argv -> has_nul argument = true ->
  spawn_outcome env h argv cwd = SpawnRefused embedded_null.
Proof.
  intros Hin Hnul. unfold spawn_outcome.
  assert (E : existsb has_nul argv = true).
  { apply existsb_exists. now exists argument. }
  now rewrite E.
Qed.

(** X7: [commit] and [create_branch] reject the empty string before any
    effect, and otherwise pass their argument to the tool as one element
    of the argument vector; [merge] and [checkout] check nothing and pass
    even the empty name.  The run is a call of the library with that
    argument vector in the repository directory: the call is refused with
    [ValueError] and no child is started, which is what happens to an
    argument that holds NUL, or the child is started and the trace gains
    that run. *)
Theorem local_validation (env : Env) (self : GitManager) (h : list Event)
    (argument : string) :
  let cwd := Some (str (repo_path self)) in
  let ran (args : list string) :=
    match spawn_outcome env h ("git" :: args) cwd with
    | SpawnRefused _ => h
    | res => h ++ [EvSpawn ("git" :: args) cwd res]
    end in
  commit env self "" h = (Raise (GitOperationError "Commit message cannot be empty"), h) /\
  create_branch env self "" h =
  (Raise (GitOperationError "Branch name cannot be empty"), h) /\
  (argument <> "" ->
   snd (commit env self argument h) = ran ["commit"; "-m"; argument] /\
   snd (create_branch env self argument h) = ran ["checkout"; "-b"; argument]) /\
  snd (merge env self "" h) = ran ["merge"; ""] /\
  snd (checkout env self "" h) = ran ["checkout"; ""] /\
  (has_nul argument = true ->
   commit env self argument h = (Raise (ValueError "embedded null byte"), h) /\
   create_branch env self argument h = (Raise (ValueError "embedded null byte"), h) /\
   merge env self argument h = (Raise (ValueError "embedded null byte"), h) /\
   checkout env self argument h = (Raise (ValueError "embedded null byte"), h)).
Proof.
  cbv zeta.
  assert (R : forall args,
             h ++ spawn_events ("git" :: args) (tool_cwd self)
                    (spawn_outcome env h ("git" :: args) (tool_cwd self)) =
             match spawn_outcome env h ("git" :: args) (Some (str (repo_path self))) with
             | SpawnRefused _ => h
             | res => h ++ [EvSpawn ("git" :: args) (Some (str (repo_path self))) res]
             end).
  { intros args. unfold tool_cwd.
    destruct (spawn_outcome env h _ _); simpl; try reflexivity. apply app_nil_r. }
  assert (N : forall args, In argument args -> has_nul argument = true ->
             (_run_git_command env self args true ;;; ret tt) h =
             (Raise (ValueError "embedded null byte"), h)).
  { intros args Hin Hnul. rewrite (tool_call_run env self _ (fun _ => tt)). cbv zeta.
    rewrite (spawn_outcome_refused env h ("git" :: args) (tool_cwd self) argument)
      by (trivial; now right).
    simpl. now rewrite app_nil_r. }
  repeat split.
  - unfold commit. destruct argument as [|a s]; [contradiction|].
    change (negb (truthy (String a s))) with false. cbv iota.
    rewrite (tool_call_run env self _ (fun _ => tt)). apply R.
  - unfold create_branch. destruct argument as [|a s]; [contradiction|].
    change (negb (truthy (String a s))) with false. cbv iota.
    rewrite (tool_call_run env self _ (fun _ => tt)). apply R.
  - unfold merge. rewrite (tool_call_run env self _ (fun _ => tt)). apply R.
  - unfold checkout. rewrite (tool_call_run env self _ (fun _ => tt)). apply R.
  - unfold commit. destruct argument as [|a s]; [discriminate|].
    change (negb (truthy (String a s))) with false. cbv iota.
    apply N; simpl; auto.
  - unfold create_branch. destruct argument as [|a s]; [discriminate|].
    change (negb (truthy (String a s))) with false. cbv iota.
    apply N; simpl; auto.
  - unfold merge. apply N; simpl; auto.
  - unfold checkout. apply N; simpl; auto.
Qed.

Lemma local_validation_witness :
  (snd (commit Examples.quiet_env Examples.repo "fix: typo" []) =
   [] ++ [EvSpawn ["git"; "commit"; "-m"; "fix: typo"] (Some "/repo") (Exited 0 "" "")] /\
   snd (create_branch Examples.quiet_env Examples.repo "fix: typo" []) =
   [] ++ [EvSpawn ["git"; "checkout"; "-b"; "fix: typo"] (Some "/repo") (Exited 0 "" "")]) /\
  commit Examples.quiet_env Examples.repo Sessions.nul_argument [] =
  (Raise (ValueError "embedded null byte"), []) /\
  create_branch Examples.quiet_env Examples.repo Sessions.nul_argument [] =
  (Raise (ValueError "embedded null byte"), []) /\
  merge Examples.quiet_env Examples.repo Sessions.nul_argument [] =
  (Raise (ValueError "embedded null byte"), []) /\
  checkout Examples.quiet_env Examples.repo Sessions.nul_argument [] =
  (Raise (ValueError "embedded null byte"), []).
Proof.
  split.
  - destruct (local_validation Examples.quiet_env Examples.repo [] "fix: typo")
      as (_ & _ & H & _).
    apply H. discriminate.
  - destruct (local_validation Examples.quiet_env Examples.repo [] Sessions.nul_argument)
      as (_ & _ & _ & _ & _ & H).
    apply H. reflexivity.
Defined.

(** X8: when no line of the output carries the marker, [list_branches]
    returns the stripped non-blank lines in the order of the output. *)
Theorem list_branches_without_marker (env : Env) (self : GitManager)
    (h : list Event) (lines : list string) (err : string) :
  spawn_outcome env h ["git"; "branch"] (Some (str (repo_path self)))
  = Exited 0 (String.concat nl lines) err ->
  Forall (fun l => has_char "010"%char l = false) lines ->
  (forall l, In l lines -> startswith (strip l) "*" = false) ->
  fst (list_branches env self h) =
  Return (map strip (filter (fun l => truthy (strip l)) lines)).
Proof.
  intros S Hlines Hnone.
  unfold list_branches. rewrite tool_call_run. cbv zeta. unfold tool_cwd. rewrite S.
  simpl. f_equal.
  rewrite branches_of_output_no_current; rewrite (stripped_lines_concat lines Hlines).
  - reflexivity.
  - intros b Hb. apply in_map_iff in Hb as (l & <- & Hl).
    apply filter_In in Hl as [Hl _]. now apply Hnone.
Qed.

Lemma list_branches_without_marker_witness :
  fst (list_branches Sessions.env_unmarked_branches Examples.repo []) =
  Return ["main"; "feature"].
Proof.
  apply (list_branches_without_marker Sessions.env_unmarked_branches Examples.repo []
           ["  main"; ""; "  feature  "; ""] "").
  - reflexivity.
  - repeat constructor.
  - intros l [<-|[<-|[<-|[<-|[]]]]]; reflexivity.
Defined.

(** * Further properties of the license generator *)

Lemma concat_snoc (sep : string) (l : list string) (x : string) :
  l <> [] -> String.concat sep (l ++ [x]) = String.concat sep l +++ sep +++ x.
Proof.
  intros Hne. induction l as [|y l IH]; [contradiction|].
  destruct l as [|z l]; [reflexivity|].
  change (String.concat sep ((y :: z :: l) ++ [x]))
    with (y +++ sep +++ String.concat sep ((z :: l) ++ [x])).
  change (String.concat sep (y :: z :: l))
    with (y +++ sep +++ String.concat sep (z :: l)).
  rewrite IH by discriminate. now rewrite !append_assoc.
Qed.

Lemma has_nul_append (a b : string) : has_nul (a +++ b) = has_nul a || has_nul b.
Proof.
  unfold has_nul. induction a as [|c a IH]; [reflexivity|].
  cbn [String.append has_char]. now rewrite IH, orb_assoc.
Qed.

(** X9: generating a license has no effect, and saving it is one call
    that opens [LICENSE] under the repository path and writes the text as
    it is.  When the text is written, the trace gains that write.  A
    write that the operating system fails is raised as [LicenseError]
    with the message of the operating system.  A path that the library
    refuses, as it does when the repository path holds NUL, raises its
    [ValueError] as it is, and no file is touched.  Neither runs the
    tool. *)
Theorem license_generator_effects (env : Env) (lm : LicenseManager)
    (license_name : string) (author : option string) (license_text : string)
    (h : list Event) :
  let license_path := str (lm_repo_path lm) +++ "/LICENSE" in
  (root (lm_repo_path lm) <> "" -> parts (lm_repo_path lm) <> [] ->
   snd (generate_license env lm license_name author h) = h /\
   save_license_file env lm license_text h =
   match write_outcome env h license_path license_text with
   | None => (Return tt, h ++ [EvWrite license_path license_text None])
   | Some (OSFailure oe) =>
       (Raise (LicenseError ("Failed to save LICENSE file: " +++ os_str oe)),
        h ++ [EvWrite license_path license_text (Some oe)])
   | Some (Refusal message) => (Raise (ValueError message), h)
   end /\
   (has_nul (str (lm_repo_path lm)) = true ->
    save_license_file env lm license_text h =
    (Raise (ValueError "embedded null byte"), h))).
Proof.
  cbv zeta. intros Hroot Hparts. split; [apply generate_license_trace|].
  rewrite save_license_file_run. cbv zeta.
  assert (P : str (joinpath (lm_repo_path lm) "LICENSE")
              = str (lm_repo_path lm) +++ "/LICENSE").
  { unfold joinpath, str. simpl.
    destruct (root (lm_repo_path lm)) as [|a r] eqn:R; [contradiction|].
    destruct (parts (lm_repo_path lm)) as [|x xs] eqn:Ps; [contradiction|].
    rewrite (concat_snoc "/" (x :: xs) "LICENSE") by discriminate.
    cbn [String.append]. now rewrite append_assoc. }
  rewrite P. split.
  - destruct (write_outcome env h _ license_text) as [[oe|message]|];
      try reflexivity.
    simpl. now rewrite app_nil_r.
  - intros Hnul. unfold write_outcome. rewrite has_nul_append, Hnul. simpl.
    now rewrite app_nil_r.
Qed.

Lemma license_generator_effects_witness :
  (snd (generate_license Examples.env_read_only Examples.builtin_manager
          "MIT" (Some "Acme Corp") []) = [] /\
   save_license_file Examples.env_read_only Examples.builtin_manager "text" [] =
   (Raise (LicenseError
             "Failed to save LICENSE file: [Errno 13] Permission denied: '/repo/LICENSE'"),
    [] ++ [EvWrite "/repo/LICENSE" "text" (Some Examples.read_only)]) /\
   (has_nul "/repo" = true ->
    save_license_file Examples.env_read_only Examples.builtin_manager "text" [] =
    (Raise (ValueError "embedded null byte"), []))) /\
  save_license_file Examples.quiet_env Sessions.nul_manager "text" [] =
  (Raise (ValueError "embedded null byte"), []).
Proof.
  split.
  - apply (license_generator_effects Examples.env_read_only Examples.builtin_manager
             "MIT" (Some "Acme Corp") "text" []); discriminate.
  - destruct (license_generator_effects Examples.quiet_env Sessions.nul_manager
                "MIT" (Some "Acme Corp") "text" []) as (_ & _ & H);
      [discriminate | discriminate | ].
    apply H. reflexivity.
Defined.

(** X10: for a template made of ordinary text, doubled braces and the
    placeholders [{year}] and [{name}], and an author that meets the
    requirement of the template, [generate_license] returns the template
    with every [{year}] replaced by the current year in decimal, every
    [{name}] by the author (by nothing when there is none) and every
    doubled brace by a single one. *)
Theorem generate_license_substitutes (env : Env) (lm : LicenseManager)
    (license_name : string) (info : LicenseInfo) (author : option string)
    (h : list Event) (ps : list Pieces.piece) :
  dict_get (licenses lm) license_name = Some info ->
  requires_name info && negb (truthy_opt author) = false ->
  text info = Pieces.sources ps ->
  forallb Pieces.ordinary ps = true ->
  generate_license env lm license_name author h =
  (Return (Pieces.substitution (now_year env h) (or_default author "") ps), h).
Proof.
  intros G Hauthor Htext Hps. unfold generate_license. rewrite G, Hauthor.
  unfold try_except, bind, current_year, lift. rewrite Htext.
  now rewrite (format_pieces (render_extended env) (now_year env h)
                 (or_default author "") ps Hps).
Qed.

Lemma generate_license_substitutes_witness :
  generate_license Examples.quiet_env Sessions.plain_manager "Dedication" None [] =
  (Return "Dedicated to the public {domain} in 2024.", []).
Proof.
  apply (generate_license_substitutes Examples.quiet_env Sessions.plain_manager
           "Dedication"
           {| name := "Dedication";
              text := "Dedicated to the public {{domain}} in {year}{name}.";
              requires_name := false |}
           None []
           (Pieces.pieces_of 60 "Dedicated to the public {{domain}} in {year}{name}."));
    reflexivity.
Defined.

(** X11: of the failures of the formatter, [generate_license] translates
    [KeyError] only; any other one ([ValueError] for a stray brace,
    [IndexError] for a numbered field) is raised as it is. *)
Theorem generate_license_translates_KeyError_only (env : Env) (lm : LicenseManager)
    (license_name : string) (info : LicenseInfo) (author : option string)
    (h : list Event) (e : exn) :
  dict_get (licenses lm) license_name = Some info ->
  requires_name info && negb (truthy_opt author) = false ->
  Format.format (render_extended env) (now_year env h) (or_default author "") (text info)
  = Raise e ->
  generate_license env lm license_name author h = (Raise (translated e), h).
Proof.
  intros G Hauthor F. unfold generate_license. rewrite G, Hauthor.
  unfold try_except, bind, current_year, lift. rewrite F.
  now destruct e.
Qed.

Lemma generate_license_translates_KeyError_only_witness :
  generate_license Examples.quiet_env Sessions.plain_manager "Stray" (Some "Acme Corp") [] =
  (Raise (ValueError "Single '}' encountered in format string"), []).
Proof.
  apply (generate_license_translates_KeyError_only Examples.quiet_env
           Sessions.plain_manager "Stray"
           {| name := "Stray"; text := "(c) {year} } {name}"; requires_name := false |}
           (Some "Acme Corp") [] (ValueError "Single '}' encountered in format string"));
    reflexivity.
Defined.

(** ** The store *)

Lemma dict_set_fresh {V} (d : dict V) (key : string) (v : V) :
  ~ In key (dict_keys d) -> dict_set d key v = d ++ [(key, v)].
Proof.
  induction d as [|[k w] d IH]; simpl; intros H; [reflexivity|].
  destruct (String.eqb_spec k key) as [->|Hne].
  - destruct H. now left.
  - f_equal. apply IH. intros Hin. apply H. now right.
Qed.

Lemma dict_comprehension_from {A V} (f : string -> A -> V)
    (items : list (string * A)) (acc : dict V) :
  NoDup (dict_keys acc ++ map fst items) ->
  fold_left (fun d kx => dict_set d (fst kx) (f (fst kx) (snd kx))) items acc =
  acc ++ map (fun kx => (fst kx, f (fst kx) (snd kx))) items.
Proof.
  revert acc. induction items as [|[k x] items IH]; intros acc H; simpl.
  - now rewrite app_nil_r.
  - assert (Hfresh : ~ In k (dict_keys acc)).
    { intros Hin. apply NoDup_remove_2 in H. apply H, in_or_app. now left. }
    rewrite (dict_set_fresh acc k (f k x) Hfresh), IH.
    + now rewrite <- app_assoc.
    + unfold dict_keys in *. rewrite map_app. simpl. now rewrite <- app_assoc.
Qed.

Lemma dict_get_map {A V} (g : string -> A -> V) (items : list (string * A))
    (key : string) (x : A) :
  NoDup (map fst items) -> In (key, x) items ->
  dict_get (map (fun kx => (fst kx, g (fst kx) (snd kx))) items) key = Some (g key x).
Proof.
  induction items as [|[k y] items IH]; simpl; intros Hnd Hin; [destruct Hin|].
  inversion Hnd as [|? ? Hk Hnd']; subst.
  destruct Hin as [Heq|Hin].
  - inversion Heq; subst. now rewrite String.eqb_refl.
  - destruct (String.eqb_spec k key) as [->|Hne]; [|now apply IH].
    destruct Hk. change key with (fst (key, x)). now apply in_map.
Qed.

(** X12: when the definition file is read, the store has its keys in the
    order of the file, and each entry is filled in from the file: a
    missing name is the key, a missing text is empty, and a missing flag
    means that a name is required. *)
Theorem load_license_templates_from_file (env : Env) (h : list Event)
    (entries : list (string * JsonEntry)) :
  licenses_json env h = JsonLoaded entries ->
  NoDup (map fst entries) ->
  exists store,
    _load_license_templates env h = (Return store, h) /\
    dict_keys store = map fst entries /\
    forall key data,
      In (key, data) entries ->
      dict_get store key =
      Some {| name := or_default (json_name data) key;
              text := or_default (json_text data) "";
              requires_name := or_default (json_requires_name data) true |}.
Proof.
  intros J Hnd.
  exists (map (fun kx => (fst kx, loaded_info (fst kx) (snd kx))) entries).
  split; [|split].
  - unfold _load_license_templates. rewrite J. do 2 f_equal.
    exact (dict_comprehension_from loaded_info entries [] Hnd).
  - unfold dict_keys. rewrite map_map. reflexivity.
  - intros key data Hin. exact (dict_get_map loaded_info entries key data Hnd Hin).
Qed.

Lemma load_license_templates_from_file_witness :
  exists store,
    _load_license_templates Sessions.env_with_definition_file [] = (Return store, []) /\
    dict_keys store = ["ISC"; "Notice"] /\
    dict_get store "Notice" =
    Some {| name := "Notice"; text := "All rights reserved, {year}.";
            requires_name := true |}.
Proof.
  destruct (load_license_templates_from_file Sessions.env_with_definition_file []
              Sessions.two_entries eq_refl) as (store & L & K & G).
  - repeat constructor; simpl; intuition discriminate.
  - exists store. repeat split; trivial.
    apply (G "Notice"
             {| json_name := None; json_text := Some "All rights reserved, {year}.";
                json_requires_name := None |}).
    simpl. right. left. reflexivity.
Defined.

(** * Properties of the application object *)

Lemma parse_root_absolute (s : string) :
  startswith s "/" = true -> truthy (parse_root s) = true.
Proof.
  destruct s as [|a s]; [discriminate|].
  unfold startswith. intros H.
  destruct a as [[] [] [] [] [] [] [] []]; try (simpl in H; discriminate).
  destruct s as [|b s]; [reflexivity|].
  destruct b as [[] [] [] [] [] [] [] []]; try reflexivity.
  destruct s as [|c s]; [reflexivity|].
  destruct c as [[] [] [] [] [] [] [] []]; reflexivity.
Qed.

Lemma absolute_is_absolute (cwd : string) (p : PurePath) :
  startswith cwd "/" = true -> is_absolute (absolute cwd p) = true.
Proof.
  intros H. unfold absolute. destruct (is_absolute p) eqn:A; [exact A|].
  unfold is_absolute. simpl. now apply parse_root_absolute.
Qed.

Lemma GitManager_init_run (env : Env) (path : string) (h : list Event) :
  let res := spawn_outcome env h ["git"; "--version"] None in
  GitManager_init env path h =
  (match res with
   | SpawnOSError e => Raise (OSError e)
   | Exited rc _ _ | ExitedUndecodable rc _ _ _ =>
       if (rc =? 0)%Z
       then Return {| repo_path := absolute (getcwd env) (Path path) |}
       else Raise ToolUnavailable
   | SpawnRefused message => Raise (ValueError message)
   end, h ++ spawn_events ["git"; "--version"] None res).
Proof.
  cbv zeta. unfold GitManager_init, _validate_git_installation, try_except, bind,
    subprocess_run, completed, spawn_events.
  destruct (spawn_outcome env h _ None) as [e|rc out err|rc out err reason|message];
    try reflexivity; try (now destruct (rc =? 0)%Z).
  now rewrite app_nil_r.
Qed.

(** X13: while the working directory is absolute, both managers that
    [initialize_managers] makes hold the same absolute path: the argument
    itself when it starts with a slash, the argument under the working
    directory otherwise. *)
Theorem managers_share_absolute_path (env : Env) (path : string)
    (self self' : RepoManagerApp) (h h' : list Event) :
  startswith (getcwd env) "/" = true ->
  RepoManagerApp_initialize_managers env path self h = (Return tt, self', h') ->
  exists p store,
    git_manager self' = Some {| repo_path := p |} /\
    license_manager self' = Some {| lm_repo_path := p; licenses := store |} /\
    is_absolute p = true /\
    (startswith path "/" = true -> p = Path path) /\
    (startswith path "/" = false ->
     p = {| root := root (Path (getcwd env));
            parts := parts (Path (getcwd env)) ++ parts (Path path) |}).
Proof.
  intros Hcwd E. unfold RepoManagerApp_initialize_managers in E.
  rewrite GitManager_init_run in E. cbv zeta in E.
  destruct (spawn_outcome env h _ None) as [e|rc out err|rc out err reason|message];
    try discriminate;
    (destruct (rc =? 0)%Z; [|discriminate]);
    unfold LicenseManager_init, bind in E;
    (destruct (_load_license_templates env _) as [[store|e] h2]; [|discriminate]);
    injection E as <- _;
    exists (absolute (getcwd env) (Path path)), store; repeat split.
  all: try (now apply absolute_is_absolute).
  all: intros Hp; unfold absolute, is_absolute; simpl.
  all: try (now rewrite (parse_root_absolute path Hp)).
  all: assert (P : parse_root path = "")
    by (destruct path as [|a path]; [reflexivity|];
        unfold startswith in Hp;
        destruct a as [[] [] [] [] [] [] [] []]; try reflexivity;
        simpl in Hp; discriminate).
  all: now rewrite P.
Qed.

Lemma managers_share_absolute_path_witness :
  exists p store,
    Some {| repo_path := {| root := "/"; parts := ["home"; "dev"; "work"; "site"] |} |}
    = Some {| repo_path := p |} /\
    Some {| lm_repo_path := {| root := "/"; parts := ["home"; "dev"; "work"; "site"] |};
            licenses := default_licenses |}
    = Some {| lm_repo_path := p; licenses := store |} /\
    is_absolute p = true /\
    (startswith "work/./site" "/" = true -> p = Path "work/./site") /\
    (startswith "work/./site" "/" = false ->
     p = {| root := root (Path (getcwd Examples.quiet_env));
            parts := parts (Path (getcwd Examples.quiet_env))
                     ++ parts (Path "work/./site") |}).
Proof.
  apply (managers_share_absolute_path Examples.quiet_env "work/./site"
           RepoManagerApp_init
           {| git_manager :=
                Some {| repo_path :=
                          {| root := "/"; parts := ["home"; "dev"; "work"; "site"] |} |};
              license_manager :=
                Some {| lm_repo_path :=
                          {| root := "/"; parts := ["home"; "dev"; "work"; "site"] |};
                        licenses := default_licenses |} |}
           []
           [EvSpawn ["git"; "--version"] None (Exited 0 "" "")]);
    reflexivity.
Defined.

(** X14: when the definition file cannot be decoded, there is no falling
    back on the built-in table: [initialize_managers] raises
    [LicenseError], after the version query.  The git manager of the
    object is the new one by then, and its license manager is the one it
    had before the call. *)
Theorem initialize_managers_undecodable_file (env : Env) (path : string)
    (self : RepoManagerApp) (h : list Event) (out err msg : string) :
  let h1 := h ++ [EvSpawn ["git"; "--version"] None (Exited 0 out err)] in
  spawn_outcome env h ["git"; "--version"] None = Exited 0 out err ->
  licenses_json env h1 = JsonDecodeError msg ->
  RepoManagerApp_initialize_managers env path self h =
  (Raise (LicenseError ("Error decoding JSON from licenses.json: " +++ msg)),
   {| git_manager := Some {| repo_path := absolute (getcwd env) (Path path) |};
      license_manager := license_manager self |},
   h1).
Proof.
  intros h1 S J. unfold RepoManagerApp_initialize_managers.
  rewrite GitManager_init_run. cbv zeta. rewrite S. simpl.
  unfold LicenseManager_init, bind, _load_license_templates. fold h1. now rewrite J.
Qed.

Lemma initialize_managers_undecodable_file_witness :
  RepoManagerApp_initialize_managers Sessions.env_broken_definition_file "/other"
    Examples.app [] =
  (Raise (LicenseError
            "Error decoding JSON from licenses.json: Expecting value: line 1 column 1 (char 0)"),
   {| git_manager := Some {| repo_path := Path "/other" |};
      license_manager := Some Examples.builtin_manager |},
   [] ++ [EvSpawn ["git"; "--version"] None (Exited 0 "" "")]).
Proof.
  apply (initialize_managers_undecodable_file Sessions.env_broken_definition_file
           "/other" Examples.app [] "" "" "Expecting value: line 1 column 1 (char 0)");
    reflexivity.
Defined.

(** X15: [create_repository] on a path that holds a repository raises the
    already-exists failure, and leaves the object with both managers set
    for that path: the failed creation opens the repository. *)
Theorem create_repository_opens_existing (env : Env) (path : string)
    (self : RepoManagerApp) (h : list Event) (out err : string)
    (store : dict LicenseInfo) :
  let p := absolute (getcwd env) (Path path) in
  let h1 := h ++ [EvSpawn ["git"; "--version"] None (Exited 0 out err)] in
  spawn_outcome env h ["git"; "--version"] None = Exited 0 out err ->
  fst (_load_license_templates env h1) = Return store ->
  path_stat env h1 (str (joinpath p ".git")) = Present ->
  RepoManagerApp_create_repository env path self h =
  (Raise (GitOperationError ("Repository already exists at " +++ str p)),
   {| git_manager := Some {| repo_path := p |};
      license_manager := Some {| lm_repo_path := p; licenses := store |} |},
   h1).
Proof.
  intros p h1 S L P.
  unfold RepoManagerApp_create_repository, RepoManagerApp_initialize_managers.
  rewrite GitManager_init_run. cbv zeta. rewrite S. simpl.
  unfold LicenseManager_init, bind. fold h1.
  assert (T : snd (_load_license_templates env h1) = h1).
  { unfold _load_license_templates. now destruct (licenses_json env h1). }
  destruct (_load_license_templates env h1) as [[s|e] h2]; simpl in L, T;
    [|discriminate].
  injection L as ->. subst h2. simpl.
  rewrite init_repo_run. cbv zeta. simpl repo_path. fold p. now rewrite P.
Qed.

Lemma create_repository_opens_existing_witness :
  RepoManagerApp_create_repository Examples.quiet_env "/repo" RepoManagerApp_init [] =
  (Raise (GitOperationError "Repository already exists at /repo"),
   {| git_manager := Some Examples.repo;
      license_manager := Some Examples.builtin_manager |},
   [] ++ [EvSpawn ["git"; "--version"] None (Exited 0 "" "")]).
Proof.
  apply (create_repository_opens_existing Examples.quiet_env "/repo"
           RepoManagerApp_init [] "" "" default_licenses); reflexivity.
Defined.

(** X16: without both managers, [generate_and_add_license] raises
    [RepoManagerError] and does nothing.  With them, when every step
    succeeds, the text is written first and [LICENSE] is staged after it:
    the trace gains the write and one run of [git add LICENSE], in this
    order. *)
Theorem generate_and_add_license_end_to_end (env : Env) (self : RepoManagerApp)
    (license_name : string) (author : option string) (h : list Event) :
  (git_manager self = None \/ license_manager self = None ->
   generate_and_add_license env self license_name author h =
   (Raise (RepoManagerError "Managers not initialized"), h)) /\
  (forall gm lm license_text out err,
      git_manager self = Some gm ->
      license_manager self = Some lm ->
      is_absolute (repo_path gm) = true ->
      fst (generate_license env lm license_name author h) = Return license_text ->
      let license_path := str (joinpath (lm_repo_path lm) "LICENSE") in
      let h1 := h ++ [EvWrite license_path license_text None] in
      write_outcome env h license_path license_text = None ->
      path_stat env h1 (str (resolved env gm "LICENSE")) = Present ->
      spawn_outcome env h1 ["git"; "add"; "LICENSE"] (Some (str (repo_path gm)))
      = Exited 0 out err ->
      generate_and_add_license env self license_name author h =
      (Return tt,
       h1 ++ [EvSpawn ["git"; "add"; "LICENSE"] (Some (str (repo_path gm)))
                (Exited 0 out err)])).
Proof.
  split.
  - unfold generate_and_add_license. intros [-> | ->]; [reflexivity|].
    now destruct (git_manager self).
  - intros gm lm license_text out err Hgm Hlm Habs G license_path h1 W P S.
    unfold generate_and_add_license. rewrite Hgm, Hlm.
    pose proof (generate_license_trace env lm license_name author h) as T.
    destruct (generate_license env lm license_name author h) as [r h0] eqn:E.
    simpl in G, T. subst r h0.
    unfold bind at 1. rewrite E. unfold bind at 1.
    rewrite save_license_file_run. cbv zeta. fold license_path. rewrite W.
    cbn [write_events]. fold h1.
    unfold add_files, bind at 1.
    rewrite (add_files_loop_relative env gm Habs h1 ["LICENSE"] []).
    + rewrite (tool_call_run env gm _ (fun _ => tt)). cbv zeta.
      unfold tool_cwd. simpl app. change (str (Path "LICENSE")) with "LICENSE".
      simpl map. change (str (Path "LICENSE")) with "LICENSE". now rewrite S.
    + constructor; [|constructor]. split; [reflexivity | exact P].
Qed.

Lemma generate_and_add_license_end_to_end_witness :
  generate_and_add_license Examples.quiet_env RepoManagerApp_init "MIT" (Some "Acme") [] =
  (Raise (RepoManagerError "Managers not initialized"), []) /\
  exists license_text,
    generate_and_add_license Examples.quiet_env Examples.app "MIT" (Some "Acme") [] =
    (Return tt,
     ([] ++ [EvWrite "/repo/LICENSE" license_text None])
     ++ [EvSpawn ["git"; "add"; "LICENSE"] (Some "/repo") (Exited 0 "" "")]).
Proof.
  split.
  - destruct (generate_and_add_license_end_to_end Examples.quiet_env
                RepoManagerApp_init "MIT" (Some "Acme") []) as [H _].
    apply H. now left.
  - destruct (generate_and_add_license_end_to_end Examples.quiet_env
                Examples.app "MIT" (Some "Acme") []) as [_ H].
    destruct (fst (generate_license Examples.quiet_env Examples.builtin_manager
                     "MIT" (Some "Acme") [])) as [license_text|e] eqn:G.
    + exists license_text.
      apply (H Examples.repo Examples.builtin_manager license_text "" "");
        try reflexivity. exact G.
    + vm_compute in G. discriminate.
Defined.

(** * Properties of the command-line interface *)

Import CLI.

(** X17: while no repository has been opened, every choice of the menu
    but the first prints that no repository is initialized and does
    nothing else: no line is read, the trace and the application object
    are as before. *)
Theorem dispatch_without_repository (env : Env) (choice : OperationType) (w : World) :
  choice <> INIT_REPO ->
  git_manager (w_app w) = None ->
  dispatch env choice w =
  (Done tt, shown w (Printed "Error: No repository initialized")).
Proof.
  intros Hc Hgm.
  destruct choice; try contradiction;
    unfold dispatch, handle_add_files, handle_commit, handle_push,
      handle_create_branch, handle_merge, handle_pull, handle_checkout,
      handle_list_branches, handle_generate_license, cli_bind, _ensure_repository;
    rewrite Hgm; reflexivity.
Qed.

Lemma dispatch_without_repository_witness :
  dispatch Examples.quiet_env GENERATE_LICENSE Consoles.unopened =
  (Done tt, shown Consoles.unopened (Printed "Error: No repository initialized")).
Proof.
  apply dispatch_without_repository; [discriminate | reflexivity].
Defined.

Lemma ensure_repository_open (env : Env) (self : RepoManagerApp) (gm : GitManager)
    (lines : list string) (out : list ConsoleOut) (h : list Event) :
  git_manager self = Some gm ->
  path_stat env h (str (joinpath (repo_path gm) ".git")) = Present ->
  let w := {| w_app := self; w_stdin := lines; w_stdout := out; w_trace := h |} in
  _ensure_repository env w = (Done true, w).
Proof.
  intros Hgm P w. unfold _ensure_repository, cli_bind, call, is_repository, exists_.
  simpl. now rewrite Hgm, P.
Qed.

(** X18: in an opened repository, [handle_commit] reads one line and
    strips it.  A blank line is refused without running the tool.
    Otherwise the message is committed, and the handler prints the
    success line when [commit] returns; it prints [Error: ] and the
    string of the exception, which is the [repr] of the pair of the
    message and [None], when [commit] raises a failure of the program;
    and it lets any other exception through. *)
Theorem handle_commit_reports (env : Env) (self : RepoManagerApp) (gm : GitManager)
    (line : string) (rest : list string) (out : list ConsoleOut) (h : list Event) :
  git_manager self = Some gm ->
  path_stat env h (str (joinpath (repo_path gm) ".git")) = Present ->
  let w := {| w_app := self; w_stdin := line :: rest; w_stdout := out; w_trace := h |} in
  let asked := out ++ [Prompted "Enter commit message: "] in
  let after (shown : list ConsoleOut) (h' : list Event) :=
    {| w_app := self; w_stdin := rest; w_stdout := shown; w_trace := h' |} in
  (strip line = "" ->
   handle_commit env w =
   (Done tt, after (asked ++ [Printed "Error: Commit message cannot be empty"]) h)) /\
  (strip line <> "" ->
   handle_commit env w =
   match commit env gm (strip line) h with
   | (Return _, h') =>
       (Done tt, after (asked ++ [Printed "Changes committed successfully"]) h')
   | (Raise e, h') =>
       match typed_message e with
       | Some m =>
           (Done tt,
            after (asked ++ [Printed ("Error: (" +++ py_repr m +++ ", None)")]) h')
       | None => (Uncaught e, after asked h')
       end
   end).
Proof.
  intros Hgm P w asked after.
  pose proof (ensure_repository_open env self gm (line :: rest) out h Hgm P) as En.
  cbv zeta in En. subst w asked after.
  split; intros Hline; unfold handle_commit, cli_bind at 1; rewrite En;
    unfold cli_bind at 1, input; cbn [negb w_stdin w_stdout w_app w_trace].
  - rewrite Hline. reflexivity.
  - destruct (strip line) as [|a s] eqn:L; [contradiction|].
    change (negb (truthy (String a s))) with false. cbv iota.
    unfold reporting, cli_bind, with_git_manager, call. simpl. rewrite Hgm.
    destruct (commit env gm (String a s) h) as [[[]|e] h']; simpl; [reflexivity|].
    destruct (typed_message e); reflexivity.
Qed.

Lemma handle_commit_reports_witness :
  handle_commit Examples.env_failing_git Consoles.opened =
  (Done tt,
   {| w_app := Examples.app; w_stdin := ["next"];
      w_stdout :=
        [Prompted "Enter commit message: ";
         Printed "Error: ('Git command failed: commit -m first commit\nfatal: boom', None)"];
      w_trace :=
        [EvSpawn ["git"; "commit"; "-m"; "first commit"] (Some "/repo")
           (Exited 1 "" "fatal: boom")] |}).
Proof.
  destruct (handle_commit_reports Examples.env_failing_git Examples.app Examples.repo
              "  first commit " ["next"] [] [] eq_refl eq_refl) as [_ H].
  unfold Consoles.opened. rewrite H; [reflexivity | discriminate].
Defined.

Lemma has_whitespace_snoc (s : string) (a : ascii) :
  has_whitespace s = false -> is_space a = false ->
  has_whitespace (s +++ String a "") = false.
Proof.
  induction s as [|b s IH]; simpl; intros Hs Ha.
  - now rewrite Ha.
  - apply orb_false_iff in Hs as [Hb Hs]. now rewrite Hb, IH.
Qed.

Lemma split_whitespace_from_tokens (s current : string) :
  has_whitespace current = false ->
  Forall (fun t => truthy t = true /\ has_whitespace t = false)
    (split_whitespace_from current s).
Proof.
  revert current. induction s as [|a s IH]; intros current Hc; simpl.
  - destruct current; [constructor | repeat constructor; exact Hc].
  - destruct (is_space a) eqn:Ha.
    + destruct current as [|b c].
      * now apply IH.
      * constructor; [split; [reflexivity | exact Hc] | now apply IH].
    + apply IH. now apply has_whitespace_snoc.
Qed.

(** X19: in an opened repository, [handle_add_files] reads one line and
    splits it at white space: every argument is a non-empty run without
    white space, so a name that holds a blank cannot be given.  A blank
    line is refused without running the tool.  Otherwise the arguments go
    to [add_files]; its typed failures are printed, and any other
    exception, such as the [ValueError] for a path outside the
    repository, is let through. *)
Theorem handle_add_files_arguments (env : Env) (self : RepoManagerApp)
    (gm : GitManager) (line : string) (rest : list string)
    (out : list ConsoleOut) (h : list Event) :
  git_manager self = Some gm ->
  path_stat env h (str (joinpath (repo_path gm) ".git")) = Present ->
  let w := {| w_app := self; w_stdin := line :: rest; w_stdout := out; w_trace := h |} in
  let asked := out ++ [Prompted "Enter file paths (space-separated): "] in
  let after (shown : list ConsoleOut) (h' : list Event) :=
    {| w_app := self; w_stdin := rest; w_stdout := shown; w_trace := h' |} in
  let files := split_whitespace (strip line) in
  Forall (fun f => truthy f = true /\ has_whitespace f = false) files /\
  (files = [] ->
   handle_add_files env w =
   (Done tt, after (asked ++ [Printed "Error: No files specified"]) h)) /\
  (files <> [] ->
   handle_add_files env w =
   match add_files env gm files h with
   | (Return _, h') =>
       (Done tt,
        after (asked ++ [Printed ("Added " +++ str_of_N (N.of_nat (length files))
                                  +++ " files to staging")]) h')
   | (Raise e, h') =>
       match typed_message e with
       | Some m =>
           (Done tt,
            after (asked ++ [Printed ("Error: (" +++ py_repr m +++ ", None)")]) h')
       | None => (Uncaught e, after asked h')
       end
   end).
Proof.
  intros Hgm P w asked after files.
  split; [now apply split_whitespace_from_tokens|].
  pose proof (ensure_repository_open env self gm (line :: rest) out h Hgm P) as En.
  cbv zeta in En. subst w asked after.
  split; intros Hfiles; unfold handle_add_files, cli_bind at 1; rewrite En;
    unfold cli_bind at 1, input; cbn [negb w_stdin w_stdout w_app w_trace];
    fold files.
  - rewrite Hfiles. reflexivity.
  - destruct files as [|f fs] eqn:F; [contradiction|].
    unfold reporting, cli_bind, with_git_manager, call. simpl w_app. simpl w_trace.
    rewrite Hgm.
    destruct (add_files env gm (f :: fs) h) as [[[]|e] h']; [reflexivity|].
    simpl. destruct (typed_message e); reflexivity.
Qed.

Lemma handle_add_files_arguments_witness :
  split_whitespace (strip "  a.txt   docs/b.txt /etc/hosts")
  = ["a.txt"; "docs/b.txt"; "/etc/hosts"] /\
  handle_add_files Examples.quiet_env Consoles.staging =
  (Uncaught (ValueError "'/etc/hosts' is not in the subpath of '/repo'"),
   {| w_app := Examples.app; w_stdin := [];
      w_stdout := [Prompted "Enter file paths (space-separated): "];
      w_trace := [] |}).
Proof.
  split; [reflexivity|].
  destruct (handle_add_files_arguments Examples.quiet_env Examples.app Examples.repo
              "  a.txt   docs/b.txt /etc/hosts" [] [] [] eq_refl eq_refl)
    as (_ & _ & H).
  unfold Consoles.staging. rewrite H; [reflexivity | discriminate].
Defined.

Lemma get_user_choice_from_invalid (invalid lines : list string) (out : list ConsoleOut) :
  Forall (fun x => dict_get operations (strip x) = None) invalid ->
  get_user_choice_from (invalid ++ lines) out =
  get_user_choice_from lines
    (out ++ flat_map (fun _ => [Prompted (nl +++ "Enter your choice (1-11): ");
                                Printed "Invalid choice. Please enter a number between 1 and 11."])
              invalid).
Proof.
  intros H. revert out. induction H as [|x invalid Hx _ IH]; intros out.
  - simpl. now rewrite app_nil_r.
  - simpl app. cbn [get_user_choice_from]. rewrite Hx, IH. f_equal.
    simpl flat_map. now rewrite <- !app_assoc.
Qed.

(** X20: [get_user_choice] takes the first line that, once stripped, is
    one of the keys [1] to [11] of the menu, and returns the operation of
    that key (none for the exit key).  For each line before it, the
    prompt and the invalid-choice message are shown; the lines after it
    stay unread.  When no line is valid, it ends on the end of input. *)
Theorem get_user_choice_first_valid (self : RepoManagerApp)
    (invalid : list string) (out : list ConsoleOut) (h : list Event) :
  Forall (fun x => dict_get operations (strip x) = None) invalid ->
  let prompt := Prompted (nl +++ "Enter your choice (1-11): ") in
  let refused :=
    flat_map (fun _ => [prompt;
                        Printed "Invalid choice. Please enter a number between 1 and 11."])
      invalid in
  (forall line rest entry,
      dict_get operations (strip line) = Some entry ->
      get_user_choice {| w_app := self; w_stdin := invalid ++ line :: rest;
                         w_stdout := out; w_trace := h |} =
      (Done (snd entry),
       {| w_app := self; w_stdin := rest;
          w_stdout := out ++ refused ++ [prompt]; w_trace := h |}) /\
      In (strip line) ["1"; "2"; "3"; "4"; "5"; "6"; "7"; "8"; "9"; "10"; "11"]) /\
  get_user_choice {| w_app := self; w_stdin := invalid; w_stdout := out; w_trace := h |} =
  (EOFError,
   {| w_app := self; w_stdin := []; w_stdout := out ++ refused ++ [prompt];
      w_trace := h |}).
Proof.
  intros Hinv prompt refused. split.
  - intros line rest entry He. split.
    + unfold get_user_choice. simpl w_stdin. simpl w_stdout.
      rewrite (get_user_choice_from_invalid invalid (line :: rest) out Hinv).
      cbn [get_user_choice_from]. rewrite He. fold prompt. fold refused.
      now rewrite <- app_assoc.
    + revert He. generalize (strip line). intros key.
      unfold operations. cbn [dict_get].
      repeat match goal with
             | |- context [String.eqb ?k key] =>
                 destruct (String.eqb_spec k key) as [<-|_];
                 [intros _; simpl; tauto|]
             end.
      discriminate.
  - unfold get_user_choice. simpl w_stdin. simpl w_stdout.
    rewrite <- (app_nil_r invalid) at 1.
    rewrite (get_user_choice_from_invalid invalid [] out Hinv).
    cbn [get_user_choice_from]. fold prompt. fold refused.
    now rewrite <- app_assoc.
Qed.

Lemma get_user_choice_first_valid_witness :
  get_user_choice Consoles.choosing =
  (Done (Some COMMIT),
   {| w_app := RepoManagerApp_init; w_stdin := ["4"];
      w_stdout :=
        [] ++ flat_map (fun _ => [Prompted (nl +++ "Enter your choice (1-11): ");
                                  Printed "Invalid choice. Please enter a number between 1 and 11."])
                ["0"; "commit"]
           ++ [Prompted (nl +++ "Enter your choice (1-11): ")];
      w_trace := [] |}).
Proof.
  destruct (get_user_choice_first_valid RepoManagerApp_init ["0"; "commit"] [] [])
    as [H _].
  - repeat constructor.
  - apply (H " 3 " ["4"] ("Commit Changes", Some COMMIT)). reflexivity.
Defined.

(** * Properties of the logging configuration *)

(** X21: [configure_logging] configures once.  After a call that
    returned, a further call returns without changing anything, whatever
    its arguments.  The first call of an unconfigured state adds the file
    handler and the console handler, in this order, after the handlers
    that were there.  A call that cannot open the log file raises the
    [OSError], has set the level of the root logger already, and leaves
    the state unconfigured, so that a later call tries again. *)
Theorem configure_logging_once (open_log : string -> option os_error)
    (log_file : string) (level : Z) (st : LogManager.State) :
  (forall st',
      LogManager.configure_logging open_log log_file level st = (Return tt, st') ->
      LogManager._configured st' = true /\
      forall open_log' log_file' level',
        LogManager.configure_logging open_log' log_file' level' st' = (Return tt, st')) /\
  (LogManager._configured st = false ->
   match open_log log_file with
   | None =>
       LogManager.root_handlers
         (snd (LogManager.configure_logging open_log log_file level st))
       = LogManager.root_handlers st
         ++ [LogManager.FileHandler log_file level LogManager.formatter;
             LogManager.StreamHandler LogManager.INFO LogManager.formatter]
   | Some e =>
       LogManager.configure_logging open_log log_file level st =
       (Raise (OSError e),
        {| LogManager._configured := false;
           LogManager.root_level := level;
           LogManager.root_handlers := LogManager.root_handlers st;
           LogManager.records := LogManager.records st |})
   end).
Proof.
  split.
  - intros st' E. unfold LogManager.configure_logging in E.
    destruct (LogManager._configured st) eqn:C.
    + injection E as <-. split; [exact C|].
      intros. unfold LogManager.configure_logging. now rewrite C.
    + destruct (open_log log_file); [discriminate|]. injection E as <-.
      split; reflexivity.
  - intros C. unfold LogManager.configure_logging. rewrite C.
    now destruct (open_log log_file).
Qed.

Lemma configure_logging_once_witness :
  LogManager.configure_logging (fun _ => None) "other.log" LogManager.INFO
    (snd (LogManager.configure_logging (fun _ => None)
            "repo_manager.log" LogManager.DEBUG LogManager.initial)) =
  (Return tt,
   {| LogManager._configured := true;
      LogManager.root_level := LogManager.DEBUG;
      LogManager.root_handlers :=
        [LogManager.FileHandler "repo_manager.log" LogManager.DEBUG LogManager.formatter;
         LogManager.StreamHandler LogManager.INFO LogManager.formatter];
      LogManager.records := [(LogManager.INFO, "Logging configured successfully")] |}).
Proof.
  destruct (configure_logging_once (fun _ => None) "repo_manager.log" LogManager.DEBUG
              LogManager.initial) as [H _].
  destruct (H _ eq_refl) as [_ H2].
  exact (H2 (fun _ => None) "other.log" LogManager.INFO).
Defined.

(** * More on the handlers *)

Lemma print_all_run (lines : list string) (w : World) :
  print_all lines w =
  (Done tt, {| w_app := w_app w; w_stdin := w_stdin w;
               w_stdout := w_stdout w ++ map Printed lines; w_trace := w_trace w |}).
Proof.
  revert w. induction lines as [|l lines IH]; intros w.
  - simpl. unfold done. rewrite app_nil_r. now destruct w.
  - simpl. unfold cli_bind, print. rewrite IH. unfold shown. simpl.
    now rewrite <- app_assoc.
Qed.

(** X22: in an opened repository, [handle_generate_license] first lists
    the identifiers of the store, one line each and in the order of the
    store, and then reads the identifier and the author, both stripped.
    The author goes on as it is, also when it is empty.  The typed
    failures of the composed use case are printed, any other exception is
    let through, and the object is left as it was. *)
Theorem handle_generate_license_reports (env : Env) (self : RepoManagerApp)
    (gm : GitManager) (lm : LicenseManager) (name_line author_line : string)
    (rest : list string) (out : list ConsoleOut) (h : list Event) :
  git_manager self = Some gm ->
  license_manager self = Some lm ->
  path_stat env h (str (joinpath (repo_path gm) ".git")) = Present ->
  strip name_line <> "" ->
  let w := {| w_app := self; w_stdin := name_line :: author_line :: rest;
              w_stdout := out; w_trace := h |} in
  let listed :=
    out ++ [Printed (nl +++ "Available licenses:")]
        ++ map (fun key => Printed ("  " +++ key)) (dict_keys (licenses lm))
        ++ [Prompted (nl +++ "Enter license name: ");
            Prompted "Enter author/organization name: "] in
  let after (shown : list ConsoleOut) (h' : list Event) :=
    {| w_app := self; w_stdin := rest; w_stdout := shown; w_trace := h' |} in
  handle_generate_license env w =
  match generate_and_add_license env self (strip name_line)
          (Some (strip author_line)) h with
  | (Return _, h') =>
      (Done tt,
       after (listed ++ [Printed ("Generated and added " +++ strip name_line
                                  +++ " license")]) h')
  | (Raise e, h') =>
      match typed_message e with
      | Some m =>
          (Done tt,
           after (listed ++ [Printed ("Error: (" +++ py_repr m +++ ", None)")]) h')
      | None => (Uncaught e, after listed h')
      end
  end.
Proof.
  intros Hgm Hlm P Hname w listed after.
  pose proof (ensure_repository_open env self gm
                (name_line :: author_line :: rest) out h Hgm P) as En.
  cbv zeta in En. subst w listed after.
  unfold handle_generate_license, cli_bind at 1. rewrite En.
  cbn [negb w_app]. rewrite Hlm.
  unfold cli_bind at 1, print at 1, shown. cbn [w_stdin w_stdout w_app w_trace].
  unfold cli_bind at 1. rewrite print_all_run. cbn [w_stdin w_stdout w_app w_trace].
  unfold cli_bind at 1, input at 1. cbn [w_stdin w_stdout w_app w_trace].
  destruct (strip name_line) as [|a s] eqn:L; [contradiction|].
  change (negb (truthy (String a s))) with false. cbv iota.
  unfold cli_bind at 1, input at 1. cbn [w_stdin w_stdout w_app w_trace].
  unfold reporting, cli_bind, call_app, RepoManagerApp_generate_and_add_license.
  cbn [w_stdin w_stdout w_app w_trace].
  unfold get_available_licenses. rewrite map_map.
  destruct (generate_and_add_license env self (String a s) (Some (strip author_line)) h)
    as [[[]|e] h']; unfold print, shown; cbn [w_stdin w_stdout w_app w_trace].
  - now rewrite <- !app_assoc.
  - destruct (typed_message e); unfold print, shown;
      cbn [w_stdin w_stdout w_app w_trace]; now rewrite <- !app_assoc.
Qed.

Lemma handle_generate_license_reports_witness :
  handle_generate_license Examples.quiet_env
    {| w_app := Examples.app; w_stdin := [" MIT "; "   "; "y"];
       w_stdout := []; w_trace := [] |} =
  (Done tt,
   {| w_app := Examples.app; w_stdin := ["y"];
      w_stdout :=
        [Printed (nl +++ "Available licenses:");
         Printed "  MIT"; Printed "  Apache-2.0"; Printed "  BSD-2-Clause";
         Printed "  BSD-3-Clause"; Printed "  Apache-1.1"; Printed "  BSD-4-Clause";
         Prompted (nl +++ "Enter license name: ");
         Prompted "Enter author/organization name: ";
         Printed ("Error: (" +++ dq
                  +++ "License 'MIT' requires an author/organization name"
                  +++ dq +++ ", None)")];
      w_trace := [] |}).
Proof.
  rewrite (handle_generate_license_reports Examples.quiet_env Examples.app
             Examples.repo Examples.builtin_manager " MIT " "   " ["y"] [] []
             eq_refl eq_refl eq_refl); [reflexivity | discriminate].
Defined.

(** X23: in an opened repository, [handle_push] and [handle_pull] read
    two lines, the remote and the branch; a blank line stands for
    [origin] and for [main].  Each makes one call of the library for the
    tool, with these two as the last arguments: the call is refused with
    [ValueError] and no child is started, as for a line that holds NUL,
    or the child is started and the trace gains that run.  The
    [ValueError] of a refused call is not reported: it leaves the
    handler as it is. *)
Theorem remote_and_branch_defaults (env : Env) (self : RepoManagerApp)
    (gm : GitManager) (remote_line branch_line : string) (rest : list string)
    (out : list ConsoleOut) (h : list Event) :
  git_manager self = Some gm ->
  path_stat env h (str (joinpath (repo_path gm) ".git")) = Present ->
  let w := {| w_app := self; w_stdin := remote_line :: branch_line :: rest;
              w_stdout := out; w_trace := h |} in
  let remote := if truthy (strip remote_line) then strip remote_line else "origin" in
  let branch := if truthy (strip branch_line) then strip branch_line else "main" in
  let cwd := Some (str (repo_path gm)) in
  let ran (args : list string) :=
    match spawn_outcome env h ("git" :: args) cwd with
    | SpawnRefused _ => h
    | res => h ++ [EvSpawn ("git" :: args) cwd res]
    end in
  w_trace (snd (handle_push env w)) = ran ["push"; "-u"; remote; branch] /\
  w_trace (snd (handle_pull env w)) = ran ["pull"; remote; branch] /\
  w_stdin (snd (handle_push env w)) = rest /\
  w_stdin (snd (handle_pull env w)) = rest /\
  (has_nul remote = true \/ has_nul branch = true ->
   fst (handle_push env w) = Uncaught (ValueError "embedded null byte") /\
   fst (handle_pull env w) = Uncaught (ValueError "embedded null byte") /\
   w_trace (snd (handle_push env w)) = h /\
   w_trace (snd (handle_pull env w)) = h).
Proof.
  intros Hgm P w remote branch cwd ran.
  pose proof (ensure_repository_open env self gm
                (remote_line :: branch_line :: rest) out h Hgm P) as En.
  cbv zeta in En. subst w.
  assert (Hpush : forall A (k : CompletedProcess -> A) args,
             (x <- _run_git_command env gm args true ;; ret (k x))%monad h =
             (match tool_result args (spawn_outcome env h ("git" :: args) cwd) with
              | Return x => Return (k x)
              | Raise e => Raise e
              end, ran args)).
  { intros. rewrite tool_call_run. cbv zeta. f_equal. unfold ran, tool_cwd. fold cwd.
    destruct (spawn_outcome env h _ cwd); simpl; try reflexivity. apply app_nil_r. }
  assert (Hnul : has_nul remote = true \/ has_nul branch = true ->
                 forall pre, spawn_outcome env h ("git" :: pre ++ [remote; branch]) cwd
                             = SpawnRefused embedded_null).
  { intros [H|H] pre.
    - apply (spawn_outcome_refused env h _ cwd remote); [|exact H].
      right. apply in_or_app. right. now left.
    - apply (spawn_outcome_refused env h _ cwd branch); [|exact H].
      right. apply in_or_app. right. right. now left. }
  split; [|split; [|split; [|split; [|intros N; split; [|split; [|split]]]]]].
  1-4: unfold handle_push, handle_pull, cli_bind at 1; rewrite En;
    cbn [negb]; unfold input_or, cli_bind, input, done, reporting, with_git_manager,
      call, print, shown; cbn [w_stdin w_stdout w_app w_trace]; rewrite Hgm;
    fold remote; fold branch; unfold push, pull; rewrite (Hpush unit (fun _ => tt));
    destruct (tool_result _ _) as [x|e]; cbn [w_stdin w_stdout w_app w_trace snd];
    try reflexivity; destruct (typed_message e); reflexivity.
  all: unfold handle_push, handle_pull, cli_bind at 1; rewrite En;
    cbn [negb]; unfold input_or, cli_bind, input, done, reporting, with_git_manager,
      call, print, shown; cbn [w_stdin w_stdout w_app w_trace]; rewrite Hgm;
    fold remote; fold branch; unfold push, pull; rewrite (Hpush unit (fun _ => tt));
    unfold ran.
  1, 3: pose proof (Hnul N ["push"; "-u"]) as R; simpl app in R; rewrite R;
    reflexivity.
  all: pose proof (Hnul N ["pull"]) as R; simpl app in R; rewrite R; reflexivity.
Qed.

Lemma remote_and_branch_defaults_witness :
  w_trace (snd (handle_push Examples.quiet_env
                  {| w_app := Examples.app; w_stdin := ["  "; " develop "];
                     w_stdout := []; w_trace := [] |})) =
  [] ++ [EvSpawn ["git"; "push"; "-u"; "origin"; "develop"] (Some "/repo")
           (Exited 0 "" "")] /\
  fst (handle_pull Examples.quiet_env
         {| w_app := Examples.app; w_stdin := [""; Sessions.nul_argument; "q"];
            w_stdout := []; w_trace := [] |}) =
  Uncaught (ValueError "embedded null byte") /\
  w_trace (snd (handle_pull Examples.quiet_env
                  {| w_app := Examples.app; w_stdin := [""; Sessions.nul_argument; "q"];
                     w_stdout := []; w_trace := [] |})) = [].
Proof.
  split.
  - destruct (remote_and_branch_defaults Examples.quiet_env Examples.app Examples.repo
                "  " " develop " [] [] [] eq_refl eq_refl) as [H _].
    exact H.
  - destruct (remote_and_branch_defaults Examples.quiet_env Examples.app Examples.repo
                "" Sessions.nul_argument ["q"] [] [] eq_refl eq_refl)
      as (_ & _ & _ & _ & H).
    destruct H as (_ & H1 & _ & H2); [right; reflexivity|].
    split; [exact H1 | exact H2].
Defined.

(** * Output that does not decode *)

(** X25: the operations capture the output of the tool as text.  When a
    run that an operation adds to the trace ends with output that does
    not decode, the operation raises the [ValueError] of the decoding as
    it is, whatever the exit status, also from [init_repo]: it is not a
    typed failure.  The version query of the constructor captures bytes
    and decodes nothing: there such output makes no difference, the
    status alone decides. *)
Theorem undecodable_output_propagation (env : Env) (self : GitManager)
    (op : Operation) (h h' : list Event) (r : outcome unit) (argv : list string)
    (cwd : option string) (rc : Z) (out err reason : string) :
  run_operation env self op h = (r, h') ->
  In (EvSpawn argv cwd (ExitedUndecodable rc out err reason)) (new_events h h') ->
  r = Raise (ValueError reason) /\
  is_RepoManagerError (ValueError reason) = false /\
  forall path h0,
    spawn_outcome env h0 ["git"; "--version"] None
    = ExitedUndecodable rc out err reason ->
    fst (GitManager_init env path h0) =
    if (rc =? 0)%Z
    then Return {| repo_path := absolute (getcwd env) (Path path) |}
    else Raise ToolUnavailable.
Proof.
  intros E Hin. split; [|split; [reflexivity|]].
  - assert (D : op = OpInitRepo \/ op <> OpInitRepo)
      by (destruct op; (now left) || (right; discriminate)).
    destruct D as [->|Hop].
    + simpl in E. rewrite init_repo_run in E. cbv zeta in E.
      destruct (path_stat env h _).
      * inversion E; subst. rewrite new_events_same in Hin. destruct Hin.
      * destruct (mkdir_outcome env h _) as [[oe|message]|].
        -- inversion E; subst. rewrite new_events_app in Hin.
           destruct Hin as [Hin|[]]. discriminate.
        -- inversion E; subst. rewrite new_events_same in Hin. destruct Hin.
        -- injection E as Hr Hh. rewrite <- Hh, <- app_assoc, new_events_app in Hin.
           destruct Hin as [Hin|Hin]; [discriminate|].
           apply in_spawn_events in Hin. destruct Hin as (_ & _ & Hs).
           rewrite <- Hs in Hr. now symmetry.
      * inversion E; subst. rewrite new_events_same in Hin. destruct Hin.
    + destruct (quiet_or_one_run_operation env self op Hop h) as [Q|(args & Q)];
        rewrite E in Q.
      * simpl in Q. subst h'. rewrite new_events_same in Hin. destruct Hin.
      * injection Q as Hr Hh. rewrite Hh, new_events_app in Hin.
        apply in_spawn_events in Hin. destruct Hin as (_ & _ & Hs).
        rewrite <- Hs in Hr. exact Hr.
  - intros path h0 S. rewrite GitManager_init_run. cbv zeta. now rewrite S.
Qed.

Lemma undecodable_output_propagation_witness :
  @Raise unit (ValueError Sessions.cannot_decode) = Raise (ValueError Sessions.cannot_decode) /\
  is_RepoManagerError (ValueError Sessions.cannot_decode) = false /\
  (forall path h0,
      spawn_outcome Sessions.env_undecodable_output h0 ["git"; "--version"] None
      = ExitedUndecodable 0 "" Sessions.stray_byte Sessions.cannot_decode ->
      fst (GitManager_init Sessions.env_undecodable_output path h0) =
      if (0 =? 0)%Z
      then Return {| repo_path :=
                       absolute (getcwd Sessions.env_undecodable_output) (Path path) |}
      else Raise ToolUnavailable) /\
  status Sessions.env_undecodable_output Examples.repo [] =
  (Raise (ValueError Sessions.cannot_decode),
   [EvSpawn ["git"; "status"] (Some "/repo")
      (ExitedUndecodable 0 "" Sessions.stray_byte Sessions.cannot_decode)]).
Proof.
  destruct (undecodable_output_propagation Sessions.env_undecodable_output
              Examples.repo OpStatus []
              [EvSpawn ["git"; "status"] (Some "/repo")
                 (ExitedUndecodable 0 "" Sessions.stray_byte Sessions.cannot_decode)]
              (Raise (ValueError Sessions.cannot_decode))
              ["git"; "status"] (Some "/repo") 0%Z "" Sessions.stray_byte
              Sessions.cannot_decode) as (H1 & H2 & H3).
  - reflexivity.
  - simpl. left. reflexivity.
  - split; [exact H1|]. split; [exact H2|]. split; [exact H3|]. reflexivity.
Defined.
